(** * MeetNote: the extension's recording session

    A shallow embedding of [chrome-extension/background.js] (the service
    worker that owns [recordingState]) and of [chrome-extension/popup.js]
    (the popup that talks to it, with its account forms).

    The JavaScript functions are written as programs of a small free monad
    [Prog]: a program is a tree whose nodes are the operations the source
    performs on its surroundings (the module-level variable, the [chrome.*]
    API, [fetch], [console], [Date.now]) and whose leaves are a normal
    return or a thrown error.  [try]/[catch] is a function on such trees.
    A program is run against an environment [Env] that fixes what the
    platform answers (the stored token, the behaviour of the network, the
    outcome of tab capture), producing the final [recordingState] and the
    trace of platform calls.

    [run] executes one handler from its call to the settlement of its
    promise.  [Background.schedule] lets handlers be parked at their
    awaits and interleave, as they do on the JavaScript event loop. *)

From Stdlib Require Import ZArith QArith String List Bool Lia DecimalString.
Import ListNotations.

Local Open Scope string_scope.
Local Open Scope Z_scope.

Set Implicit Arguments.

(** ** JavaScript values *)

(** The values that flow through the session: ids, tokens and tab handles
    are numbers or strings, or are missing ([null] / [undefined]). *)
Inductive JsVal : Type :=
| JUndefined
| JNull
| JNum (n : Z)
| JStr (s : string).

(** ToBoolean, as used by [!x], [if (x)] and [||]. *)
Definition truthy (v : JsVal) : bool :=
  match v with
  | JUndefined | JNull => false
  | JNum n => negb (n =? 0)
  | JStr s => negb (s =? "")%string
  end.

(** ToString, as used by a template literal. *)
Definition js_to_string (v : JsVal) : string :=
  match v with
  | JUndefined => "undefined"
  | JNull => "null"
  | JNum n => NilZero.string_of_int (Z.to_int n)
  | JStr s => s
  end.

(** Numbers of the highlight arithmetic: a rational or [NaN].  Rounding of
    double precision is not modelled. *)
Inductive JsNumber : Type :=
| NaN
| Num (q : Q).

(** ToNumber of a property that holds a millisecond count or is absent. *)
Definition to_number (v : option Z) : JsNumber :=
  match v with
  | None => NaN
  | Some t => Num (inject_Z t)
  end.

Definition js_sub (a b : JsNumber) : JsNumber :=
  match a, b with
  | Num x, Num y => Num (Qred (x - y))
  | _, _ => NaN
  end.

(** [Math.max(a, b)]: [NaN] as soon as one argument is. *)
Definition Math_max (a b : JsNumber) : JsNumber :=
  match a, b with
  | Num x, Num y => Num (if Qle_bool x y then y else x)
  | _, _ => NaN
  end.

(** [a / d] for a positive literal [d]. *)
Definition js_div (a : JsNumber) (d : positive) : JsNumber :=
  match a with
  | Num x => Num (Qred (x / inject_Z (Zpos d)))
  | NaN => NaN
  end.

Record JsError : Type := mkError {
  err_name : string;
  err_message : string
}.

(** [new Error(message)] *)
Definition Error (message : string) : JsError := mkError "Error" message.

Definition TypeError (message : string) : JsError := mkError "TypeError" message.

(** The rejection reason of a fetch aborted by [AbortSignal.timeout]. *)
Definition TimeoutError : JsError :=
  mkError "TimeoutError" "signal timed out".

(** ** Platform data *)

(** A [Blob]: its bytes and its MIME type. *)
Record Blob : Type := mkBlob {
  blob_bytes : list Byte.byte;
  blob_type : string
}.

Definition blob_size (b : Blob) : Z := Z.of_nat (List.length (blob_bytes b)).

(** [new Blob(parts, { type })]: the parts' bytes, one after the other. *)
Definition new_Blob (parts : list Blob) (type : string) : Blob :=
  mkBlob (concat (map blob_bytes parts)) type.

(** A parsed JSON body, as far as the code looks into it. *)
Inductive Json : Type :=
| JsonNull
| JsonObject (fields : list (string * JsVal)).

Fixpoint lookup_field (name : string) (fields : list (string * JsVal)) : JsVal :=
  match fields with
  | [] => JUndefined
  | (k, v) :: rest => if (k =? name)%string then v else lookup_field name rest
  end.

Record HttpResponse : Type := mkResponse {
  resp_ok : bool;
  resp_json : JsError + Json   (* what [response.json()] settles to *)
}.

Inductive Body : Type :=
| NoBody
| MeetingJson (title platform meeting_url : string)
| HighlightJson (title : string) (start_time end_time : JsNumber)
| AudioForm (field : string) (blob : Blob) (filename : string).

Record Request : Type := mkRequest {
  req_url : string;
  req_method : string;
  req_headers : list (string * string);
  req_body : Body;
  req_signal : option Z     (* [AbortSignal.timeout(ms)], when given *)
}.

Record Tab : Type := mkTab {
  tab_id : Z;
  tab_url : option string
}.

(** A [MediaStream] and a [MediaRecorder] are handles. *)
Definition Stream : Type := nat.

Record Recorder : Type := mkRecorder {
  rec_stream : Stream;
  rec_mimeType : string
}.

(** What the network does with a request, left to itself. *)
Inductive NetBehaviour : Type :=
| Responds (after : Z) (r : HttpResponse)
| Fails (after : Z) (e : JsError)
| Hangs.

Definition hangs (nb : NetBehaviour) : bool :=
  match nb with
  | Hangs => true
  | _ => false
  end.

(** [fetch] under an optional [AbortSignal.timeout(ms)]: the elapsed time
    and the settlement, or [None] when the promise never settles. *)
Definition settle (signal : option Z) (nb : NetBehaviour)
  : option (Z * (JsError + HttpResponse)) :=
  match signal, nb with
  | None, Responds t r => Some (t, inr r)
  | None, Fails t e => Some (t, inl e)
  | None, Hangs => None
  | Some ms, Responds t r =>
      if t <? ms then Some (t, inr r) else Some (ms, inl TimeoutError)
  | Some ms, Fails t e =>
      if t <? ms then Some (t, inl e) else Some (ms, inl TimeoutError)
  | Some ms, Hangs => Some (ms, inl TimeoutError)
  end.

(** ** Programs *)

Section Programs.

(** [E X]: an operation whose answer has type [X]. *)
Variable E : Type -> Type.

(** [Fork child k]: [child] is an [async] function called without
    [await]; the caller goes on with [k] and never sees how [child]
    ends. *)
Inductive Prog (A : Type) : Type :=
| Ret (a : A)
| Throw (e : JsError)
| Vis (X : Type) (o : E X) (k : X -> Prog A)
| Fork (child : Prog unit) (k : Prog A).

Arguments Ret {A} a.
Arguments Throw {A} e.
Arguments Vis {A X} o k.
Arguments Fork {A} child k.

Fixpoint bind {A B : Type} (p : Prog A) (f : A -> Prog B) : Prog B :=
  match p with
  | Ret a => f a
  | Throw e => Throw e
  | Vis o k => Vis o (fun x => bind (k x) f)
  | Fork child k => Fork child (bind k f)
  end.

(** [try { p } catch (error) { h error }] *)
Fixpoint try_catch {A : Type} (p : Prog A) (h : JsError -> Prog A) : Prog A :=
  match p with
  | Ret a => Ret a
  | Throw e => h e
  | Vis o k => Vis o (fun x => try_catch (k x) h)
  | Fork child k => Fork child (try_catch k h)
  end.

Definition call {X : Type} (o : E X) : Prog X := Vis o (fun x => Ret x).

(** A settlement that is a rejection or a thrown error becomes a throw. *)
Definition lift {X : Type} (r : JsError + X) : Prog X :=
  match r with
  | inl e => Throw e
  | inr x => Ret x
  end.

(** [f();] for an [async] function [f]. *)
Definition detached (p : Prog unit) : Prog unit := Fork p (Ret tt).

(** How a run of a program ends. *)
Inductive Outcome (A : Type) : Type :=
| Returned (a : A)
| Threw (e : JsError)
| Blocked.          (* an awaited promise never settles *)

Arguments Returned {A} a.
Arguments Threw {A} e.
Arguments Blocked {A}.

Section Run.

Variable W : Type.

(** The answer of the surroundings to one operation and the world
    after it; [None] when no answer ever comes. *)
Variable perform : forall X : Type, E X -> W -> option (X * W).

(** The world in which a program waits forever on [o]. *)
Variable stuck : forall X : Type, E X -> W -> W.

(** A program run from its call to the settlement of its promise.  A
    forked child is run in place, to its end, before its caller goes
    on; however the child ends, the caller goes on. *)
Fixpoint run {A : Type} (p : Prog A) (w : W) : Outcome A * W :=
  match p with
  | Ret a => (Returned a, w)
  | Throw e => (Threw e, w)
  | Vis o k =>
      match perform o w with
      | Some (x, w') => run (k x) w'
      | None => (Blocked, stuck o w)
      end
  | Fork child k => run k (snd (run child w))
  end.

End Run.

End Programs.

Arguments Ret {E A} a.
Arguments Throw {E A} e.
Arguments Vis {E A X} o k.
Arguments Fork {E A} child k.
Arguments bind {E A B} p f.
Arguments try_catch {E A} p h.
Arguments call {E X} o.
Arguments lift {E X} r.
Arguments detached {E} p.
Arguments run {E W} perform stuck {A} p w.
Arguments Returned {A} a.
Arguments Threw {A} e.
Arguments Blocked {A}.

Declare Scope prog_scope.
Delimit Scope prog_scope with prog.
Notation "x <- p ;; q" := (bind p (fun x => q))
  (at level 61, p at next level, right associativity) : prog_scope.
Notation "p ;; q" := (bind p (fun _ => q))
  (at level 61, right associativity) : prog_scope.

(** ** background.js *)

Module Background.

Local Open Scope prog_scope.

(** *** Constants and state (background.js, lines 6-18) *)

Definition API_BASE_URL : string := "https://meetnote-backend.onrender.com".
Definition CHUNK_DURATION : Z := 5000.

(** The object held by the module-level variable [recordingState].  The
    first five fields are the properties of the object literal.
    [startTime] is the property that [createHighlight] reads: neither
    object literal of the file defines it and no statement assigns it, so
    it is [None] (a read yields [undefined]) unless a state is built by
    hand. *)
Record RecordingState : Type := mkState {
  isRecording : bool;
  meetingId : JsVal;
  audioChunks : list Blob;
  mediaRecorder : option Recorder;
  currentTab : JsVal;
  startTime : option Z
}.

(** The object literal of lines 12-18, and again of lines 190-196. *)
Definition initialState : RecordingState :=
  mkState false JNull [] None JNull None.

Definition set_isRecording (b : bool) (rs : RecordingState) : RecordingState :=
  mkState b (meetingId rs) (audioChunks rs) (mediaRecorder rs) (currentTab rs)
          (startTime rs).

Definition set_meetingId (v : JsVal) (rs : RecordingState) : RecordingState :=
  mkState (isRecording rs) v (audioChunks rs) (mediaRecorder rs) (currentTab rs)
          (startTime rs).

Definition set_audioChunks (l : list Blob) (rs : RecordingState) : RecordingState :=
  mkState (isRecording rs) (meetingId rs) l (mediaRecorder rs) (currentTab rs)
          (startTime rs).

Definition set_mediaRecorder (r : option Recorder) (rs : RecordingState)
  : RecordingState :=
  mkState (isRecording rs) (meetingId rs) (audioChunks rs) r (currentTab rs)
          (startTime rs).

Definition set_currentTab (v : JsVal) (rs : RecordingState) : RecordingState :=
  mkState (isRecording rs) (meetingId rs) (audioChunks rs) (mediaRecorder rs) v
          (startTime rs).

(** *** Messages *)

(** Messages the worker sends to a tab's content script. *)
Inductive TabMessage : Type :=
| RECORDING_STARTED (meetingId : JsVal)
| RECORDING_STOPPED
| TRANSCRIPTION_COMPLETE (data : Json)
| TOGGLE_TRANSCRIPT.

(** A message received by [chrome.runtime.onMessage]; [msg_data] is
    [None] when the message has no [data] property. *)
Record Message : Type := mkMessage {
  msg_type : string;
  msg_data : option Json
}.

(** [sender.tab] is present only when the message comes from a tab (a
    content script); a message from the popup has none. *)
Record MessageSender : Type := mkSender {
  sender_tab : option Tab
}.

(** The argument of [sendResponse]. *)
Inductive Reply : Type :=
| ReplySuccess (success : bool)
| ReplyState (state : RecordingState).

(** *** Operations of the worker on its surroundings *)

Inductive Op : Type -> Type :=
| ReadState : Op RecordingState
| WriteState (rs : RecordingState) : Op unit
| DateNow : Op Z
| ConsoleLog (text : string) : Op unit
| ConsoleError (text : string) : Op unit
| StorageLocalGet (key : string) : Op JsVal
| Fetch (req : Request) : Op (JsError + HttpResponse)
| ResponseJson (r : HttpResponse) : Op (JsError + Json)
| TabsQuery : Op (list Tab)
| TabsSendMessage (tabId : JsVal) (m : TabMessage) : Op unit
| ActionSetBadgeText (text : string) : Op unit
| ActionSetBadgeBackgroundColor (color : string) : Op unit
| NotificationsCreate (title message : string) : Op unit
| TabCaptureCapture : Op (JsError + option Stream)
| NewMediaRecorder (stream : Stream) (mimeType : string) : Op (JsError + Recorder)
| MediaRecorderStart (r : Recorder) (timeslice : Z) : Op (JsError + unit)
| MediaRecorderStop (r : Recorder) : Op unit
| FileReaderReadAsDataURL (b : Blob) : Op unit
| SendResponse (r : Reply) : Op unit.

(** The operations whose result the source [await]s (or receives in a
    callback): the points where a handler gives the event loop back. *)
Definition is_await {X : Type} (o : Op X) : bool :=
  match o with
  | StorageLocalGet _ | Fetch _ | ResponseJson _ | TabsQuery
  | TabCaptureCapture => true
  | _ => false
  end.

(** A call the worker made on the platform. *)
Inductive Event : Type :=
| Performed (X : Type) (o : Op X).

Arguments Performed {X} o.

(** What the platform answers. *)
Record Env : Type := mkEnv {
  env_storage : string -> JsVal;            (* chrome.storage.local *)
  env_net : Request -> NetBehaviour;
  env_tabs : list Tab;                      (* the active tab, if any *)
  env_capture : JsError + option Stream;    (* chrome.tabCapture.capture *)
  env_new_recorder : Stream -> string -> JsError + Recorder;
  env_recorder_start : Recorder -> Z -> JsError + unit
}.

Record World : Type := mkWorld {
  w_state : RecordingState;
  w_clock : Z;                  (* what [Date.now()] returns, in ms *)
  w_trace : list Event          (* oldest call first *)
}.

Definition write (rs : RecordingState) (w : World) : World :=
  mkWorld rs (w_clock w) (w_trace w).

Definition record {X : Type} (o : Op X) (w : World) : World :=
  mkWorld (w_state w) (w_clock w) (w_trace w ++ [Performed o])%list.

Definition tick (t : Z) (w : World) : World :=
  mkWorld (w_state w) (w_clock w + t) (w_trace w).

(** One operation against the environment.  The clock advances by the
    time a fetch takes to settle; the other operations take no time.  A
    call is recorded in the trace when it returns (an awaited call: when
    its promise settles).  The calls on [chrome.*], [console] and the
    recorder that return nothing are taken not to throw. *)
Definition perform (env : Env) (X : Type) (o : Op X) (w : World)
  : option (X * World) :=
  match o in Op X return option (X * World) with
  | ReadState => Some (w_state w, w)
  | WriteState rs => Some (tt, write rs w)
  | DateNow => Some (w_clock w, w)
  | ConsoleLog text => Some (tt, record (ConsoleLog text) w)
  | ConsoleError text => Some (tt, record (ConsoleError text) w)
  | StorageLocalGet key =>
      Some (env_storage env key, record (StorageLocalGet key) w)
  | Fetch req =>
      match settle (req_signal req) (env_net env req) with
      | Some (t, r) => Some (r, tick t (record (Fetch req) w))
      | None => None
      end
  | ResponseJson r => Some (resp_json r, w)
  | TabsQuery => Some (env_tabs env, record TabsQuery w)
  | TabsSendMessage tabId m => Some (tt, record (TabsSendMessage tabId m) w)
  | ActionSetBadgeText text => Some (tt, record (ActionSetBadgeText text) w)
  | ActionSetBadgeBackgroundColor c =>
      Some (tt, record (ActionSetBadgeBackgroundColor c) w)
  | NotificationsCreate title message =>
      Some (tt, record (NotificationsCreate title message) w)
  | TabCaptureCapture => Some (env_capture env, record TabCaptureCapture w)
  | NewMediaRecorder s m =>
      Some (env_new_recorder env s m, record (NewMediaRecorder s m) w)
  | MediaRecorderStart r ts =>
      Some (env_recorder_start env r ts, record (MediaRecorderStart r ts) w)
  | MediaRecorderStop r => Some (tt, record (MediaRecorderStop r) w)
  | FileReaderReadAsDataURL b => Some (tt, record (FileReaderReadAsDataURL b) w)
  | SendResponse r => Some (tt, record (SendResponse r) w)
  end.

(** The events performed on the way from [w] to [w']. *)
Definition new_events (w w' : World) : list Event :=
  skipn (length (w_trace w)) (w_trace w').

(** Run a handler to the settlement of its promise. *)
Definition exec (env : Env) {A : Type} (p : Prog Op A) (w : World)
  : Outcome A * World :=
  run (perform env) (fun X o w => record o w) p w.

(** The fetch requests of a trace, oldest first. *)
Fixpoint fetches (tr : list Event) : list Request :=
  match tr with
  | [] => []
  | Performed o :: rest =>
      match o with
      | Fetch req => req :: fetches rest
      | _ => fetches rest
      end
  end.

(** The notifications of a trace, as (title, message). *)
Fixpoint notifications (tr : list Event) : list (string * string) :=
  match tr with
  | [] => []
  | Performed o :: rest =>
      match o with
      | NotificationsCreate t m => (t, m) :: notifications rest
      | _ => notifications rest
      end
  end.

(** The [console.error] lines of a trace. *)
Fixpoint console_errors (tr : list Event) : list string :=
  match tr with
  | [] => []
  | Performed o :: rest =>
      match o with
      | ConsoleError t => t :: console_errors rest
      | _ => console_errors rest
      end
  end.

(** *** Small steps of the source *)

(** [recordingState.f = v] *)
Definition assign (f : RecordingState -> RecordingState) : Prog Op unit :=
  rs <- call ReadState ;; call (WriteState (f rs)).

(** [o.name] for an object that came out of JSON or out of a message. *)
Definition get_property (o : option Json) (name : string) : Prog Op JsVal :=
  match o with
  | Some (JsonObject fields) => Ret (lookup_field name fields)
  | Some JsonNull =>
      Throw (TypeError ("Cannot read properties of null (reading '" ++ name ++ "')"))
  | None =>
      Throw (TypeError ("Cannot read properties of undefined (reading '" ++ name ++ "')"))
  end.

(** [await fetch(...)] *)
Definition fetch (req : Request) : Prog Op HttpResponse :=
  r <- call (Fetch req) ;; lift r.

(** [await response.json()] *)
Definition json (response : HttpResponse) : Prog Op Json :=
  r <- call (ResponseJson response) ;; lift r.

(** *** The functions of background.js *)

(** The argument of [fetch] in [startRecording] (lines 103-114). *)
Definition createMeetingRequest (token : JsVal) (meeting_url : string) : Request :=
  mkRequest
    (API_BASE_URL ++ "/api/meetings")
    "POST"
    [("Content-Type", "application/json");
     ("Authorization", "Bearer " ++ js_to_string token)]
    (MeetingJson "Meeting Recording" "detected" meeting_url)
    None.

(** The argument of [fetch] in [uploadAudioToBackend] (lines 292-308):
    the chunks are combined into one blob, the one part of the form. *)
Definition uploadAudioRequest (token : JsVal) (rs : RecordingState) : Request :=
  let audioBlob := new_Blob (audioChunks rs) "audio/webm" in
  mkRequest
    (API_BASE_URL ++ "/api/meetings/" ++ js_to_string (meetingId rs)
       ++ "/upload-audio")
    "POST"
    [("Authorization", "Bearer " ++ js_to_string token)]
    (AudioForm "audio" audioBlob "recording.webm")
    None.

(** [getCurrentTabUrl] (lines 406-409): [tabs[0]?.url || ''].  An empty
    url is falsy and is replaced by the empty string, that is, itself. *)
Definition getCurrentTabUrl : Prog Op string :=
  tabs <- call TabsQuery ;;
  Ret (match tabs with
       | t :: _ => match tab_url t with Some u => u | None => "" end
       | [] => ""
       end).

(** [sendAudioChunkToBackend] (lines 261-282).  The [onloadend] callback
    only computes a local [base64Audio]; it calls nothing. *)
Definition sendAudioChunkToBackend (audioBlob : Blob) : Prog Op unit :=
  try_catch
    (token <- call (StorageLocalGet "token") ;;
     rs <- call ReadState ;;
     if negb (truthy token) || negb (truthy (meetingId rs)) then Ret tt
     else call (FileReaderReadAsDataURL audioBlob))
    (fun error => call (ConsoleError "Failed to send audio chunk:")).

(** [mediaRecorder.ondataavailable] (lines 234-241), for an event whose
    [data] is the given blob. *)
Definition ondataavailable (data : Blob) : Prog Op unit :=
  if 0 <? blob_size data then
    rs <- call ReadState ;;
    call (WriteState (set_audioChunks (audioChunks rs ++ [data])%list rs)) ;;
    detached (sendAudioChunkToBackend data)
  else Ret tt.

(** [startTabAudioCapture] (lines 217-258).  The two event handlers it
    installs are [ondataavailable] above and an [onstop] that stops the
    stream's tracks. *)
Definition startTabAudioCapture (tabId : Z) : Prog Op unit :=
  try_catch
    (captured <- call TabCaptureCapture ;;
     stream <- lift captured ;;
     match stream with
     | None => Throw (Error "Failed to capture tab audio")
     | Some stream =>
         created <- call (NewMediaRecorder stream "audio/webm;codecs=opus") ;;
         mediaRecorder <- lift created ;;
         started <- call (MediaRecorderStart mediaRecorder CHUNK_DURATION) ;;
         lift started ;;
         assign (set_mediaRecorder (Some mediaRecorder)) ;;
         call (ConsoleLog "Tab audio capture started")
     end)
    (fun error =>
       call (ConsoleError "Tab audio capture error:") ;;
       Throw error).

(** [startRecording] (lines 87-150). *)
Definition startRecording (tabId : Z) : Prog Op unit :=
  try_catch
    (call (ConsoleLog "Starting recording for tab:") ;;
     assign (set_isRecording true) ;;
     assign (set_currentTab (JNum tabId)) ;;
     assign (set_audioChunks []) ;;
     token <- call (StorageLocalGet "token") ;;
     if negb (truthy token) then Throw (Error "Not authenticated")
     else
       meeting_url <- getCurrentTabUrl ;;
       response <- fetch (createMeetingRequest token meeting_url) ;;
       if negb (resp_ok response) then Throw (Error "Failed to create meeting")
       else
         meeting <- json response ;;
         id <- get_property (Some meeting) "id" ;;
         assign (set_meetingId id) ;;
         startTabAudioCapture tabId ;;
         call (TabsSendMessage (JNum tabId) (RECORDING_STARTED id)) ;;
         call (ActionSetBadgeText "REC") ;;
         call (ActionSetBadgeBackgroundColor "#ff0000") ;;
         call (ConsoleLog "Recording started, meeting ID:"))
    (fun error =>
       call (ConsoleError "Failed to start recording:") ;;
       assign (set_isRecording false) ;;
       call (NotificationsCreate "Recording Failed" (err_message error))).

(** [uploadAudioToBackend] (lines 285-328). *)
Definition uploadAudioToBackend : Prog Op unit :=
  try_catch
    (token <- call (StorageLocalGet "token") ;;
     rs <- call ReadState ;;
     if negb (truthy token) || negb (truthy (meetingId rs)) then Ret tt
     else
       response <- fetch (uploadAudioRequest token rs) ;;
       if negb (resp_ok response) then Throw (Error "Failed to upload audio")
       else
         result <- json response ;;
         call (ConsoleLog "Audio uploaded successfully:") ;;
         rs <- call ReadState ;;
         if truthy (currentTab rs)
         then call (TabsSendMessage (currentTab rs) (TRANSCRIPTION_COMPLETE result))
         else Ret tt)
    (fun error => call (ConsoleError "Failed to upload audio:")).

(** [stopRecording] (lines 153-201). *)
Definition stopRecording : Prog Op unit :=
  rs <- call ReadState ;;
  if negb (isRecording rs) then Ret tt
  else
    try_catch
      (call (ConsoleLog "Stopping recording") ;;
       assign (set_isRecording false) ;;
       rs <- call ReadState ;;
       match mediaRecorder rs with
       | Some r => call (MediaRecorderStop r)
       | None => Ret tt
       end ;;
       rs <- call ReadState ;;
       (if (0 <? Z.of_nat (length (audioChunks rs))) && truthy (meetingId rs)
        then uploadAudioToBackend
        else Ret tt) ;;
       rs <- call ReadState ;;
       (if truthy (currentTab rs)
        then call (TabsSendMessage (currentTab rs) RECORDING_STOPPED)
        else Ret tt) ;;
       call (ActionSetBadgeText "") ;;
       call (NotificationsCreate "Recording Complete"
               "Your meeting has been processed and is ready to view.") ;;
       call (WriteState initialState))
      (fun error => call (ConsoleError "Failed to stop recording:")).

(** [toggleRecording] (lines 204-214). *)
Definition toggleRecording : Prog Op unit :=
  rs <- call ReadState ;;
  if isRecording rs then detached stopRecording
  else
    tabs <- call TabsQuery ;;
    match tabs with
    | t :: _ => detached (startRecording (tab_id t))
    | [] => Ret tt
    end.

(** The window of a highlight in milliseconds (lines 341-343):
    [currentTime = Date.now() - recordingState.startTime],
    [startTime = Math.max(0, currentTime - 30000)], [endTime = currentTime]. *)
Definition highlightWindow (now : Z) (rs : RecordingState) : JsNumber * JsNumber :=
  let currentTime := js_sub (Num (inject_Z now)) (to_number (startTime rs)) in
  let startTime := Math_max (Num 0) (js_sub currentTime (Num (inject_Z 30000))) in
  let endTime := currentTime in
  (startTime, endTime).

(** The argument of [fetch] in [createHighlight] (lines 345-359), at the
    time [now] of [Date.now()]: the window's ends divided by 1000. *)
Definition createHighlightRequest (token : JsVal) (now : Z) (rs : RecordingState)
  : Request :=
  let '(startTime, endTime) := highlightWindow now rs in
  mkRequest
    (API_BASE_URL ++ "/api/meetings/" ++ js_to_string (meetingId rs)
       ++ "/highlights")
    "POST"
    [("Content-Type", "application/json");
     ("Authorization", "Bearer " ++ js_to_string token)]
    (HighlightJson "Highlight" (js_div startTime 1000) (js_div endTime 1000))
    None.

(** [createHighlight] (lines 331-373). *)
Definition createHighlight : Prog Op unit :=
  rs <- call ReadState ;;
  if negb (isRecording rs) || negb (truthy (meetingId rs)) then
    call (ConsoleLog "Cannot create highlight: not recording")
  else
    try_catch
      (token <- call (StorageLocalGet "token") ;;
       now <- call DateNow ;;
       rs <- call ReadState ;;
       response <- fetch (createHighlightRequest token now rs) ;;
       if resp_ok response
       then call (NotificationsCreate "Highlight Created"
                    "Your highlight has been saved!")
       else Ret tt)
      (fun error => call (ConsoleError "Failed to create highlight:")).

(** [toggleTranscript] (lines 376-384). *)
Definition toggleTranscript : Prog Op unit :=
  tabs <- call TabsQuery ;;
  match tabs with
  | t :: _ => call (TabsSendMessage (JNum (tab_id t)) TOGGLE_TRANSCRIPT)
  | [] => Ret tt
  end.

(** [handleMeetingDetected] (lines 387-397). *)
Definition handleMeetingDetected (data : option Json) (tabId : Z) : Prog Op unit :=
  call (ConsoleLog "Meeting detected:") ;;
  platform <- get_property data "platform" ;;
  call (NotificationsCreate "Meeting Detected"
          (js_to_string platform
             ++ " meeting detected. Click the extension to start recording.")).

(** [handleAudioChunk] (lines 400-403). *)
Definition handleAudioChunk (data : option Json) : Prog Op unit :=
  call (ConsoleLog "Audio chunk received:").

(** [handleCreateHighlight] (lines 412-414). *)
Definition handleCreateHighlight (data : option Json) : Prog Op unit :=
  createHighlight.

(** [sender.tab.id]: a TypeError when [sender.tab] is undefined. *)
Definition sender_tab_id (sender : MessageSender) : Prog Op Z :=
  match sender_tab sender with
  | Some t => Ret (tab_id t)
  | None =>
      Throw (TypeError "Cannot read properties of undefined (reading 'id')")
  end.

(** The [chrome.runtime.onMessage] listener (lines 51-84).  The [async]
    functions it calls are not awaited. *)
Definition onMessage (message : Message) (sender : MessageSender) : Prog Op bool :=
  call (ConsoleLog "Background received message:") ;;
  (if (msg_type message =? "START_RECORDING")%string then
     tabId <- sender_tab_id sender ;;
     detached (startRecording tabId) ;;
     call (SendResponse (ReplySuccess true))
   else if (msg_type message =? "STOP_RECORDING")%string then
     detached stopRecording ;;
     call (SendResponse (ReplySuccess true))
   else if (msg_type message =? "GET_RECORDING_STATE")%string then
     rs <- call ReadState ;;
     call (SendResponse (ReplyState rs))
   else if (msg_type message =? "CREATE_HIGHLIGHT")%string then
     detached (handleCreateHighlight (msg_data message)) ;;
     call (SendResponse (ReplySuccess true))
   else if (msg_type message =? "MEETING_DETECTED")%string then
     tabId <- sender_tab_id sender ;;
     handleMeetingDetected (msg_data message) tabId
   else if (msg_type message =? "AUDIO_CHUNK")%string then
     handleAudioChunk (msg_data message)
   else Ret tt) ;;
  Ret true.

(** The [chrome.commands.onCommand] listener (lines 34-48). *)
Definition onCommand (command : string) : Prog Op unit :=
  call (ConsoleLog "Command received:") ;;
  if (command =? "start-recording")%string then toggleRecording
  else if (command =? "create-highlight")%string then detached createHighlight
  else if (command =? "toggle-transcript")%string then toggleTranscript
  else Ret tt.

(** *** The event loop

    A handler runs without interruption up to its next [await]; there it
    is parked, and other handlers may run before its promise settles. *)

(** A parked handler: a program whose head is the operation it awaits. *)
Definition Task : Type := Prog Op unit.

Definition forget {A : Type} (p : Prog Op A) : Task := p ;; Ret tt.

(** Run [p] up to its first [await].  A forked child runs up to its own
    first [await] and is parked on its own; its caller goes on at once. *)
Fixpoint advance (env : Env) {A : Type} (p : Prog Op A) (w : World)
  : World * list Task :=
  match p with
  | Ret _ => (w, [])
  | Throw _ => (w, [])
  | Vis o k =>
      if is_await o then (w, [forget (Vis o k)])
      else match perform env o w with
           | Some (x, w') => advance env (k x) w'
           | None => (w, [])
           end
  | Fork child k =>
      let (w1, parked1) := advance env child w in
      let (w2, parked2) := advance env k w1 in
      (w2, parked1 ++ parked2)%list
  end.

(** The awaited promise of a parked task settles with the answer of
    [env]; the task runs on to its next [await].  [None]: it does not
    settle. *)
Definition resume (env : Env) {A : Type} (t : Prog Op A) (w : World)
  : option (World * list Task) :=
  match t with
  | Vis o k =>
      match perform env o w with
      | Some (x, w') => Some (advance env (k x) w')
      | None => None
      end
  | _ => Some (advance env t w)
  end.

Record System : Type := mkSystem {
  sys_world : World;
  sys_parked : list Task
}.

Fixpoint remove_nth {T : Type} (i : nat) (l : list T) : list T :=
  match l, i with
  | [], _ => []
  | _ :: rest, O => rest
  | x :: rest, S j => x :: remove_nth j rest
  end.

(** What the event loop does next: it delivers an event to its handler,
    or it settles the promise that the [i]-th parked task awaits. *)
Inductive Action : Type :=
| Deliver (env : Env) (handler : Task)
| Settle (env : Env) (i : nat).

Definition step (s : System) (a : Action) : System :=
  match a with
  | Deliver env handler =>
      let (w, parked) := advance env handler (sys_world s) in
      mkSystem w (sys_parked s ++ parked)%list
  | Settle env i =>
      match nth_error (sys_parked s) i with
      | Some t =>
          match resume env t (sys_world s) with
          | Some (w, parked) =>
              mkSystem w (remove_nth i (sys_parked s) ++ parked)%list
          | None => s
          end
      | None => s
      end
  end.

Definition schedule (actions : list Action) (s : System) : System :=
  fold_left step actions s.

(** The worker right after it is loaded. *)
Definition initialWorld (clock : Z) : World := mkWorld initialState clock [].

(** The events the worker has a listener for. *)
Inductive Incoming : Type :=
| RuntimeMessage (message : Message) (sender : MessageSender)
| Command (command : string)
| DataAvailable (data : Blob).

Definition listener (i : Incoming) : Task :=
  match i with
  | RuntimeMessage message sender => forget (onMessage message sender)
  | Command command => onCommand command
  | DataAvailable data => ondataavailable data
  end.

(** The systems the event loop can get into: any events, under any
    answers of the platform, in any order, with time passing in between. *)
Inductive reachable : System -> Prop :=
| reach_load (clock : Z) : reachable (mkSystem (initialWorld clock) [])
| reach_deliver (s : System) (env : Env) (i : Incoming) :
    reachable s -> reachable (step s (Deliver env (listener i)))
| reach_settle (s : System) (env : Env) (i : nat) :
    reachable s -> reachable (step s (Settle env i))
| reach_wait (s : System) (t : Z) :
    reachable s ->
    reachable (mkSystem (tick t (sys_world s)) (sys_parked s)).

Definition is_state_op {X : Type} (o : Op X) : bool :=
  match o with
  | ReadState | WriteState _ => true
  | _ => false
  end.

(** [keeps I p]: whenever [p] reads states that satisfy [I], it writes
    only states that satisfy [I]. *)
Inductive keeps (I : RecordingState -> Prop) : forall A : Type, Prog Op A -> Prop :=
| keeps_Ret (A : Type) (a : A) : keeps I (Ret a)
| keeps_Throw (A : Type) (e : JsError) : keeps I (@Throw Op A e)
| keeps_Read (A : Type) (k : RecordingState -> Prog Op A) :
    (forall rs, I rs -> keeps I (k rs)) -> keeps I (Vis ReadState k)
| keeps_Write (A : Type) (rs : RecordingState) (k : unit -> Prog Op A) :
    I rs -> keeps I (k tt) -> keeps I (Vis (WriteState rs) k)
| keeps_Vis (A X : Type) (o : Op X) (k : X -> Prog Op A) :
    is_state_op o = false -> (forall x, keeps I (k x)) -> keeps I (Vis o k)
| keeps_Fork (A : Type) (child : Prog Op unit) (k : Prog Op A) :
    keeps I child -> keeps I k -> keeps I (Fork child k).

(** The property [startTime] of [recordingState] is absent. *)
Definition noStartTime (rs : RecordingState) : Prop := startTime rs = None.

(** The notification that ends [stopRecording] (lines 182-187). *)
Definition completionNotice : string * string :=
  ("Recording Complete", "Your meeting has been processed and is ready to view.").


(** Whether [uploadAudioToBackend] gets as far as its request (line 289). *)
Definition sendsUpload (env : Env) (rs : RecordingState) : bool :=
  truthy (env_storage env "token") && truthy (meetingId rs).

(** Whether [stopRecording] gets as far as the upload request: line 167,
    then line 289. *)
Definition uploads (env : Env) (rs : RecordingState) : bool :=
  (0 <? Z.of_nat (length (audioChunks rs))) && truthy (meetingId rs)
  && truthy (env_storage env "token").

(** Whether the upload goes through: the request settles with an [ok]
    response whose body parses (lines 299-314). *)
Definition uploadSucceeds (env : Env) (rs : RecordingState) : bool :=
  match env_net env (uploadAudioRequest (env_storage env "token") rs) with
  | Responds _ r =>
      resp_ok r && match resp_json r with inr _ => true | inl _ => false end
  | _ => false
  end.

(** *** Further vocabulary for the worker's properties *)

(** Every chunk kept in [audioChunks] has bytes. *)
Definition chunksNonEmpty (rs : RecordingState) : Prop :=
  Forall (fun b => 0 < blob_size b) (audioChunks rs).

(** The message types the [switch] of the listener has a case for
    (lines 55-80). *)
Definition handledTypes : list string :=
  ["START_RECORDING"; "STOP_RECORDING"; "GET_RECORDING_STATE";
   "CREATE_HIGHLIGHT"; "MEETING_DETECTED"; "AUDIO_CHUNK"].

Definition isHandled (type : string) : bool :=
  existsb (String.eqb type) handledTypes.

(** The cases of the listener that evaluate [sender.tab.id]
    (lines 56 and 75). *)
Definition readsSenderTab (type : string) : bool :=
  (type =? "START_RECORDING")%string || (type =? "MEETING_DETECTED")%string.

(** Whether [data.platform] can be read (line 395): [data] is there and
    is not [null]. *)
Definition hasProperties (data : option Json) : bool :=
  match data with
  | Some (JsonObject _) => true
  | _ => false
  end.

(** The arguments of [sendResponse] in a trace, oldest first. *)
Fixpoint replies (tr : list Event) : list Reply :=
  match tr with
  | [] => []
  | Performed o :: rest =>
      match o with
      | SendResponse r => r :: replies rest
      | _ => replies rest
      end
  end.

(** The messages sent to tabs in a trace, oldest first. *)
Fixpoint tabMessages (tr : list Event) : list (JsVal * TabMessage) :=
  match tr with
  | [] => []
  | Performed o :: rest =>
      match o with
      | TabsSendMessage tabId m => (tabId, m) :: tabMessages rest
      | _ => tabMessages rest
      end
  end.

(** How often a trace calls [chrome.tabCapture.capture]. *)
Fixpoint captures (tr : list Event) : nat :=
  match tr with
  | [] => O
  | Performed o :: rest =>
      match o with
      | TabCaptureCapture => S (captures rest)
      | _ => captures rest
      end
  end.

(** The error with which the part of [startRecording] before the
    meeting id is stored ends, for a given behaviour of the
    create-meeting request: a status that is not [ok] (line 117), a
    rejected [fetch], a body that does not parse, a body that is [null]
    (line 121).  [None]: that part does not fail. *)
Definition createMeetingError (nb : NetBehaviour) : option JsError :=
  match nb with
  | Responds _ r =>
      if resp_ok r then
        match resp_json r with
        | inl e => Some e
        | inr JsonNull =>
            Some (TypeError "Cannot read properties of null (reading 'id')")
        | inr (JsonObject _) => None
        end
      else Some (Error "Failed to create meeting")
  | Fails _ e => Some e
  | Hangs => None
  end.

(** The url [getCurrentTabUrl] yields under [env]. *)
Definition currentTabUrl (env : Env) : string :=
  match env_tabs env with
  | t :: _ => match tab_url t with Some u => u | None => "" end
  | [] => ""
  end.

Definition threw {A : Type} (o : Outcome A) : bool :=
  match o with
  | Threw _ => true
  | _ => false
  end.

(** A request to the backend's meetings API: a POST to a url under
    [API_BASE_URL/api/meetings] with an [Authorization: Bearer ...]
    header. *)
Definition toBackend (req : Request) : bool :=
  prefix (API_BASE_URL ++ "/api/meetings") (req_url req)
  && (req_method req =? "POST")%string
  && existsb (fun h => (fst h =? "Authorization")%string && prefix "Bearer " (snd h))
       (req_headers req).

(** An operation that is not a [fetch], or a [fetch] to the backend. *)
Definition onlyBackend (X : Type) (o : Op X) : bool :=
  match o with
  | Fetch req => toBackend req
  | _ => true
  end.


(** [allOps ok p]: whatever the platform answers, [p] performs only
    operations that pass [ok]. *)
Inductive allOps (ok : forall X : Type, Op X -> bool)
  : forall A : Type, Prog Op A -> Prop :=
| allOps_Ret (A : Type) (a : A) : allOps ok (Ret a)
| allOps_Throw (A : Type) (e : JsError) : allOps ok (@Throw Op A e)
| allOps_Vis (A X : Type) (o : Op X) (k : X -> Prog Op A) :
    ok X o = true -> (forall x, allOps ok (k x)) -> allOps ok (Vis o k)
| allOps_Fork (A : Type) (child : Prog Op unit) (k : Prog Op A) :
    allOps ok child -> allOps ok k -> allOps ok (Fork child k).

Definition eventPasses (ok : forall X : Type, Op X -> bool) (ev : Event) : bool :=
  match ev with
  | Performed o => ok _ o
  end.

(** [p] never ends in a throw: whatever the platform answers, every
    error raised on the way is caught before [p] ends. *)
Definition neverThrows {A : Type} (p : Prog Op A) : Prop :=
  forall (env : Env) (w : World), threw (fst (exec env p w)) = false.

End Background.

(** ** popup.js *)

Module Popup.

Local Open Scope prog_scope.

Definition API_BASE_URL : string := "http://127.0.0.1:8000".

(** The double quote, for the HTML the popup writes. *)
Definition dq : string := String (Ascii.ascii_of_nat 34) EmptyString.

Definition CONNECTED_HTML : string :=
  "<span style=" ++ dq ++ "color: #10b981;" ++ dq ++ ">●</span> Connected".

Definition OFFLINE_HTML : string :=
  "<span style=" ++ dq ++ "color: #ef4444;" ++ dq ++ ">●</span> Offline".

(** Operations of the popup: its variable [isRecording], the elements it
    writes, [fetch] and [chrome.runtime.sendMessage]. *)
Inductive Op : Type -> Type :=
| ReadIsRecording : Op bool
| WriteIsRecording (b : bool) : Op unit
| Fetch (req : Request) : Op (JsError + HttpResponse)
| RuntimeSendMessage (m : Background.Message) : Op unit
| SetInnerHTML (element html : string) : Op unit
| SetTextContent (element text : string) : Op unit
| ClassListRemove (element class : string) : Op unit
| ClassListAdd (element class : string) : Op unit
| SetDisabled (element : string) (disabled : bool) : Op unit.

Inductive Event : Type :=
| Performed (X : Type) (o : Op X).

Arguments Performed {X} o.

Record World : Type := mkWorld {
  isRecording : bool;                 (* [let isRecording] of line 15 *)
  innerHTML : string -> string;       (* element name to its innerHTML *)
  w_clock : Z;
  w_trace : list Event
}.

Definition record {X : Type} (o : Op X) (w : World) : World :=
  mkWorld (isRecording w) (innerHTML w) (w_clock w)
          (w_trace w ++ [Performed o])%list.

Definition perform (net : Request -> NetBehaviour) (X : Type) (o : Op X)
    (w : World) : option (X * World) :=
  match o in Op X return option (X * World) with
  | ReadIsRecording => Some (isRecording w, w)
  | WriteIsRecording b =>
      Some (tt, mkWorld b (innerHTML w) (w_clock w) (w_trace w))
  | Fetch req =>
      match settle (req_signal req) (net req) with
      | Some (t, r) =>
          let w1 := record (Fetch req) w in
          Some (r, mkWorld (isRecording w1) (innerHTML w1) (w_clock w1 + t)
                           (w_trace w1))
      | None => None
      end
  | RuntimeSendMessage m => Some (tt, record (RuntimeSendMessage m) w)
  | SetInnerHTML element html =>
      let w1 := record (SetInnerHTML element html) w in
      Some (tt, mkWorld (isRecording w1)
                        (fun e => if (e =? element)%string then html
                                  else innerHTML w1 e)
                        (w_clock w1) (w_trace w1))
  | SetTextContent element text =>
      Some (tt, record (SetTextContent element text) w)
  | ClassListRemove element class =>
      Some (tt, record (ClassListRemove element class) w)
  | ClassListAdd element class =>
      Some (tt, record (ClassListAdd element class) w)
  | SetDisabled element d => Some (tt, record (SetDisabled element d) w)
  end.

Definition exec (net : Request -> NetBehaviour) {A : Type} (p : Prog Op A)
    (w : World) : Outcome A * World :=
  run (perform net) (fun X o w => record o w) p w.

(** The messages the popup sent to the background worker, oldest first. *)
Fixpoint sent (tr : list Event) : list Background.Message :=
  match tr with
  | [] => []
  | Performed o :: rest =>
      match o with
      | RuntimeSendMessage m => m :: sent rest
      | _ => sent rest
      end
  end.

(** A read of the variable [isRecording]. *)
Definition readIsRecording : Prog Op bool := call ReadIsRecording.

(** [updateRecordingUI] (lines 206-222). *)
Definition updateRecordingUI : Prog Op unit :=
  recording <- readIsRecording ;;
  if recording then
    call (SetTextContent "recordBtn" "⏹️ Stop Recording") ;;
    call (ClassListRemove "recordBtn" "primary-btn") ;;
    call (ClassListAdd "recordBtn" "danger-btn") ;;
    call (SetInnerHTML "recordingStatus"
            ("<span class=" ++ dq ++ "recording-dot" ++ dq ++ "></span> Recording")) ;;
    call (SetDisabled "highlightBtn" false)
  else
    call (SetTextContent "recordBtn" "🎙️ Start Recording") ;;
    call (ClassListRemove "recordBtn" "danger-btn") ;;
    call (ClassListAdd "recordBtn" "primary-btn") ;;
    call (SetInnerHTML "recordingStatus" "<span>●</span> Ready") ;;
    call (SetDisabled "highlightBtn" true).

(** [toggleRecording] (lines 191-203). *)
Definition toggleRecording : Prog Op unit :=
  recording <- readIsRecording ;;
  (if recording then
     call (RuntimeSendMessage (Background.mkMessage "STOP_RECORDING" None)) ;;
     call (WriteIsRecording false)
   else
     call (RuntimeSendMessage (Background.mkMessage "START_RECORDING" None)) ;;
     call (WriteIsRecording true)) ;;
  updateRecordingUI.

(** The argument of [fetch] in [checkBackendStatus] (lines 244-247). *)
Definition healthRequest : Request :=
  mkRequest (API_BASE_URL ++ "/api/health") "GET" [] NoBody (Some 5000).

(** [checkBackendStatus] (lines 242-257). *)
Definition checkBackendStatus : Prog Op unit :=
  try_catch
    (settled <- call (Fetch healthRequest) ;;
     response <- lift settled ;;
     if resp_ok response
     then call (SetInnerHTML "backendStatus" CONNECTED_HTML)
     else call (SetInnerHTML "backendStatus" OFFLINE_HTML))
    (fun error => call (SetInnerHTML "backendStatus" OFFLINE_HTML)).

(** The [sender] that [chrome.runtime.onMessage] hands to the worker for
    a message of the popup: the popup is an extension page, not a tab, so
    [sender.tab] is undefined. *)
Definition sender : Background.MessageSender := Background.mkSender None.

(** What the status line of the popup says about the backend. *)
Definition shownReachable (w : World) : bool :=
  (innerHTML w "backendStatus" =? CONNECTED_HTML)%string.

(** [toggleTranscript] (lines 237-239). *)
Definition toggleTranscript : Prog Op unit :=
  call (RuntimeSendMessage (Background.mkMessage "TOGGLE_TRANSCRIPT" None)).

(** The callback the popup gives to [sendMessage] for its
    GET_RECORDING_STATE message when it opens (lines 64-69), called with
    the worker's answer; [None]: [response] is undefined. *)
Definition onRecordingState (response : option Background.Reply) : Prog Op unit :=
  match response with
  | None => Ret tt
  | Some (Background.ReplyState state) =>
      if Background.isRecording state then
        call (WriteIsRecording true) ;;
        updateRecordingUI
      else Ret tt
  | Some (Background.ReplySuccess _) =>
      Throw (TypeError "Cannot read properties of undefined (reading 'isRecording')")
  end.

(** The HTML of the recording status line (lines 212 and 219). *)
Definition RECORDING_HTML : string :=
  "<span class=" ++ dq ++ "recording-dot" ++ dq ++ "></span> Recording".

Definition READY_HTML : string := "<span>●</span> Ready".

End Popup.

(** ** Sample sessions *)

Module Samples.

Import Background.

Definition storage (token : JsVal) (key : string) : JsVal :=
  if (key =? "token")%string then token else JUndefined.

(** An [ok] response whose body is [{ "id": id }]. *)
Definition created (id : Z) : HttpResponse :=
  mkResponse true (inr (JsonObject [("id", JNum id)])).

Definition meetTab : Tab := mkTab 5 (Some "https://meet.example/abc-defg-hij").

(** Logged in, backend up (every request answered after 120 ms with
    [created id]), capture granted. *)
Definition online (id : Z) : Env :=
  mkEnv (storage (JStr "tok"))
        (fun _ => Responds 120 (created id))
        [meetTab]
        (inr (Some 1%nat))
        (fun s m => inr (mkRecorder s m))
        (fun _ _ => inr tt).

(** As [online], but the capture of the tab's audio is refused. *)
Definition captureDenied (id : Z) : Env :=
  mkEnv (storage (JStr "tok"))
        (fun _ => Responds 120 (created id))
        [meetTab]
        (inl (Error "Permission denied"))
        (fun s m => inr (mkRecorder s m))
        (fun _ _ => inr tt).

(** As [online], but no token is stored (the user has logged out). *)
Definition loggedOut : Env :=
  mkEnv (storage JUndefined)
        (fun _ => Responds 120 (created 9))
        [meetTab]
        (inr (Some 1%nat))
        (fun s m => inr (mkRecorder s m))
        (fun _ _ => inr tt).

(** As [online], but the backend answers every request with a status
    that is not [ok]. *)
Definition backendDown : Env :=
  mkEnv (storage (JStr "tok"))
        (fun _ => Responds 120 (mkResponse false (inr JsonNull)))
        [meetTab]
        (inr (Some 1%nat))
        (fun s m => inr (mkRecorder s m))
        (fun _ _ => inr tt).

Definition chunk (n : nat) : Blob :=
  mkBlob (repeat Byte.x41 n) "audio/webm;codecs=opus".

Definition T0 : Z := 1700000000000.

(** A session started from tab 5 at [T0], meeting 7 ... *)
Definition started : World :=
  snd (exec (online 7) (startRecording 5) (initialWorld T0)).

(** ... that has recorded two chunks. *)
Definition recorded : World :=
  snd (exec (online 7) (ondataavailable (chunk 3))
         (snd (exec (online 7) (ondataavailable (chunk 2)) started))).

Definition startMessage : Message := mkMessage "START_RECORDING" None.

Definition fromMeetTab : MessageSender := mkSender (Some meetTab).

(** The content script of tab 5 asks for a recording. *)
Definition startEvent : Task := listener (RuntimeMessage startMessage fromMeetTab).

(** A first start, run until it waits for the answer to its
    create-meeting request ... *)
Definition firstStartInFlight : System :=
  schedule [Deliver (online 7) startEvent;
            Settle (online 7) 0%nat;      (* the token is read *)
            Settle (online 7) 0%nat]      (* the tab's url is read *)
           (mkSystem (initialWorld T0) []).

(** ... a second start, arriving then, run as far ... *)
Definition secondStartInFlight : System :=
  schedule [Deliver (online 8) startEvent;
            Settle (online 8) 1%nat;
            Settle (online 8) 1%nat]
           firstStartInFlight.

(** ... and both requests answered, the first one first. *)
Definition bothStartsSettled : System :=
  schedule [Settle (online 7) 0%nat;      (* first request: meeting 7 *)
            Settle (online 8) 0%nat;      (* second request: meeting 8 *)
            Settle (online 7) 0%nat; Settle (online 7) 0%nat;
            Settle (online 8) 0%nat; Settle (online 8) 0%nat]
           secondStartInFlight.

(** The popup, just opened, while nothing is being recorded. *)
Definition popupOpened : Popup.World := Popup.mkWorld false (fun _ => "") T0 [].

End Samples.

(** ** Further sample environments *)

Module Cases.

Import Background.

(** Logged in, capture granted, but the backend never answers. *)
Definition silent : Env :=
  mkEnv (Samples.storage (JStr "tok"))
        (fun _ => Hangs)
        [Samples.meetTab]
        (inr (Some 1%nat))
        (fun s m => inr (mkRecorder s m))
        (fun _ _ => inr tt).

(** Logged in, but no tab is active in the current window. *)
Definition noActiveTab : Env :=
  mkEnv (Samples.storage (JStr "tok"))
        (fun _ => Responds 120 (Samples.created 7))
        []
        (inr (Some 1%nat))
        (fun s m => inr (mkRecorder s m))
        (fun _ _ => inr tt).

(** As [Samples.online], but the body of every response is [{}]. *)
Definition noId : Env :=
  mkEnv (Samples.storage (JStr "tok"))
        (fun _ => Responds 120 (mkResponse true (inr (JsonObject []))))
        [Samples.meetTab]
        (inr (Some 1%nat))
        (fun s m => inr (mkRecorder s m))
        (fun _ _ => inr tt).

(** Three [dataavailable] events, the second with an empty blob, right
    after the worker is loaded. *)
Definition chunksArrived : System :=
  schedule
    [Deliver (Samples.online 7) (listener (DataAvailable (Samples.chunk 2)));
     Deliver (Samples.online 7) (listener (DataAvailable (Samples.chunk 0)));
     Deliver (Samples.online 7) (listener (DataAvailable (Samples.chunk 3)))]
    (mkSystem (initialWorld Samples.T0) []).

(** A start from tab 5, run until it waits for the capture of the tab:
    the meeting is created, nothing is captured yet. *)
Definition captureAwaited : System :=
  schedule [Deliver (Samples.online 7) Samples.startEvent;
            Settle (Samples.online 7) 0%nat;      (* the token is read *)
            Settle (Samples.online 7) 0%nat;      (* the tab's url is read *)
            Settle (Samples.online 7) 0%nat;      (* the meeting is created *)
            Settle (Samples.online 7) 0%nat]      (* the body is parsed *)
           (mkSystem (initialWorld Samples.T0) []).

(** A highlight is asked for then and goes through; after that the
    capture is refused. *)
Definition highlightWhileStarting : System :=
  schedule [Deliver (Samples.online 7)
              (listener (RuntimeMessage (mkMessage "CREATE_HIGHLIGHT" None)
                           Samples.fromMeetTab));
            Settle (Samples.online 7) 1%nat;      (* the token is read *)
            Settle (Samples.online 7) 1%nat;      (* the highlight is created *)
            Settle (Samples.captureDenied 7) 0%nat]
           captureAwaited.


End Cases.

(** ** popup.js: the views, the account forms and the highlight button *)

Module Account.

Local Open Scope prog_scope.

(** [try { p } finally { f }]: [f] runs however [p] ends, and [p]'s end
    stands unless [f] throws. *)
Fixpoint try_finally {E : Type -> Type} {A : Type} (p : Prog E A) (f : Prog E unit)
  : Prog E A :=
  match p with
  | Ret a => f ;; Ret a
  | Throw e => f ;; Throw e
  | Vis o k => Vis o (fun x => try_finally (k x) f)
  | Fork child k => Fork child (try_finally k f)
  end.

(** The bodies of the account requests: [JSON.stringify({ email,
    password })] and [JSON.stringify({ name, email, password })]. *)
Inductive Credentials : Type :=
| LoginJson (email password : string)
| RegisterJson (name email password : string).

Record AccountRequest : Type := mkAccountRequest {
  acc_url : string;
  acc_method : string;
  acc_headers : list (string * string);
  acc_body : Credentials
}.

(** Operations of these functions: the input fields, [alert], the
    elements they write, [fetch], the variable [token],
    [chrome.storage.local], [chrome.runtime.sendMessage] and
    [setTimeout].  The one callback given to [setTimeout] (lines
    231-233) assigns a text to an element's [textContent]; it is kept as
    the element and the text. *)
Inductive Op : Type -> Type :=
| GetValue (id : string) : Op string
| Alert (message : string) : Op unit
| SetDisabled (element : string) (disabled : bool) : Op unit
| GetTextContent (element : string) : Op string
| SetTextContent (element text : string) : Op unit
| Fetch (req : AccountRequest) : Op (JsError + HttpResponse)
| ResponseJson (r : HttpResponse) : Op (JsError + Json)
| ReadToken : Op JsVal
| WriteToken (v : JsVal) : Op unit
| StorageLocalSet (key : string) (v : JsVal) : Op unit
| StorageLocalRemove (key : string) : Op unit
| SetDisplay (element value : string) : Op unit
| ClassListAdd (element class : string) : Op unit
| ClassListRemove (element class : string) : Op unit
| ConsoleError (text : string) : Op unit
| RuntimeSendMessage (m : Background.Message) : Op unit
| SetTimeout (element text : string) (delay : Z) : Op unit.

Inductive Event : Type :=
| Performed (X : Type) (o : Op X).

Arguments Performed {X} o.

(** What the user typed into the fields, and what the network does. *)
Record Env : Type := mkEnv {
  env_value : string -> string;
  env_net : AccountRequest -> NetBehaviour
}.

Record World : Type := mkWorld {
  token : JsVal;                            (* [let token] of line 16 *)
  storage : string -> JsVal;                (* chrome.storage.local *)
  display : string -> string;               (* element to [style.display] *)
  disabled : string -> bool;
  textContent : string -> string;
  classList : string -> list string;
  timers : list (Z * (string * string));    (* due time, element, text *)
  w_clock : Z;
  w_trace : list Event
}.

Definition upd {V : Type} (m : string -> V) (key : string) (v : V) : string -> V :=
  fun k => if (k =? key)%string then v else m k.

Definition record {X : Type} (o : Op X) (w : World) : World :=
  mkWorld (token w) (storage w) (display w) (disabled w) (textContent w)
    (classList w) (timers w) (w_clock w) (w_trace w ++ [Performed o])%list.

Definition tick (t : Z) (w : World) : World :=
  mkWorld (token w) (storage w) (display w) (disabled w) (textContent w)
    (classList w) (timers w) (w_clock w + t) (w_trace w).

(** One operation.  Reads leave no trace.  [chrome.storage.local.set]
    does not store a property whose value is [undefined]; a key that is
    not stored reads as [undefined].  The elements are taken to exist and
    the calls on [chrome.storage] not to fail. *)
Definition perform (env : Env) (X : Type) (o : Op X) (w : World)
  : option (X * World) :=
  match o in Op X return option (X * World) with
  | GetValue id => Some (env_value env id, w)
  | Alert message => Some (tt, record (Alert message) w)
  | SetDisabled element d =>
      Some (tt, mkWorld (token w) (storage w) (display w)
                  (upd (disabled w) element d) (textContent w) (classList w)
                  (timers w) (w_clock w)
                  (w_trace w ++ [Performed (SetDisabled element d)])%list)
  | GetTextContent element => Some (textContent w element, w)
  | SetTextContent element text =>
      Some (tt, mkWorld (token w) (storage w) (display w) (disabled w)
                  (upd (textContent w) element text) (classList w)
                  (timers w) (w_clock w)
                  (w_trace w ++ [Performed (SetTextContent element text)])%list)
  | Fetch req =>
      match settle None (env_net env req) with
      | Some (t, r) => Some (r, tick t (record (Fetch req) w))
      | None => None
      end
  | ResponseJson r => Some (resp_json r, w)
  | ReadToken => Some (token w, w)
  | WriteToken v =>
      Some (tt, mkWorld v (storage w) (display w) (disabled w) (textContent w)
                  (classList w) (timers w) (w_clock w) (w_trace w))
  | StorageLocalSet key v =>
      Some (tt, mkWorld (token w)
                  (match v with
                   | JUndefined => storage w
                   | _ => upd (storage w) key v
                   end)
                  (display w) (disabled w) (textContent w) (classList w)
                  (timers w) (w_clock w)
                  (w_trace w ++ [Performed (StorageLocalSet key v)])%list)
  | StorageLocalRemove key =>
      Some (tt, mkWorld (token w) (upd (storage w) key JUndefined)
                  (display w) (disabled w) (textContent w) (classList w)
                  (timers w) (w_clock w)
                  (w_trace w ++ [Performed (StorageLocalRemove key)])%list)
  | SetDisplay element value =>
      Some (tt, mkWorld (token w) (storage w) (upd (display w) element value)
                  (disabled w) (textContent w) (classList w)
                  (timers w) (w_clock w)
                  (w_trace w ++ [Performed (SetDisplay element value)])%list)
  | ClassListAdd element class =>
      Some (tt, mkWorld (token w) (storage w) (display w) (disabled w)
                  (textContent w)
                  (upd (classList w) element
                     (if existsb (String.eqb class) (classList w element)
                      then classList w element
                      else (classList w element ++ [class])%list))
                  (timers w) (w_clock w)
                  (w_trace w ++ [Performed (ClassListAdd element class)])%list)
  | ClassListRemove element class =>
      Some (tt, mkWorld (token w) (storage w) (display w) (disabled w)
                  (textContent w)
                  (upd (classList w) element
                     (filter (fun c => negb (c =? class)%string)
                        (classList w element)))
                  (timers w) (w_clock w)
                  (w_trace w ++ [Performed (ClassListRemove element class)])%list)
  | ConsoleError text => Some (tt, record (ConsoleError text) w)
  | RuntimeSendMessage m => Some (tt, record (RuntimeSendMessage m) w)
  | SetTimeout element text delay =>
      Some (tt, mkWorld (token w) (storage w) (display w) (disabled w)
                  (textContent w) (classList w)
                  (timers w ++ [(w_clock w + delay, (element, text))])%list
                  (w_clock w)
                  (w_trace w ++ [Performed (SetTimeout element text delay)])%list)
  end.

Definition exec (env : Env) {A : Type} (p : Prog Op A) (w : World)
  : Outcome A * World :=
  run (perform env) (fun X o w => record o w) p w.

Definition new_events (w w' : World) : list Event :=
  skipn (length (w_trace w)) (w_trace w').

(** The requests of a trace, oldest first. *)
Fixpoint requests (tr : list Event) : list AccountRequest :=
  match tr with
  | [] => []
  | Performed o :: rest =>
      match o with
      | Fetch req => req :: requests rest
      | _ => requests rest
      end
  end.

(** The texts of the [alert]s of a trace, oldest first. *)
Fixpoint alerts (tr : list Event) : list string :=
  match tr with
  | [] => []
  | Performed o :: rest =>
      match o with
      | Alert message => message :: alerts rest
      | _ => alerts rest
      end
  end.

(** The messages sent to the worker in a trace, oldest first. *)
Fixpoint sent (tr : list Event) : list Background.Message :=
  match tr with
  | [] => []
  | Performed o :: rest =>
      match o with
      | RuntimeSendMessage m => m :: sent rest
      | _ => sent rest
      end
  end.

(** [data.access_token] for the parsed body [data]. *)
Definition get_property (o : Json) (name : string) : Prog Op JsVal :=
  match o with
  | JsonObject fields => Ret (lookup_field name fields)
  | JsonNull =>
      Throw (TypeError ("Cannot read properties of null (reading '" ++ name ++ "')"))
  end.

(** [showAuthenticatedView] (lines 73-76). *)
Definition showAuthenticatedView : Prog Op unit :=
  call (SetDisplay "authenticatedView" "block") ;;
  call (SetDisplay "unauthenticatedView" "none").

(** [showUnauthenticatedView] (lines 79-82). *)
Definition showUnauthenticatedView : Prog Op unit :=
  call (SetDisplay "authenticatedView" "none") ;;
  call (SetDisplay "unauthenticatedView" "block").

(** [showRegister] (lines 85-88). *)
Definition showRegister : Prog Op unit :=
  call (ClassListRemove "loginSection" "active") ;;
  call (ClassListAdd "registerSection" "active").

(** [showLogin] (lines 91-94). *)
Definition showLogin : Prog Op unit :=
  call (ClassListRemove "registerSection" "active") ;;
  call (ClassListAdd "loginSection" "active").

(** The argument of [fetch] in [login] (lines 110-116). *)
Definition loginRequest (email password : string) : AccountRequest :=
  mkAccountRequest (Popup.API_BASE_URL ++ "/api/auth/login") "POST"
    [("Content-Type", "application/json")] (LoginJson email password).

(** [login] (lines 97-137). *)
Definition login : Prog Op unit :=
  email <- call (GetValue "login-email") ;;
  password <- call (GetValue "login-password") ;;
  if (email =? "")%string || (password =? "")%string then
    call (Alert "Please enter email and password")
  else
    call (SetDisabled "loginBtn" true) ;;
    call (SetTextContent "loginBtn" "Logging in...") ;;
    try_finally
      (try_catch
         (settled <- call (Fetch (loginRequest email password)) ;;
          response <- lift settled ;;
          if negb (resp_ok response) then Throw (Error "Login failed")
          else
            parsed <- call (ResponseJson response) ;;
            data <- lift parsed ;;
            access_token <- get_property data "access_token" ;;
            call (WriteToken access_token) ;;
            token <- call ReadToken ;;
            call (StorageLocalSet "token" token) ;;
            showAuthenticatedView)
         (fun error =>
            call (Alert "Login failed. Please check your credentials.") ;;
            call (ConsoleError "Login error:")))
      (call (SetDisabled "loginBtn" false) ;;
       call (SetTextContent "loginBtn" "Login")).

(** The argument of [fetch] in [register] (lines 154-160). *)
Definition registerRequest (name email password : string) : AccountRequest :=
  mkAccountRequest (Popup.API_BASE_URL ++ "/api/auth/register") "POST"
    [("Content-Type", "application/json")] (RegisterJson name email password).

(** [register] (lines 140-181). *)
Definition register : Prog Op unit :=
  name <- call (GetValue "register-name") ;;
  email <- call (GetValue "register-email") ;;
  password <- call (GetValue "register-password") ;;
  if (name =? "")%string || (email =? "")%string || (password =? "")%string then
    call (Alert "Please fill in all fields")
  else
    call (SetDisabled "registerBtn" true) ;;
    call (SetTextContent "registerBtn" "Creating account...") ;;
    try_finally
      (try_catch
         (settled <- call (Fetch (registerRequest name email password)) ;;
          response <- lift settled ;;
          if negb (resp_ok response) then Throw (Error "Registration failed")
          else
            parsed <- call (ResponseJson response) ;;
            data <- lift parsed ;;
            access_token <- get_property data "access_token" ;;
            call (WriteToken access_token) ;;
            token <- call ReadToken ;;
            call (StorageLocalSet "token" token) ;;
            showAuthenticatedView)
         (fun error =>
            call (Alert "Registration failed. Email may already be in use.") ;;
            call (ConsoleError "Registration error:")))
      (call (SetDisabled "registerBtn" false) ;;
       call (SetTextContent "registerBtn" "Create Account")).

(** [logout] (lines 184-188). *)
Definition logout : Prog Op unit :=
  call (StorageLocalRemove "token") ;;
  call (WriteToken JNull) ;;
  showUnauthenticatedView.

(** The text the highlight button shows after a click (line 230). *)
Definition HIGHLIGHT_CREATED : string := "✓ Highlight Created!".

(** [createHighlight] (lines 225-234). *)
Definition createHighlight : Prog Op unit :=
  call (RuntimeSendMessage (Background.mkMessage "CREATE_HIGHLIGHT" None)) ;;
  originalText <- call (GetTextContent "highlightBtn") ;;
  call (SetTextContent "highlightBtn" HIGHLIGHT_CREATED) ;;
  call (SetTimeout "highlightBtn" originalText 2000).

(** The callback of a timer (lines 231-233). *)
Definition timeout_callback (timer : Z * (string * string)) : Prog Op unit :=
  call (SetTextContent (fst (snd timer)) (snd (snd timer))).

Definition due (now : Z) (timer : Z * (string * string)) : bool :=
  fst timer <=? now.

(** [t] milliseconds pass while the popup is idle: the timers that are
    due by then fire, in the order they were set (all timers of the
    popup have the same delay), and are gone. *)
Definition elapse (env : Env) (t : Z) (w : World) : World :=
  let now := w_clock w + t in
  fold_left (fun w1 timer => snd (exec env (timeout_callback timer) w1))
    (filter (due now) (timers w))
    (mkWorld (token w) (storage w) (display w) (disabled w) (textContent w)
       (classList w) (filter (fun timer => negb (due now timer)) (timers w))
       now (w_trace w)).

(** The token a response grants: the [access_token] of the body of an
    [ok] response whose body parses to an object. *)
Definition granted (nb : NetBehaviour) : option JsVal :=
  match nb with
  | Responds _ r =>
      if resp_ok r then
        match resp_json r with
        | inr (JsonObject fields) => Some (lookup_field "access_token" fields)
        | _ => None
        end
      else None
  | _ => None
  end.

(** What [chrome.storage.local] holds under a key after [set] was called
    with the value [v]. *)
Definition stored (before v : JsVal) : JsVal :=
  match v with
  | JUndefined => before
  | _ => v
  end.

(** Whether the element has the class. *)
Definition has_class (w : World) (element class : string) : bool :=
  existsb (String.eqb class) (classList w element).

(** The worker's environment, with [chrome.storage.local] as the popup
    left it. *)
Definition worker_env (w : World) (env : Background.Env) : Background.Env :=
  Background.mkEnv (storage w) (Background.env_net env) (Background.env_tabs env)
    (Background.env_capture env) (Background.env_new_recorder env)
    (Background.env_recorder_start env).

(** A sample popup, just opened, of a user who is not logged in. *)
Definition opened : World :=
  mkWorld JNull (fun _ => JUndefined)
    (upd (upd (fun _ => "") "authenticatedView" "none") "unauthenticatedView" "block")
    (fun _ => false)
    (upd (upd (fun _ => "") "loginBtn" "Login") "highlightBtn" "⭐ Create Highlight")
    (upd (fun _ => []) "loginSection" ["form"; "active"])
    [] 1700000000000 [].

(** What the user typed into the forms, and a network that does the
    same with every request. *)
Definition typed (name email password : string) (nb : NetBehaviour) : Env :=
  mkEnv (upd (upd (upd (upd (upd (fun _ => "") "login-email" email)
                             "login-password" password)
                        "register-name" name)
                   "register-email" email)
              "register-password" password)
        (fun _ => nb).

(** The backend grants the token [tok]. *)
Definition grants (tok : JsVal) : NetBehaviour :=
  Responds 80 (mkResponse true (inr (JsonObject [("access_token", tok);
                                                  ("token_type", JStr "bearer")]))).

Definition ada : Env := typed "Ada" "ada@example.org" "secret" (grants (JStr "tok")).

(** The password field was left empty. *)
Definition noPassword : Env := typed "Ada" "ada@example.org" "" (grants (JStr "tok")).

(** The backend never answers. *)
Definition unanswered : Env := typed "Ada" "ada@example.org" "secret" Hangs.

End Account.

(** * Properties *)

(** ** Running programs *)

Section RunFacts.

Variable E : Type -> Type.
Variable W : Type.
Variable perform : forall X : Type, E X -> W -> option (X * W).
Variable stuck : forall X : Type, E X -> W -> W.

Lemma run_bind (A B : Type) (p : Prog E A) (f : A -> Prog E B) (w : W) :
  run perform stuck (bind p f) w =
  match run perform stuck p w with
  | (Returned a, w') => run perform stuck (f a) w'
  | (Threw e, w') => (Threw e, w')
  | (Blocked, w') => (Blocked, w')
  end.
Proof.
  revert B f w.
  induction p as [A a | A e | A X o k IH | A child _ k IHk];
    intros B f w; simpl; auto.
  destruct (perform o w) as [[x w'] | ]; auto.
Qed.

Lemma run_try_catch (A : Type) (p : Prog E A) (h : JsError -> Prog E A) (w : W) :
  run perform stuck (try_catch p h) w =
  match run perform stuck p w with
  | (Returned a, w') => (Returned a, w')
  | (Threw e, w') => run perform stuck (h e) w'
  | (Blocked, w') => (Blocked, w')
  end.
Proof.
  revert h w.
  induction p as [A a | A e | A X o k IH | A child _ k IHk];
    intros h w; simpl; auto.
  destruct (perform o w) as [[x w'] | ]; auto.
Qed.

(** The caller of a forked child is not held up by it. *)
Lemma run_detached (child : Prog E unit) (w : W) :
  fst (run perform stuck (detached child) w) = Returned tt.
Proof. reflexivity. Qed.

End RunFacts.

(** ** Traces of the worker *)

Import Background.

Local Open Scope list_scope.

Lemma new_events_app (w : World) (rs : RecordingState) (c : Z) (tr : list Event) :
  new_events w (mkWorld rs c (w_trace w ++ tr)) = tr.
Proof.
  unfold new_events; simpl.
  rewrite skipn_app, skipn_all, Nat.sub_diag; reflexivity.
Qed.

Lemma new_events_record (w : World) (X : Type) (o : Op X) :
  new_events w (record o w) = [Performed o].
Proof. unfold record; apply new_events_app. Qed.

Lemma new_events_of_trace (w w' : World) (tr : list Event) :
  w_trace w' = w_trace w ++ tr -> new_events w w' = tr.
Proof.
  intros H; unfold new_events; rewrite H, skipn_app, skipn_all, Nat.sub_diag.
  reflexivity.
Qed.

(** Replace [new_events w w'], for a world [w'] built from [w] by the
    operations of a run, by the list of those operations. *)
Ltac new_events_tac :=
  erewrite new_events_of_trace
    by (cbn; repeat rewrite <- app_assoc; reflexivity);
  cbn.

Lemma fetches_app (tr1 tr2 : list Event) :
  fetches (tr1 ++ tr2) = fetches tr1 ++ fetches tr2.
Proof.
  induction tr1 as [ | [X o] tr1 IH]; simpl; auto.
  destruct o; simpl; rewrite ?IH; reflexivity.
Qed.

(** ** What the handlers keep invariant *)

Section Keeps.

Variable I : RecordingState -> Prop.

Lemma keeps_bind (A B : Type) (p : Prog Op A) (f : A -> Prog Op B) :
  keeps I p -> (forall a, keeps I (f a)) -> keeps I (bind p f).
Proof.
  intros Hp Hf; induction Hp; simpl; auto; constructor; auto.
Qed.

Lemma keeps_try_catch (A : Type) (p : Prog Op A) (h : JsError -> Prog Op A) :
  keeps I p -> (forall e, keeps I (h e)) -> keeps I (try_catch p h).
Proof.
  intros Hp Hh; induction Hp; simpl; auto; constructor; auto.
Qed.

Lemma keeps_call (X : Type) (o : Op X) :
  is_state_op o = false -> keeps I (call o).
Proof. intros H; apply keeps_Vis; auto; intros; constructor. Qed.

Lemma keeps_read : keeps I (call ReadState).
Proof. apply keeps_Read; intros; constructor. Qed.

Lemma keeps_lift (X : Type) (r : JsError + X) : keeps I (lift (E := Op) r).
Proof. destruct r; constructor. Qed.

Lemma keeps_assign (f : RecordingState -> RecordingState) :
  (forall rs, I rs -> I (f rs)) -> keeps I (assign f).
Proof.
  intros Hf; unfold assign; simpl.
  apply keeps_Read; intros rs Hrs.
  apply keeps_Write; auto; constructor.
Qed.

Lemma keeps_detached (p : Prog Op unit) : keeps I p -> keeps I (detached p).
Proof. intros; apply keeps_Fork; auto; constructor. Qed.

Lemma keeps_forget (A : Type) (p : Prog Op A) : keeps I p -> keeps I (forget p).
Proof. intros; apply keeps_bind; auto; intros; constructor. Qed.

(** An operation other than a write leaves [recordingState] alone. *)
Lemma perform_state (env : Env) (X : Type) (o : Op X) (w w' : World) (x : X) :
  is_state_op o = false -> perform env o w = Some (x, w') ->
  w_state w' = w_state w.
Proof.
  destruct o; simpl; try discriminate; intros _ H;
    try (injection H as <- <-; reflexivity).
  destruct (settle (req_signal req) (env_net env req)) as [[t r] | ];
    [injection H as <- <-; reflexivity | discriminate].
Qed.

Lemma keeps_exec (env : Env) (A : Type) (p : Prog Op A) :
  keeps I p -> forall w, I (w_state w) -> I (w_state (snd (exec env p w))).
Proof.
  unfold exec; induction 1 as
    [A a | A e | A k _ IH | A rs k Hrs _ IH | A X o k Ho _ IH
     | A child k _ IHc _ IHk]; intros w Hw; simpl; auto.
  - destruct (perform env o w) as [[x w'] | ] eqn:Hp.
    + apply IH; rewrite (perform_state _ _ _ Ho Hp); exact Hw.
    + exact Hw.
Qed.

Lemma keeps_advance (env : Env) (A : Type) (p : Prog Op A) :
  keeps I p -> forall w, I (w_state w) ->
  I (w_state (fst (advance env p w))) /\
  Forall (keeps I (A := unit)) (snd (advance env p w)).
Proof.
  induction 1 as
    [A a | A e | A k Hk IH | A rs k Hrs _ IH | A X o k Ho Hk IH
     | A child k _ IHc _ IHk]; intros w Hw; simpl; auto.
  - destruct (is_await o) eqn:Haw.
    + split; [exact Hw | ].
      constructor; [ | constructor].
      apply (keeps_forget (keeps_Vis _ _ Ho Hk)).
    + destruct (perform env o w) as [[x w'] | ] eqn:Hp.
      * apply IH; rewrite (perform_state _ _ _ Ho Hp); exact Hw.
      * split; [exact Hw | constructor].
  - destruct (IHc w Hw) as [Hw1 Hp1].
    destruct (advance env child w) as [w1 parked1]; simpl in *.
    destruct (IHk w1 Hw1) as [Hw2 Hp2].
    destruct (advance env k w1) as [w2 parked2]; simpl in *.
    split; [exact Hw2 | apply Forall_app; split; assumption].
Qed.

Lemma keeps_resume (env : Env) (A : Type) (t : Prog Op A) (w w' : World)
    (parked : list Task) :
  keeps I t -> I (w_state w) -> resume env t w = Some (w', parked) ->
  I (w_state w') /\ Forall (keeps I (A := unit)) parked.
Proof.
  intros Ht Hw.
  assert (Hadv : forall (B : Type) (p : Prog Op B) w1,
             keeps I p -> I (w_state w1) ->
             Some (advance env p w1) = Some (w', parked) ->
             I (w_state w') /\ Forall (keeps I (A := unit)) parked).
  { intros B p w1 Hp Hw1 Heq.
    injection Heq as Heq.
    pose proof (keeps_advance env Hp w1 Hw1) as Hk.
    rewrite Heq in Hk; exact Hk. }
  destruct Ht as [A' a | A' e | A' k Hk | A' rs k Hrs Hk | A' X o k Ho Hk
                  | A' child k Hc Hk]; simpl; intros Hr.
  - apply (Hadv _ (Ret a) w); [constructor | exact Hw | exact Hr].
  - apply (Hadv _ (@Throw Op A' e) w); [constructor | exact Hw | exact Hr].
  - apply (Hadv _ (k (w_state w)) w); auto.
  - apply (Hadv _ (k tt) (write rs w)); auto.
  - destruct (perform env o w) as [[x w1] | ] eqn:Hp; [ | discriminate].
    apply (Hadv _ (k x) w1); auto.
    rewrite (perform_state _ _ _ Ho Hp); exact Hw.
  - apply (Hadv _ (Fork child k) w); [constructor; auto | exact Hw | exact Hr].
Qed.

End Keeps.

(** ** [startTime] is never assigned *)

Lemma keeps_bind_read (I : RecordingState -> Prop) (B : Type)
    (f : RecordingState -> Prog Op B) :
  (forall rs, I rs -> keeps I (f rs)) -> keeps I (bind (call ReadState) f).
Proof. intros H; simpl; apply keeps_Read; exact H. Qed.

Lemma keeps_write (I : RecordingState -> Prop) (rs : RecordingState) :
  I rs -> keeps I (call (WriteState rs)).
Proof. intros H; apply keeps_Write; [exact H | constructor]. Qed.

Create HintDb keeps discriminated.

Ltac keeps_step :=
  match goal with
  | |- forall _, _ => intro
  | |- noStartTime _ => solve [assumption | reflexivity | unfold noStartTime in *; simpl; assumption]
  | |- keeps _ (Ret _) => constructor
  | |- keeps _ (Throw _) => constructor
  | |- keeps _ (bind (call ReadState) _) => apply keeps_bind_read
  | |- keeps _ (bind _ _) => apply keeps_bind
  | |- keeps _ (try_catch _ _) => apply keeps_try_catch
  | |- keeps _ (call ReadState) => apply keeps_read
  | |- keeps _ (call (WriteState _)) => apply keeps_write
  | |- keeps _ (call _) => apply keeps_call; reflexivity
  | |- keeps _ (assign _) => apply keeps_assign
  | |- keeps _ (lift _) => apply keeps_lift
  | |- keeps _ (detached _) => apply keeps_detached
  | |- keeps _ (forget _) => apply keeps_forget
  | |- keeps _ (fetch _) => unfold fetch
  | |- keeps _ (json _) => unfold json
  | |- keeps _ (get_property _ _) => unfold get_property
  | |- keeps _ (sender_tab_id _) => unfold sender_tab_id
  | |- keeps _ (if ?c then _ else _) => destruct c
  | |- keeps _ (match ?x with _ => _ end) => destruct x
  | |- keeps _ _ => solve [auto with keeps]
  end.

Ltac keeps_auto := repeat keeps_step.

Lemma keeps_getCurrentTabUrl : keeps noStartTime getCurrentTabUrl.
Proof. unfold getCurrentTabUrl; keeps_auto. Qed.

Lemma keeps_sendAudioChunkToBackend (b : Blob) :
  keeps noStartTime (sendAudioChunkToBackend b).
Proof. unfold sendAudioChunkToBackend; keeps_auto. Qed.

#[local] Hint Resolve keeps_getCurrentTabUrl keeps_sendAudioChunkToBackend : keeps.

Lemma keeps_ondataavailable (data : Blob) : keeps noStartTime (ondataavailable data).
Proof. unfold ondataavailable; keeps_auto. Qed.

Lemma keeps_startTabAudioCapture (tabId : Z) :
  keeps noStartTime (startTabAudioCapture tabId).
Proof. unfold startTabAudioCapture; keeps_auto. Qed.

#[local] Hint Resolve keeps_ondataavailable keeps_startTabAudioCapture : keeps.

Lemma keeps_startRecording (tabId : Z) : keeps noStartTime (startRecording tabId).
Proof. unfold startRecording; keeps_auto. Qed.

Lemma keeps_uploadAudioToBackend : keeps noStartTime uploadAudioToBackend.
Proof. unfold uploadAudioToBackend; keeps_auto. Qed.

#[local] Hint Resolve keeps_startRecording keeps_uploadAudioToBackend : keeps.

Lemma keeps_stopRecording : keeps noStartTime stopRecording.
Proof. unfold stopRecording; keeps_auto. Qed.

Lemma keeps_createHighlight : keeps noStartTime createHighlight.
Proof. unfold createHighlight; keeps_auto. Qed.

#[local] Hint Resolve keeps_stopRecording keeps_createHighlight : keeps.

Lemma keeps_toggleRecording : keeps noStartTime toggleRecording.
Proof. unfold toggleRecording; keeps_auto. Qed.

Lemma keeps_toggleTranscript : keeps noStartTime toggleTranscript.
Proof. unfold toggleTranscript; keeps_auto. Qed.

Lemma keeps_handleMeetingDetected (data : option Json) (tabId : Z) :
  keeps noStartTime (handleMeetingDetected data tabId).
Proof. unfold handleMeetingDetected; keeps_auto. Qed.

#[local] Hint Resolve keeps_toggleRecording keeps_toggleTranscript
  keeps_handleMeetingDetected : keeps.

Lemma keeps_onMessage (message : Message) (sender : MessageSender) :
  keeps noStartTime (onMessage message sender).
Proof.
  unfold onMessage, handleCreateHighlight, handleAudioChunk; keeps_auto.
Qed.

Lemma keeps_onCommand (command : string) : keeps noStartTime (onCommand command).
Proof. unfold onCommand; keeps_auto. Qed.

#[local] Hint Resolve keeps_onMessage keeps_onCommand : keeps.

Lemma keeps_listener (i : Incoming) : keeps noStartTime (listener i).
Proof. destruct i; simpl; keeps_auto. Qed.

(** In every system the event loop can get into, whatever the order in
    which events arrive and promises settle, [recordingState.startTime]
    is absent, and what the parked handlers will still write leaves it
    absent. *)
Lemma reachable_noStartTime (s : System) :
  reachable s ->
  noStartTime (w_state (sys_world s)) /\
  Forall (keeps noStartTime (A := unit)) (sys_parked s).
Proof.
  induction 1 as [clock | s env i _ [Hw Hp] | s env i _ [Hw Hp] | s t _ [Hw Hp]].
  - split; [reflexivity | constructor].
  - simpl.
    pose proof (keeps_advance env (keeps_listener i) (sys_world s) Hw) as [Ha Hb].
    destruct (advance env (listener i) (sys_world s)) as [w' parked]; simpl in *.
    split; [exact Ha | apply Forall_app; split; assumption].
  - simpl.
    destruct (nth_error (sys_parked s) i) as [t | ] eqn:Hnth; [ | auto].
    destruct (resume env t (sys_world s)) as [[w' parked] | ] eqn:Hres; [ | auto].
    assert (Ht : keeps noStartTime t).
    { rewrite Forall_forall in Hp; apply Hp; eapply nth_error_In; eauto. }
    destruct (@keeps_resume _ env _ t _ _ _ Ht Hw Hres) as [Ha Hb].
    simpl; split; [exact Ha | ].
    apply Forall_app; split; [ | exact Hb].
    clear - Hp; revert i; induction Hp as [ | x l Hx Hl IH]; intros [ | j]; simpl;
      auto.
  - simpl; auto.
Qed.

(** ** Running the handlers on arbitrary worlds *)

#[local] Arguments uploadAudioRequest : simpl never.
#[local] Arguments createMeetingRequest : simpl never.
#[local] Arguments createHighlightRequest : simpl never.

Lemma uploadAudioRequest_isRecording (token : JsVal) (b : bool) (rs : RecordingState) :
  uploadAudioRequest token (set_isRecording b rs) = uploadAudioRequest token rs.
Proof. reflexivity. Qed.

Lemma uploadAudioRequest_signal (token : JsVal) (rs : RecordingState) :
  req_signal (uploadAudioRequest token rs) = None.
Proof. reflexivity. Qed.

Lemma createMeetingRequest_signal (token : JsVal) (url : string) :
  req_signal (createMeetingRequest token url) = None.
Proof. reflexivity. Qed.

Lemma createHighlightRequest_signal (token : JsVal) (now : Z) (rs : RecordingState) :
  req_signal (createHighlightRequest token now rs) = None.
Proof.
  unfold createHighlightRequest; destruct (highlightWindow now rs); reflexivity.
Qed.

(** Rewrite with what is known about the state and the environment. *)
Ltac use_eqs :=
  repeat match goal with
    | H : truthy _ = _ |- _ => progress rewrite H
    | H : isRecording _ = _ |- _ => progress rewrite H
    | H : env_net _ _ = _ |- _ => progress rewrite H
    | H : env_capture _ = _ |- _ => progress rewrite H
    | H : resp_ok _ = _ |- _ => progress rewrite H
    | H : resp_json _ = _ |- _ => progress rewrite H
    | H : audioChunks _ = _ |- _ => progress rewrite H
    | H : mediaRecorder _ = _ |- _ => progress rewrite H
    end.

(** Run the program of the goal as far as the known facts allow. *)
Ltac crank :=
  repeat (progress (cbn; use_eqs;
                    rewrite ?uploadAudioRequest_signal, ?createMeetingRequest_signal,
                      ?createHighlightRequest_signal, ?uploadAudioRequest_isRecording)).

(** Close a goal [exists clock tr, exec ... = (_, mkWorld _ clock (_ ++ tr)) /\ _]. *)
Ltac close_run :=
  crank; do 2 eexists; split;
  [ unfold record, write, tick; cbn; rewrite <- ?app_assoc; cbn; reflexivity
  | crank; auto ].

Lemma exec_bind (env : Env) (A B : Type) (p : Prog Op A) (f : A -> Prog Op B)
    (w : World) :
  exec env (bind p f) w =
  match exec env p w with
  | (Returned a, w') => exec env (f a) w'
  | (Threw e, w') => (Threw e, w')
  | (Blocked, w') => (Blocked, w')
  end.
Proof. apply run_bind. Qed.

Lemma exec_try_catch (env : Env) (A : Type) (p : Prog Op A)
    (h : JsError -> Prog Op A) (w : World) :
  exec env (try_catch p h) w =
  match exec env p w with
  | (Returned a, w') => (Returned a, w')
  | (Threw e, w') => exec env (h e) w'
  | (Blocked, w') => (Blocked, w')
  end.
Proof. apply run_try_catch. Qed.

(** [uploadAudioToBackend] when its request, if made, settles: it returns
    and leaves [recordingState] alone; it makes the request once; every
    failure ends in [console.error]. *)
Lemma uploadAudioToBackend_exec (env : Env) (w : World) :
  sendsUpload env (w_state w) = false \/
  hangs (env_net env (uploadAudioRequest (env_storage env "token") (w_state w)))
    = false ->
  exists clock tr,
    exec env uploadAudioToBackend w
      = (Returned tt, mkWorld (w_state w) clock (w_trace w ++ tr)) /\
    fetches tr =
      (if sendsUpload env (w_state w)
       then [uploadAudioRequest (env_storage env "token") (w_state w)]
       else []) /\
    console_errors tr =
      (if sendsUpload env (w_state w) && negb (uploadSucceeds env (w_state w))
       then ["Failed to upload audio:"%string]
       else []) /\
    notifications tr = [].
Proof.
  intros Hs.
  unfold exec, uploadAudioToBackend, fetch, json, sendsUpload, uploadSucceeds in *.
  destruct (truthy (currentTab (w_state w))) eqn:Htab;
  destruct (truthy (meetingId (w_state w))) eqn:Hid;
  destruct (truthy (env_storage env "token")) eqn:Htok;
  cbn in Hs; try (destruct Hs as [Hs | Hs]; [discriminate | ]).
  all: try (destruct (env_net env (uploadAudioRequest (env_storage env "token")
                                     (w_state w)))
              as [t resp | t e | ] eqn:Hnet; [ | | discriminate ]).
  all: try (destruct (resp_ok resp) eqn:Hok).
  all: try (destruct (resp_json resp) as [e | result] eqn:Hjson).
  all: close_run.
Qed.

#[local] Arguments uploadAudioToBackend : simpl never.

Lemma notifications_app (tr1 tr2 : list Event) :
  notifications (tr1 ++ tr2) = notifications tr1 ++ notifications tr2.
Proof.
  induction tr1 as [ | [X o] tr1 IH]; simpl; auto.
  destruct o; simpl; rewrite ?IH; reflexivity.
Qed.

Lemma console_errors_app (tr1 tr2 : list Event) :
  console_errors (tr1 ++ tr2) = console_errors tr1 ++ console_errors tr2.
Proof.
  induction tr1 as [ | [X o] tr1 IH]; simpl; auto.
  destruct o; simpl; rewrite ?IH; reflexivity.
Qed.

(** [stopRecording] from a session that is recording, when the upload
    request (if it is made) settles: the run ends normally in the reset
    state; the only request it can make is the upload, made once; a
    failed upload is logged by [console.error]; the one notification is
    the completion notice. *)
Lemma stopRecording_exec (env : Env) (w : World) :
  isRecording (w_state w) = true ->
  uploads env (w_state w) = false \/
  hangs (env_net env (uploadAudioRequest (env_storage env "token") (w_state w)))
    = false ->
  exists clock tr,
    exec env stopRecording w
      = (Returned tt, mkWorld initialState clock (w_trace w ++ tr)) /\
    fetches tr =
      (if uploads env (w_state w)
       then [uploadAudioRequest (env_storage env "token") (w_state w)]
       else []) /\
    console_errors tr =
      (if uploads env (w_state w) && negb (uploadSucceeds env (w_state w))
       then ["Failed to upload audio:"%string]
       else []) /\
    notifications tr = [completionNotice].
Proof.
  intros Hrec Hs.
  unfold stopRecording, uploads in *.
  destruct (truthy (currentTab (w_state w))) eqn:Htab;
  destruct (mediaRecorder (w_state w)) as [r | ] eqn:Hmr;
  destruct (audioChunks (w_state w)) as [ | c cs] eqn:Hc;
  destruct (truthy (meetingId (w_state w))) eqn:Hid;
  cbn in Hs; unfold exec.
  all: try solve [close_run].
  all: crank.
  all: match goal with
       | |- context [run ?pf ?st (try_catch (bind uploadAudioToBackend ?k) ?h) ?w1] =>
           change (run pf st (try_catch (bind uploadAudioToBackend k) h) w1)
             with (exec env (try_catch (bind uploadAudioToBackend k) h) w1);
           rewrite exec_try_catch, exec_bind;
           destruct (uploadAudioToBackend_exec env w1) as (clock & tr & -> & Hf & Hce & Hn)
       end.
  all: try (unfold sendsUpload; cbn; rewrite Hid, andb_true_r; exact Hs).
  all: unfold exec; crank.
  all: do 2 eexists; split;
    [ unfold record, write, tick; cbn; rewrite <- ?app_assoc; cbn; reflexivity | ].
  all: cbn in Hf, Hce; unfold sendsUpload, uploadSucceeds in *; cbn in Hf, Hce;
    rewrite ?uploadAudioRequest_isRecording in Hf, Hce; rewrite Hid in Hf, Hce.
  all: cbn; rewrite ?fetches_app, ?console_errors_app, ?notifications_app, Hf, Hce, Hn.
  all: destruct (truthy (env_storage env "token")); cbn; rewrite ?app_nil_r;
    repeat split; reflexivity.
Qed.

Lemma start_no_token (env : Env) (w : World) (tabId : Z) :
  truthy (env_storage env "token") = false ->
  exec env (startRecording tabId) w =
  (Returned tt,
   mkWorld (set_isRecording false
              (set_audioChunks []
                 (set_currentTab (JNum tabId)
                    (set_isRecording true (w_state w)))))
           (w_clock w)
           (w_trace w ++
            [Performed (ConsoleLog "Starting recording for tab:");
             Performed (StorageLocalGet "token");
             Performed (ConsoleError "Failed to start recording:");
             Performed (NotificationsCreate "Recording Failed" "Not authenticated")])).
Proof.
  intros H; unfold exec, startRecording; crank.
  unfold record, write; cbn; rewrite <- !app_assoc; reflexivity.
Qed.

Lemma createHighlight_guard (env : Env) (w : World) :
  isRecording (w_state w) = false \/ truthy (meetingId (w_state w)) = false ->
  exec env createHighlight w =
  (Returned tt, record (ConsoleLog "Cannot create highlight: not recording") w).
Proof.
  intros [H | H]; unfold exec, createHighlight; cbn; rewrite H; cbn;
    rewrite ?orb_true_r; reflexivity.
Qed.

(** ** The session's properties *)

(** C4.  A stop of a session that is recording, whether the upload
    request succeeds or fails (it settles): the run ends normally and
    [recordingState] is the reset object ([isRecording] false,
    [audioChunks] empty, [meetingId] null).  At most one request is made;
    when the upload is made it is made exactly once, and when it fails
    the failure is written by [console.error] and nothing is sent
    again. *)
Theorem stop_resets_session (env : Env) (w : World) :
  isRecording (w_state w) = true ->
  hangs (env_net env (uploadAudioRequest (env_storage env "token") (w_state w)))
    = false ->
  let (outcome, w') := exec env stopRecording w in
  outcome = Returned tt /\
  w_state w' = initialState /\
  isRecording (w_state w') = false /\
  audioChunks (w_state w') = [] /\
  meetingId (w_state w') = JNull /\
  (length (fetches (new_events w w')) <= 1)%nat /\
  (uploads env (w_state w) = true ->
   fetches (new_events w w')
     = [uploadAudioRequest (env_storage env "token") (w_state w)] /\
   (uploadSucceeds env (w_state w) = false ->
    console_errors (new_events w w') = ["Failed to upload audio:"%string])).
Proof.
  intros Hrec Hs.
  destruct (stopRecording_exec env w Hrec (or_intror Hs))
    as (clock & tr & -> & Hf & Hc & _).
  rewrite new_events_app.
  repeat split; auto.
  - rewrite Hf; destruct (uploads env (w_state w)); simpl; lia.
  - rewrite Hf, H; reflexivity.
  - intros Hfail; rewrite Hc, H, Hfail; reflexivity.
Qed.

Lemma stop_resets_session_witness :
  isRecording (w_state Samples.recorded) = true /\
  hangs (env_net Samples.backendDown
           (uploadAudioRequest (env_storage Samples.backendDown "token")
              (w_state Samples.recorded))) = false /\
  let (outcome, w') := exec Samples.backendDown stopRecording Samples.recorded in
  outcome = Returned tt /\
  w_state w' = initialState /\
  isRecording (w_state w') = false /\
  audioChunks (w_state w') = [] /\
  meetingId (w_state w') = JNull /\
  (length (fetches (new_events Samples.recorded w')) <= 1)%nat /\
  (uploads Samples.backendDown (w_state Samples.recorded) = true ->
   fetches (new_events Samples.recorded w')
     = [uploadAudioRequest (env_storage Samples.backendDown "token")
          (w_state Samples.recorded)] /\
   (uploadSucceeds Samples.backendDown (w_state Samples.recorded) = false ->
    console_errors (new_events Samples.recorded w')
      = ["Failed to upload audio:"%string])).
Proof.
  split; [vm_compute; reflexivity | ].
  split; [vm_compute; reflexivity | ].
  apply (stop_resets_session Samples.backendDown Samples.recorded);
    vm_compute; reflexivity.
Defined.

(** C10.  A stop of a session that is recording while no token is stored
    or [meetingId] is null: no request is made, nothing is written by
    [console.error], the only notification is the completion notice, and
    [recordingState] is the reset object: the chunks are gone. *)
Theorem stop_discards_silently (env : Env) (w : World) :
  isRecording (w_state w) = true ->
  truthy (env_storage env "token") = false \/
  truthy (meetingId (w_state w)) = false ->
  let (outcome, w') := exec env stopRecording w in
  outcome = Returned tt /\
  w_state w' = initialState /\
  fetches (new_events w w') = [] /\
  console_errors (new_events w w') = [] /\
  notifications (new_events w w') = [completionNotice].
Proof.
  intros Hrec Hno.
  assert (Hup : uploads env (w_state w) = false).
  { unfold uploads; destruct Hno as [-> | ->];
      rewrite ?andb_false_r; reflexivity. }
  destruct (stopRecording_exec env w Hrec (or_introl Hup))
    as (clock & tr & -> & Hf & Hc & Hn).
  rewrite new_events_app, Hf, Hc, Hn, Hup; auto.
Qed.

Lemma stop_discards_silently_witness :
  isRecording (w_state Samples.recorded) = true /\
  (truthy (env_storage Samples.loggedOut "token") = false \/
   truthy (meetingId (w_state Samples.recorded)) = false) /\
  let (outcome, w') := exec Samples.loggedOut stopRecording Samples.recorded in
  outcome = Returned tt /\
  w_state w' = initialState /\
  fetches (new_events Samples.recorded w') = [] /\
  console_errors (new_events Samples.recorded w') = [] /\
  notifications (new_events Samples.recorded w') = [completionNotice].
Proof.
  split; [vm_compute; reflexivity | ].
  split; [left; vm_compute; reflexivity | ].
  apply (stop_discards_silently Samples.loggedOut Samples.recorded);
    [vm_compute; reflexivity | left; vm_compute; reflexivity].
Defined.

(** C7.  [startRecording] while no token is stored: the run ends
    normally with [isRecording] false, the user is notified
    "Recording Failed" / "Not authenticated", and no request is made. *)
Theorem start_without_token (env : Env) (w : World) (tabId : Z) :
  truthy (env_storage env "token") = false ->
  let (outcome, w') := exec env (startRecording tabId) w in
  outcome = Returned tt /\
  isRecording (w_state w') = false /\
  notifications (new_events w w') = [("Recording Failed", "Not authenticated")] /\
  fetches (new_events w w') = [].
Proof.
  intros H; rewrite (start_no_token env w tabId H), new_events_app.
  repeat split; reflexivity.
Qed.

Lemma start_without_token_witness :
  truthy (env_storage Samples.loggedOut "token") = false /\
  let (outcome, w') :=
    exec Samples.loggedOut (startRecording 5) (initialWorld Samples.T0) in
  outcome = Returned tt /\
  isRecording (w_state w') = false /\
  notifications (new_events (initialWorld Samples.T0) w')
    = [("Recording Failed", "Not authenticated")] /\
  fetches (new_events (initialWorld Samples.T0) w') = [].
Proof.
  split; [vm_compute; reflexivity | ].
  apply (start_without_token Samples.loggedOut (initialWorld Samples.T0) 5);
    vm_compute; reflexivity.
Defined.

(** C5, as the code has it.  The code keeps no status, only the flag
    [isRecording], which [startRecording] sets before it has done
    anything else.  [createHighlight] while [isRecording] is false or
    [meetingId] is null: it returns, [recordingState] is unchanged, and
    no request is made; all it does is one [console.log]. *)
Theorem createHighlight_rejected (env : Env) (w : World) :
  isRecording (w_state w) = false \/ truthy (meetingId (w_state w)) = false ->
  let (outcome, w') := exec env createHighlight w in
  outcome = Returned tt /\
  w_state w' = w_state w /\
  fetches (new_events w w') = [] /\
  new_events w w' = [Performed (ConsoleLog "Cannot create highlight: not recording")].
Proof.
  intros H; rewrite (createHighlight_guard env w H), new_events_record.
  repeat split; reflexivity.
Qed.

Lemma createHighlight_rejected_witness :
  (isRecording (w_state (initialWorld Samples.T0)) = false \/
   truthy (meetingId (w_state (initialWorld Samples.T0))) = false) /\
  let (outcome, w') :=
    exec (Samples.online 7) createHighlight (initialWorld Samples.T0) in
  outcome = Returned tt /\
  w_state w' = w_state (initialWorld Samples.T0) /\
  fetches (new_events (initialWorld Samples.T0) w') = [] /\
  new_events (initialWorld Samples.T0) w'
    = [Performed (ConsoleLog "Cannot create highlight: not recording")].
Proof.
  split; [left; vm_compute; reflexivity | ].
  apply (createHighlight_rejected (Samples.online 7) (initialWorld Samples.T0));
    left; vm_compute; reflexivity.
Defined.

(** C5, as stated, fails.  A start has created meeting 7 and waits for
    the capture of the tab: [isRecording] is true and [meetingId] is 7,
    but nothing is recorded yet.  A highlight asked for then is sent to
    the backend and the user is told 'Highlight Created'; the capture is
    then refused, so the session never got to record at all. *)
Lemma highlight_while_starting :
  isRecording (w_state (sys_world Cases.captureAwaited)) = true /\
  meetingId (w_state (sys_world Cases.captureAwaited)) = JNum 7 /\
  mediaRecorder (w_state (sys_world Cases.captureAwaited)) = None /\
  captures (w_trace (sys_world Cases.captureAwaited)) = O /\
  map req_url
    (fetches (new_events (sys_world Cases.captureAwaited)
                (sys_world Cases.highlightWhileStarting)))
    = [(API_BASE_URL ++ "/api/meetings/7/highlights")%string] /\
  notifications (new_events (sys_world Cases.captureAwaited)
                   (sys_world Cases.highlightWhileStarting))
    = [("Highlight Created"%string, "Your highlight has been saved!"%string);
       ("Recording Failed"%string, "Permission denied"%string)] /\
  mediaRecorder (w_state (sys_world Cases.highlightWhileStarting)) = None.
Proof. repeat split; vm_compute; reflexivity. Qed.

(** *** Chunks and the upload *)









(** *** A start while a session is under way *)

(** A run only adds to the trace. *)
Lemma perform_extends (env : Env) (X : Type) (o : Op X) (w w' : World) (x : X) :
  perform env o w = Some (x, w') -> exists tr, w_trace w' = w_trace w ++ tr.
Proof.
  destruct o; simpl; intros H;
    try (injection H as <- <-; first [ exists []; simpl; rewrite app_nil_r; reflexivity
                                    | eexists; reflexivity ]).
  destruct (settle (req_signal req) (env_net env req)) as [[t r] | ];
    [injection H as <- <-; eexists; reflexivity | discriminate].
Qed.

Lemma exec_extends (env : Env) (A : Type) (p : Prog Op A) (w : World) :
  exists tr, w_trace (snd (exec env p w)) = w_trace w ++ tr.
Proof.
  unfold exec; revert w.
  induction p as [A a | A e | A X o k IH | A child IHc k IHk]; intros w; simpl.
  - exists []; rewrite app_nil_r; reflexivity.
  - exists []; rewrite app_nil_r; reflexivity.
  - destruct (perform env o w) as [[x w'] | ] eqn:Hp.
    + destruct (perform_extends _ _ _ Hp) as [tr1 H1].
      destruct (IH x w') as [tr2 H2].
      exists (tr1 ++ tr2); rewrite H2, H1, app_assoc; reflexivity.
    + eexists; reflexivity.
  - destruct (IHc w) as [tr1 H1].
    destruct (IHk (snd (run (perform env) (fun X o w0 => record o w0) child w)))
      as [tr2 H2].
    exists (tr1 ++ tr2); rewrite H2, H1, app_assoc; reflexivity.
Qed.

(** [startRecording] has no guard: with a token stored, whatever
    [recordingState] holds, the first request it makes creates a
    meeting. *)
Lemma startRecording_unguarded (env : Env) (w : World) (tabId : Z) :
  truthy (env_storage env "token") = true ->
  exists tr,
    w_trace (snd (exec env (startRecording tabId) w))
    = w_trace w ++
      [Performed (ConsoleLog "Starting recording for tab:");
       Performed (StorageLocalGet "token");
       Performed TabsQuery;
       Performed (Fetch (createMeetingRequest (env_storage env "token")
                           (match env_tabs env with
                            | t :: _ =>
                                match tab_url t with
                                | Some u => u
                                | None => ""%string
                                end
                            | [] => ""%string
                            end)))] ++ tr.
Proof.
  intros Htok.
  unfold exec, startRecording, getCurrentTabUrl, fetch.
  crank.
  match goal with |- context [env_net env ?req] =>
    destruct (env_net env req) as [t resp | t e | ] eqn:Hnet end; cbn.
  3: exists []; unfold record, write; cbn; rewrite <- !app_assoc; reflexivity.
  all: try match goal with
       | |- context [run ?pf ?st ?p ?w1] =>
           destruct (exec_extends env p w1) as [tr Htr]; unfold exec in Htr;
           rewrite Htr; exists tr
       end.
  all: try eexists.
  all: unfold record, write, tick; cbn; rewrite <- !app_assoc; reflexivity.
Qed.

(** C1.  The code does not reject a start while a session is under way.
    (1) The session [Samples.recorded] is recording meeting 7 and holds
    two chunks; a START_RECORDING message from the tab's content script
    makes a create-meeting request, drops the chunks and replaces the
    meeting by meeting 8.  (2) A second START_RECORDING that arrives
    while the first start still waits for its create-meeting request
    ([isRecording] is already true) is run as well: once both requests
    are answered, two meetings have been created. *)
Theorem start_while_recording_creates_second_meeting :
  (isRecording (w_state Samples.recorded) = true /\
   meetingId (w_state Samples.recorded) = JNum 7 /\
   audioChunks (w_state Samples.recorded) = [Samples.chunk 2; Samples.chunk 3] /\
   let w' := snd (exec (Samples.online 8)
                    (onMessage Samples.startMessage Samples.fromMeetTab)
                    Samples.recorded) in
   fetches (new_events Samples.recorded w')
     = [createMeetingRequest (JStr "tok") "https://meet.example/abc-defg-hij"] /\
   meetingId (w_state w') = JNum 8 /\
   audioChunks (w_state w') = []) /\
  (isRecording (w_state (sys_world Samples.firstStartInFlight)) = true /\
   length (sys_parked Samples.firstStartInFlight) = 1%nat /\
   fetches (w_trace (sys_world Samples.bothStartsSettled))
     = [createMeetingRequest (JStr "tok") "https://meet.example/abc-defg-hij";
        createMeetingRequest (JStr "tok") "https://meet.example/abc-defg-hij"] /\
   sys_parked Samples.bothStartsSettled = []).
Proof. vm_compute; repeat split; reflexivity. Qed.

(** *** The window of a highlight *)

Lemma Qred_inject_Z (z : Z) : Qred (inject_Z z) = inject_Z z.
Proof.
  unfold Qred, inject_Z.
  generalize (Z.ggcd_gcd z 1) (Z.ggcd_correct_divisors z 1).
  destruct (Z.ggcd z 1) as [g [a b]]; simpl.
  rewrite Z.gcd_1_r; intros -> [Ha Hb].
  rewrite Z.mul_1_l in Ha, Hb; subst; reflexivity.
Qed.

Lemma js_sub_inject_Z (a b : Z) :
  js_sub (Num (inject_Z a)) (Num (inject_Z b)) = Num (inject_Z (a - b)).
Proof.
  unfold js_sub; f_equal.
  rewrite <- (Qred_inject_Z (a - b)); apply Qred_complete.
  unfold Qeq, Qminus, Qplus, Qopp, inject_Z; simpl; lia.
Qed.

(** What lines 341-343 compute once [startTime] holds a timestamp: at
    [d] ms after it, the window from [max 0 (d - 30000)] to [d]. *)
Lemma highlightWindow_with_startTime (rs : RecordingState) (t0 d : Z) :
  startTime rs = Some t0 ->
  highlightWindow (t0 + d) rs
  = (Num (inject_Z (Z.max 0 (d - 30000))), Num (inject_Z d)).
Proof.
  intros H; unfold highlightWindow; rewrite H; simpl to_number.
  rewrite js_sub_inject_Z; replace (t0 + d - t0) with d by lia.
  rewrite js_sub_inject_Z.
  f_equal; unfold Math_max, Qle_bool, inject_Z; simpl.
  rewrite Z.mul_1_r; destruct (Z.leb_spec 0 (d - 30000)); f_equal; f_equal; lia.
Qed.

Lemma highlightWindow_examples :
  let rs := mkState true (JNum 7) [] None (JNum 5) (Some Samples.T0) in
  highlightWindow (Samples.T0 + 45000) rs = (Num (inject_Z 15000), Num (inject_Z 45000)) /\
  highlightWindow (Samples.T0 + 10000) rs = (Num (inject_Z 0), Num (inject_Z 10000)).
Proof. split; reflexivity. Qed.

(** With [startTime] absent the window is not a pair of numbers. *)
Lemma highlightWindow_without_startTime (rs : RecordingState) (now : Z) :
  startTime rs = None -> highlightWindow now rs = (NaN, NaN).
Proof. intros H; unfold highlightWindow; rewrite H; reflexivity. Qed.

(** In every system the event loop can get into, at any time, the window
    of a highlight is [(NaN, NaN)]. *)
Lemma highlightWindow_reachable (s : System) (now : Z) :
  reachable s -> highlightWindow now (w_state (sys_world s)) = (NaN, NaN).
Proof.
  intros H; apply highlightWindow_without_startTime.
  apply (reachable_noStartTime H).
Qed.

(** C2.  The session [Samples.started] is recording meeting 7, and
    [startTime] is absent from its state: [startRecording] does not set
    it.  [createHighlight], called 45000 ms later, makes its request with
    [start_time] and [end_time] both [NaN], not 15 and 45; called
    10000 ms later, again both [NaN], not 0 and 10. *)
Theorem createHighlight_sends_NaN_window :
  isRecording (w_state Samples.started) = true /\
  mediaRecorder (w_state Samples.started) <> None /\
  startTime (w_state Samples.started) = None /\
  fetches (new_events (tick 45000 Samples.started)
             (snd (exec (Samples.online 7) createHighlight
                     (tick 45000 Samples.started))))
    = [mkRequest
         "https://meetnote-backend.onrender.com/api/meetings/7/highlights"
         "POST"
         [("Content-Type", "application/json"%string);
          ("Authorization", "Bearer tok"%string)]
         (HighlightJson "Highlight" NaN NaN)
         None] /\
  fetches (new_events (tick 10000 Samples.started)
             (snd (exec (Samples.online 7) createHighlight
                     (tick 10000 Samples.started))))
    = [mkRequest
         "https://meetnote-backend.onrender.com/api/meetings/7/highlights"
         "POST"
         [("Content-Type", "application/json"%string);
          ("Authorization", "Bearer tok"%string)]
         (HighlightJson "Highlight" NaN NaN)
         None].
Proof.
  split; [vm_compute; reflexivity | ].
  split; [vm_compute; discriminate | ].
  repeat split; vm_compute; reflexivity.
Qed.

(** *** A start that fails after the meeting is created *)

(** Whenever the meeting is created and the capture is then refused,
    [startRecording] ends with [isRecording] false and with the id of the
    meeting it created still in [meetingId]. *)
Lemma startRecording_capture_rejected (env : Env) (w : World) (tabId t : Z)
    (resp : HttpResponse) (fields : list (string * JsVal)) (e : JsError) :
  truthy (env_storage env "token") = true ->
  (forall req, env_net env req = Responds t resp) ->
  resp_ok resp = true ->
  resp_json resp = inr (JsonObject fields) ->
  env_capture env = inl e ->
  w_state (snd (exec env (startRecording tabId) w))
  = set_isRecording false
      (set_meetingId (lookup_field "id" fields)
         (set_audioChunks []
            (set_currentTab (JNum tabId) (set_isRecording true (w_state w))))).
Proof.
  intros Htok Hnet Hok Hjson Hcap.
  unfold exec, startRecording, startTabAudioCapture, getCurrentTabUrl, fetch, json.
  crank; rewrite Hnet; crank; reflexivity.
Qed.

(** C3.  A start from the fresh state, logged in, the backend creating
    meeting 7, the capture of the tab refused: the session is back to
    [isRecording] false, no recorder was ever installed, the user is
    told "Recording Failed", and [meetingId] is 7, not null. *)
Theorem failed_capture_leaves_meetingId :
  let w' := snd (exec (Samples.captureDenied 7) (startRecording 5)
                   (initialWorld Samples.T0)) in
  isRecording (w_state w') = false /\
  mediaRecorder (w_state w') = None /\
  notifications (w_trace w') = [("Recording Failed", "Permission denied")] /\
  meetingId (w_state w') = JNum 7.
Proof. vm_compute; repeat split; reflexivity. Qed.

(** *** The popup's start button *)

(** With a tab behind the sender, the listener answers a
    START_RECORDING message. *)
Lemma onMessage_start_from_tab (env : Env) (w : World) (t : Tab) :
  fst (exec env (onMessage Samples.startMessage (mkSender (Some t))) w)
  = Returned true.
Proof. reflexivity. Qed.

(** C9.  The popup's record button, pressed while nothing is recorded,
    sends the one message [{ type: 'START_RECORDING' }] and switches the
    popup to "recording".  The worker's listener, given that message
    with the popup as its sender, throws a TypeError at [sender.tab.id]:
    [startRecording] is not called, no response is sent, and
    [recordingState] is as before. *)
Theorem popup_start_message_throws :
  (forall net,
     let w' := snd (Popup.exec net Popup.toggleRecording Samples.popupOpened) in
     Popup.sent (Popup.w_trace w') = [Samples.startMessage] /\
     Popup.isRecording w' = true) /\
  (forall env w,
     exec env (onMessage Samples.startMessage Popup.sender) w
     = (Threw (TypeError "Cannot read properties of undefined (reading 'id')"),
        record (ConsoleLog "Background received message:") w)).
Proof. split; [intros net; split; reflexivity | intros env w; reflexivity]. Qed.

(** *** The popup's health check *)

(** C8.  Whatever the network does with the health request (an answer,
    an error, or nothing at all), [checkBackendStatus] ends normally: it
    does not throw and it does not wait forever.  At most 5000 ms have
    passed.  The status line then says "Connected" exactly when an [ok]
    response came in less than 5000 ms; in every other case (a response
    that is not [ok], a network error, the timeout) it says "Offline". *)
Theorem checkBackendStatus_settles (net : Request -> NetBehaviour) (w : Popup.World) :
  let (outcome, w') := Popup.exec net Popup.checkBackendStatus w in
  outcome = Returned tt /\
  Popup.w_clock w' <= Popup.w_clock w + 5000 /\
  Popup.innerHTML w' "backendStatus"
    = (if Popup.shownReachable w' then Popup.CONNECTED_HTML else Popup.OFFLINE_HTML) /\
  Popup.shownReachable w'
    = match net Popup.healthRequest with
      | Responds t r => (t <? 5000) && resp_ok r
      | Fails _ _ | Hangs => false
      end.
Proof.
  unfold Popup.exec, Popup.checkBackendStatus, Popup.shownReachable; simpl.
  destruct (net Popup.healthRequest) as [t r | t e | ]; simpl.
  - destruct (Z.ltb_spec t 5000); simpl.
    + destruct (resp_ok r); simpl; repeat split; auto; lia.
    + repeat split; auto; lia.
  - destruct (Z.ltb_spec t 5000); simpl; repeat split; auto; lia.
  - repeat split; auto; lia.
Qed.


(** * Further properties of the worker *)

(** ** Stopping *)

Lemma stopRecording_guard (env : Env) (w : World) :
  isRecording (w_state w) = false ->
  exec env stopRecording w = (Returned tt, w).
Proof.
  intros H; unfold exec, stopRecording; cbn; rewrite H; reflexivity.
Qed.

(** X1.  [stopRecording] while [isRecording] is false returns at once:
    no call on the platform, no request, [recordingState] untouched,
    even when chunks or a [meetingId] are still held. *)
Theorem stop_when_not_recording (env : Env) (w : World) :
  isRecording (w_state w) = false ->
  exec env stopRecording w = (Returned tt, w) /\
  new_events w (snd (exec env stopRecording w)) = [].
Proof.
  intros H; rewrite (stopRecording_guard env w H); split; [reflexivity | ].
  unfold new_events; simpl; apply skipn_all.
Qed.

Lemma stop_when_not_recording_witness :
  isRecording
    (w_state (snd (exec (Samples.captureDenied 7) (startRecording 5)
                     (initialWorld Samples.T0)))) = false /\
  exec Samples.loggedOut stopRecording
    (snd (exec (Samples.captureDenied 7) (startRecording 5)
            (initialWorld Samples.T0)))
  = (Returned tt,
     snd (exec (Samples.captureDenied 7) (startRecording 5)
            (initialWorld Samples.T0))) /\
  new_events
    (snd (exec (Samples.captureDenied 7) (startRecording 5)
            (initialWorld Samples.T0)))
    (snd (exec Samples.loggedOut stopRecording
            (snd (exec (Samples.captureDenied 7) (startRecording 5)
                    (initialWorld Samples.T0))))) = [].
Proof.
  split; [vm_compute; reflexivity | ].
  apply (stop_when_not_recording Samples.loggedOut
           (snd (exec (Samples.captureDenied 7) (startRecording 5)
                   (initialWorld Samples.T0))));
    vm_compute; reflexivity.
Defined.

(** X2.  Stopping is idempotent: after a stop of a recording session
    (its upload settled), a second stop does nothing, so the audio is
    uploaded at most once however often stop is asked for. *)
Theorem second_stop_does_nothing (env1 env2 : Env) (w : World) :
  isRecording (w_state w) = true ->
  hangs (env_net env1 (uploadAudioRequest (env_storage env1 "token") (w_state w)))
    = false ->
  exec env2 stopRecording (snd (exec env1 stopRecording w))
  = (Returned tt, snd (exec env1 stopRecording w)).
Proof.
  intros Hrec Hs.
  destruct (stopRecording_exec env1 w Hrec (or_intror Hs))
    as (clock & tr & -> & _).
  apply stopRecording_guard; reflexivity.
Qed.

Lemma second_stop_does_nothing_witness :
  isRecording (w_state Samples.recorded) = true /\
  hangs (env_net (Samples.online 7)
           (uploadAudioRequest (env_storage (Samples.online 7) "token")
              (w_state Samples.recorded))) = false /\
  exec (Samples.online 7) stopRecording
    (snd (exec (Samples.online 7) stopRecording Samples.recorded))
  = (Returned tt, snd (exec (Samples.online 7) stopRecording Samples.recorded)).
Proof.
  split; [vm_compute; reflexivity | ].
  split; [vm_compute; reflexivity | ].
  apply (second_stop_does_nothing (Samples.online 7) (Samples.online 7)
           Samples.recorded); vm_compute; reflexivity.
Defined.

(** ** What is caught and what is not *)

Section NeverThrows.

Lemma neverThrows_Ret (A : Type) (a : A) : neverThrows (Ret (E := Op) a).
Proof. intros env w; reflexivity. Qed.

Lemma neverThrows_call (X : Type) (o : Op X) : neverThrows (call o).
Proof.
  intros env w; unfold exec, call; simpl.
  destruct (perform env o w) as [[x w'] | ]; reflexivity.
Qed.

Lemma neverThrows_bind (A B : Type) (p : Prog Op A) (f : A -> Prog Op B) :
  neverThrows p -> (forall a, neverThrows (f a)) -> neverThrows (bind p f).
Proof.
  intros Hp Hf env w; rewrite exec_bind.
  specialize (Hp env w).
  destruct (exec env p w) as [[a | e | ] w']; simpl in *;
    [apply Hf | discriminate | reflexivity].
Qed.

(** A [try] whose [catch] block never throws never throws. *)
Lemma neverThrows_try_catch (A : Type) (p : Prog Op A) (h : JsError -> Prog Op A) :
  (forall e, neverThrows (h e)) -> neverThrows (try_catch p h).
Proof.
  intros Hh env w; rewrite exec_try_catch.
  destruct (exec env p w) as [[a | e | ] w']; simpl; [reflexivity | apply Hh | reflexivity].
Qed.

Lemma neverThrows_assign (f : RecordingState -> RecordingState) :
  neverThrows (assign f).
Proof. intros env w; reflexivity. Qed.

(** The caller of an un-awaited [async] function does not see its
    rejection. *)
Lemma neverThrows_Fork (A : Type) (child : Prog Op unit) (k : Prog Op A) :
  neverThrows k -> neverThrows (Fork child k).
Proof. intros Hk env w; apply Hk. Qed.

Lemma neverThrows_detached (child : Prog Op unit) : neverThrows (detached child).
Proof. apply neverThrows_Fork, neverThrows_Ret. Qed.

End NeverThrows.

Ltac quiet_step :=
  match goal with
  | |- forall _, _ => intro
  | |- neverThrows (Ret _) => apply neverThrows_Ret
  | |- neverThrows (try_catch _ _) => apply neverThrows_try_catch
  | |- neverThrows (bind _ _) => apply neverThrows_bind
  | |- neverThrows (call _) => apply neverThrows_call
  | |- neverThrows (assign _) => apply neverThrows_assign
  | |- neverThrows (detached _) => apply neverThrows_detached
  | |- neverThrows (if ?c then _ else _) => destruct c
  | |- neverThrows (match ?x with _ => _ end) => destruct x
  end.

(** X3.  No failure escapes these functions: whatever the platform and
    the backend answer, [startRecording], [stopRecording],
    [uploadAudioToBackend], [createHighlight],
    [sendAudioChunkToBackend], the [ondataavailable] handler,
    [toggleRecording], [toggleTranscript] and the command listener
    never end in a throw (a rejected promise). *)
Theorem handlers_never_throw :
  (forall tabId, neverThrows (startRecording tabId)) /\
  neverThrows stopRecording /\
  neverThrows uploadAudioToBackend /\
  neverThrows createHighlight /\
  (forall audioBlob, neverThrows (sendAudioChunkToBackend audioBlob)) /\
  (forall data, neverThrows (ondataavailable data)) /\
  neverThrows toggleRecording /\
  neverThrows toggleTranscript /\
  (forall command, neverThrows (onCommand command)).
Proof.
  assert (Hstop : neverThrows stopRecording)
    by (unfold stopRecording; repeat quiet_step).
  assert (Hhl : neverThrows createHighlight)
    by (unfold createHighlight; repeat quiet_step).
  assert (Htog : neverThrows toggleRecording)
    by (unfold toggleRecording; repeat quiet_step).
  assert (Htt : neverThrows toggleTranscript)
    by (unfold toggleTranscript; repeat quiet_step).
  repeat split; try assumption.
  - intros tabId; unfold startRecording; repeat quiet_step.
  - unfold uploadAudioToBackend; repeat quiet_step.
  - intros b; unfold sendAudioChunkToBackend; repeat quiet_step.
  - intros d; unfold ondataavailable; repeat quiet_step.
  - intros c; unfold onCommand; repeat quiet_step; assumption.
Qed.

(** [startTabAudioCapture], in contrast, hands every failure on to its
    caller (line 256). *)
Lemma startTabAudioCapture_rethrows (env : Env) (w : World) (tabId : Z) (e : JsError) :
  env_capture env = inl e ->
  fst (exec env (startTabAudioCapture tabId) w) = Threw e.
Proof.
  intros H; unfold exec, startTabAudioCapture; cbn; rewrite H; reflexivity.
Qed.

(** ** The message listener *)

#[local] Arguments startRecording : simpl never.
#[local] Arguments stopRecording : simpl never.
#[local] Arguments createHighlight : simpl never.

(** X4.  How the message listener ends, for every message, sender,
    environment and state: it throws a TypeError when the case reads
    [sender.tab.id] (START_RECORDING, MEETING_DETECTED) and the sender
    has no tab, or when MEETING_DETECTED comes without [data] (or with
    [null]); in every other case, also for a type it has no case for, it
    returns [true]. *)
Theorem onMessage_outcome (env : Env) (message : Message) (sender : MessageSender)
    (w : World) :
  fst (exec env (onMessage message sender) w) =
  if readsSenderTab (msg_type message)
     && match sender_tab sender with None => true | Some _ => false end
  then Threw (TypeError "Cannot read properties of undefined (reading 'id')")
  else if (msg_type message =? "MEETING_DETECTED")%string
          && negb (hasProperties (msg_data message))
  then Threw (TypeError
                match msg_data message with
                | Some _ => "Cannot read properties of null (reading 'platform')"
                | None => "Cannot read properties of undefined (reading 'platform')"
                end)
  else Returned true.
Proof.
  destruct message as [type data], sender as [tab].
  unfold exec, onMessage, readsSenderTab, sender_tab_id, handleMeetingDetected,
    handleCreateHighlight, handleAudioChunk, get_property; simpl msg_type;
    simpl msg_data; simpl sender_tab.
  destruct (String.eqb_spec type "START_RECORDING") as [-> | H1].
  { destruct tab; reflexivity. }
  destruct (String.eqb_spec type "STOP_RECORDING") as [-> | H2]; [reflexivity | ].
  destruct (String.eqb_spec type "GET_RECORDING_STATE") as [-> | H3]; [reflexivity | ].
  destruct (String.eqb_spec type "CREATE_HIGHLIGHT") as [-> | H4]; [reflexivity | ].
  destruct (String.eqb_spec type "MEETING_DETECTED") as [-> | H5].
  { destruct tab; [ | reflexivity].
    destruct data as [[ | fields] | ]; reflexivity. }
  destruct (String.eqb_spec type "AUDIO_CHUNK") as [-> | H6]; reflexivity.
Qed.

Lemma isHandled_false (type : string) :
  isHandled type = false ->
  (type =? "START_RECORDING")%string = false /\
  (type =? "STOP_RECORDING")%string = false /\
  (type =? "GET_RECORDING_STATE")%string = false /\
  (type =? "CREATE_HIGHLIGHT")%string = false /\
  (type =? "MEETING_DETECTED")%string = false /\
  (type =? "AUDIO_CHUNK")%string = false.
Proof.
  unfold isHandled, handledTypes; simpl existsb; intros H.
  repeat (apply orb_false_elim in H; destruct H as [? H]); auto 10.
Qed.

(** X5.  A message whose type the listener has no case for is ignored:
    the listener logs it and returns [true]; it sends no response, calls
    nothing else and leaves [recordingState] alone. *)
Theorem unhandled_message_is_ignored (env : Env) (message : Message)
    (sender : MessageSender) (w : World) :
  isHandled (msg_type message) = false ->
  exec env (onMessage message sender) w
  = (Returned true, record (ConsoleLog "Background received message:") w).
Proof.
  intros H; destruct (isHandled_false _ H) as (H1 & H2 & H3 & H4 & H5 & H6).
  unfold exec, onMessage; simpl.
  rewrite H1, H2, H3, H4, H5, H6; reflexivity.
Qed.

Lemma unhandled_message_is_ignored_witness :
  isHandled (msg_type (mkMessage "TOGGLE_TRANSCRIPT" None)) = false /\
  exec (Samples.online 7) (onMessage (mkMessage "TOGGLE_TRANSCRIPT" None) Popup.sender)
    Samples.recorded
  = (Returned true,
     record (ConsoleLog "Background received message:") Samples.recorded).
Proof.
  split; [vm_compute; reflexivity | ].
  apply (unhandled_message_is_ignored (Samples.online 7)
           (mkMessage "TOGGLE_TRANSCRIPT" None) Popup.sender Samples.recorded);
    vm_compute; reflexivity.
Defined.


(** ** Starting *)

(** Two worlds with the same state, clock and trace are the same. *)
Lemma world_eq (w : World) (rs : RecordingState) (clock : Z) (tr : list Event) :
  w_state w = rs -> w_clock w = clock -> w_trace w = tr ->
  w = mkWorld rs clock tr.
Proof. destruct w; simpl; intros -> -> ->; reflexivity. Qed.

Lemma startRecording_success_exec (env : Env) (w : World) (tabId t : Z)
    (resp : HttpResponse) (fields : list (string * JsVal)) (stream : Stream)
    (r : Recorder) :
  truthy (env_storage env "token") = true ->
  env_net env (createMeetingRequest (env_storage env "token") (currentTabUrl env))
    = Responds t resp ->
  resp_ok resp = true ->
  resp_json resp = inr (JsonObject fields) ->
  env_capture env = inr (Some stream) ->
  env_new_recorder env stream "audio/webm;codecs=opus" = inr r ->
  env_recorder_start env r 5000 = inr tt ->
  exec env (startRecording tabId) w
  = (Returned tt,
     mkWorld
       (mkState true (lookup_field "id" fields) [] (Some r) (JNum tabId)
          (startTime (w_state w)))
       (w_clock w + t)
       (w_trace w ++
        [Performed (ConsoleLog "Starting recording for tab:");
         Performed (StorageLocalGet "token");
         Performed TabsQuery;
         Performed (Fetch (createMeetingRequest (env_storage env "token")
                             (currentTabUrl env)));
         Performed TabCaptureCapture;
         Performed (NewMediaRecorder stream "audio/webm;codecs=opus");
         Performed (MediaRecorderStart r 5000);
         Performed (ConsoleLog "Tab audio capture started");
         Performed (TabsSendMessage (JNum tabId)
                      (RECORDING_STARTED (lookup_field "id" fields)));
         Performed (ActionSetBadgeText "REC");
         Performed (ActionSetBadgeBackgroundColor "#ff0000");
         Performed (ConsoleLog "Recording started, meeting ID:")])).
Proof.
  intros Htok Hnet Hok Hjson Hcap Hnew Hstart.
  unfold currentTabUrl in *.
  unfold exec, startRecording, startTabAudioCapture, getCurrentTabUrl, fetch, json.
  crank. rewrite Hnew; crank. unfold CHUNK_DURATION; rewrite Hstart; crank.
  f_equal; apply world_eq; cbn; rewrite <- ?app_assoc; reflexivity.
Qed.

(** X6.  A start that goes through (a token is stored, the meeting is
    created, the capture is granted, the recorder starts): the session
    holds the id the backend returned, the recorder, the tab and no
    chunks; one request was made, the create-meeting request; the
    recorder was started with a chunk interval of 5000 ms; the tab was
    told RECORDING_STARTED with that id; nobody was notified. *)
Theorem start_success (env : Env) (w : World) (tabId t : Z) (resp : HttpResponse)
    (fields : list (string * JsVal)) (stream : Stream) (r : Recorder) :
  truthy (env_storage env "token") = true ->
  env_net env (createMeetingRequest (env_storage env "token") (currentTabUrl env))
    = Responds t resp ->
  resp_ok resp = true ->
  resp_json resp = inr (JsonObject fields) ->
  env_capture env = inr (Some stream) ->
  env_new_recorder env stream "audio/webm;codecs=opus" = inr r ->
  env_recorder_start env r 5000 = inr tt ->
  let (outcome, w') := exec env (startRecording tabId) w in
  outcome = Returned tt /\
  w_state w'
    = mkState true (lookup_field "id" fields) [] (Some r) (JNum tabId)
        (startTime (w_state w)) /\
  fetches (new_events w w')
    = [createMeetingRequest (env_storage env "token") (currentTabUrl env)] /\
  In (Performed (MediaRecorderStart r 5000)) (new_events w w') /\
  tabMessages (new_events w w')
    = [(JNum tabId, RECORDING_STARTED (lookup_field "id" fields))] /\
  notifications (new_events w w') = [].
Proof.
  intros Htok Hnet Hok Hjson Hcap Hnew Hstart.
  rewrite (startRecording_success_exec env w tabId Htok Hnet Hok Hjson Hcap Hnew
             Hstart), new_events_app.
  repeat split; try reflexivity.
  simpl; auto 10.
Qed.

Lemma start_success_witness :
  truthy (env_storage (Samples.online 7) "token") = true /\
  env_net (Samples.online 7)
    (createMeetingRequest (env_storage (Samples.online 7) "token")
       (currentTabUrl (Samples.online 7)))
    = Responds 120 (Samples.created 7) /\
  resp_ok (Samples.created 7) = true /\
  resp_json (Samples.created 7) = inr (JsonObject [("id"%string, JNum 7)]) /\
  env_capture (Samples.online 7) = inr (Some 1%nat) /\
  env_new_recorder (Samples.online 7) 1%nat "audio/webm;codecs=opus"
    = inr (mkRecorder 1%nat "audio/webm;codecs=opus") /\
  env_recorder_start (Samples.online 7)
    (mkRecorder 1%nat "audio/webm;codecs=opus") 5000 = inr tt /\
  let (outcome, w') :=
    exec (Samples.online 7) (startRecording 5) Samples.recorded in
  outcome = Returned tt /\
  w_state w'
    = mkState true (lookup_field "id" [("id"%string, JNum 7)]) []
        (Some (mkRecorder 1%nat "audio/webm;codecs=opus")) (JNum 5)
        (startTime (w_state Samples.recorded)) /\
  fetches (new_events Samples.recorded w')
    = [createMeetingRequest (env_storage (Samples.online 7) "token")
         (currentTabUrl (Samples.online 7))] /\
  In (Performed (MediaRecorderStart (mkRecorder 1%nat "audio/webm;codecs=opus") 5000))
    (new_events Samples.recorded w') /\
  tabMessages (new_events Samples.recorded w')
    = [(JNum 5, RECORDING_STARTED (lookup_field "id" [("id"%string, JNum 7)]))] /\
  notifications (new_events Samples.recorded w') = [].
Proof.
  do 7 (split; [reflexivity | ]).
  apply (@start_success (Samples.online 7) Samples.recorded 5 120
           (Samples.created 7) [("id"%string, JNum 7)] 1%nat
           (mkRecorder 1%nat "audio/webm;codecs=opus")); reflexivity.
Defined.

(** X7.  A start that fails before the meeting id is stored (the
    create-meeting request is rejected, is answered with a status that
    is not [ok], or with a body that does not parse or is [null]): the
    tab capture is never asked for, the user is notified "Recording
    Failed" with the message of the error, [isRecording] is false again,
    and [meetingId] and the recorder are what they were before the
    start, while the chunks are gone and [currentTab] is the new tab. *)
Theorem start_fails_before_capture (env : Env) (w : World) (tabId : Z) (e : JsError) :
  truthy (env_storage env "token") = true ->
  createMeetingError
    (env_net env (createMeetingRequest (env_storage env "token") (currentTabUrl env)))
    = Some e ->
  let (outcome, w') := exec env (startRecording tabId) w in
  outcome = Returned tt /\
  w_state w'
    = mkState false (meetingId (w_state w)) [] (mediaRecorder (w_state w))
        (JNum tabId) (startTime (w_state w)) /\
  captures (new_events w w') = O /\
  notifications (new_events w w') = [("Recording Failed", err_message e)] /\
  fetches (new_events w w')
    = [createMeetingRequest (env_storage env "token") (currentTabUrl env)].
Proof.
  intros Htok He.
  unfold currentTabUrl in *.
  unfold exec, startRecording, getCurrentTabUrl, fetch, json.
  crank.
  match goal with |- context [env_net env ?req] =>
    destruct (env_net env req) as [t resp | t e' | ] eqn:Hnet end;
    simpl in He; [ | | discriminate].
  - destruct (resp_ok resp) eqn:Hok;
      [ destruct (resp_json resp) as [e' | [ | fields]] eqn:Hjson;
        [ | | discriminate] | ];
      injection He as <-; crank; new_events_tac; repeat split; reflexivity.
  - injection He as <-; crank; new_events_tac; repeat split; reflexivity.
Qed.

Lemma start_fails_before_capture_witness :
  truthy (env_storage Samples.backendDown "token") = true /\
  createMeetingError
    (env_net Samples.backendDown
       (createMeetingRequest (env_storage Samples.backendDown "token")
          (currentTabUrl Samples.backendDown)))
    = Some (Error "Failed to create meeting") /\
  let (outcome, w') :=
    exec Samples.backendDown (startRecording 5) Samples.recorded in
  outcome = Returned tt /\
  w_state w'
    = mkState false (meetingId (w_state Samples.recorded)) []
        (mediaRecorder (w_state Samples.recorded)) (JNum 5)
        (startTime (w_state Samples.recorded)) /\
  captures (new_events Samples.recorded w') = O /\
  notifications (new_events Samples.recorded w')
    = [("Recording Failed", err_message (Error "Failed to create meeting"))] /\
  fetches (new_events Samples.recorded w')
    = [createMeetingRequest (env_storage Samples.backendDown "token")
         (currentTabUrl Samples.backendDown)].
Proof.
  split; [reflexivity | ].
  split; [reflexivity | ].
  apply (@start_fails_before_capture Samples.backendDown Samples.recorded 5
           (Error "Failed to create meeting")); reflexivity.
Defined.

(** X8.  There is no timeout on the create-meeting request: when it
    never settles, [startRecording] never ends, [isRecording] stays true
    and nobody is told.  A stop then clears the session: it makes no
    request (no chunk was recorded) and puts the reset object in place. *)
Theorem start_hangs_then_stop_resets (env env2 : Env) (w : World) (tabId : Z) :
  truthy (env_storage env "token") = true ->
  env_net env (createMeetingRequest (env_storage env "token") (currentTabUrl env))
    = Hangs ->
  let (outcome, w') := exec env (startRecording tabId) w in
  outcome = Blocked /\
  isRecording (w_state w') = true /\
  audioChunks (w_state w') = [] /\
  notifications (new_events w w') = [] /\
  let (outcome2, w'') := exec env2 stopRecording w' in
  outcome2 = Returned tt /\
  w_state w'' = initialState /\
  fetches (new_events w' w'') = [].
Proof.
  intros Htok Hnet.
  unfold currentTabUrl in *.
  unfold exec at 1; unfold startRecording, getCurrentTabUrl, fetch.
  crank.
  match goal with |- context [exec env2 stopRecording ?w1] => set (w' := w1) end.
  assert (Hrec : isRecording (w_state w') = true) by reflexivity.
  assert (Hup : uploads env2 (w_state w') = false) by reflexivity.
  destruct (stopRecording_exec env2 w' Hrec (or_introl Hup))
    as (clock & tr & -> & Hf & _).
  rewrite Hup in Hf.
  cbv beta iota.
  repeat split; try reflexivity.
  - subst w'; new_events_tac; reflexivity.
  - clear Hrec Hup; subst w'; cbn.
    rewrite skipn_app, skipn_all, Nat.sub_diag; exact Hf.
Qed.

Lemma start_hangs_then_stop_resets_witness :
  truthy (env_storage Cases.silent "token") = true /\
  env_net Cases.silent
    (createMeetingRequest (env_storage Cases.silent "token")
       (currentTabUrl Cases.silent)) = Hangs /\
  let (outcome, w') :=
    exec Cases.silent (startRecording 5) (initialWorld Samples.T0) in
  outcome = Blocked /\
  isRecording (w_state w') = true /\
  audioChunks (w_state w') = [] /\
  notifications (new_events (initialWorld Samples.T0) w') = [] /\
  let (outcome2, w'') := exec (Samples.online 7) stopRecording w' in
  outcome2 = Returned tt /\
  w_state w'' = initialState /\
  fetches (new_events w' w'') = [].
Proof.
  split; [reflexivity | ].
  split; [reflexivity | ].
  apply (@start_hangs_then_stop_resets Cases.silent (Samples.online 7)
           (initialWorld Samples.T0) 5); reflexivity.
Defined.

(** ** Stopping while the backend does not answer *)

(** X9.  There is no timeout on the upload either: when the upload
    request never settles, [stopRecording] never ends and the session is
    not reset: [isRecording] is false, but the chunks and the
    [meetingId] stay, and no notification is shown.  Asking for a stop
    again does nothing. *)
Theorem stop_hangs_keeps_session (env : Env) (w : World) :
  isRecording (w_state w) = true ->
  uploads env (w_state w) = true ->
  env_net env (uploadAudioRequest (env_storage env "token") (w_state w)) = Hangs ->
  let (outcome, w') := exec env stopRecording w in
  outcome = Blocked /\
  w_state w' = set_isRecording false (w_state w) /\
  notifications (new_events w w') = [] /\
  forall env2, exec env2 stopRecording w' = (Returned tt, w').
Proof.
  intros Hrec Hup Hnet.
  unfold uploads in Hup.
  apply andb_prop in Hup; destruct Hup as [Hup Htok].
  apply andb_prop in Hup; destruct Hup as [Hlen Hid].
  destruct (audioChunks (w_state w)) as [ | c cs] eqn:Hc; [discriminate | ].
  enough (H : exists w', exec env stopRecording w = (Blocked, w') /\
                         w_state w' = set_isRecording false (w_state w) /\
                         notifications (new_events w w') = []).
  { destruct H as (w' & -> & Hst & Hn).
    repeat split; auto.
    intros env2; apply stopRecording_guard; rewrite Hst; reflexivity. }
  unfold exec, stopRecording, uploadAudioToBackend, fetch.
  destruct (mediaRecorder (w_state w)) as [r | ] eqn:Hmr; crank;
    eexists; (split; [reflexivity | ]); (split; [reflexivity | ]);
    new_events_tac; reflexivity.
Qed.

Lemma stop_hangs_keeps_session_witness :
  isRecording (w_state Samples.recorded) = true /\
  uploads Cases.silent (w_state Samples.recorded) = true /\
  env_net Cases.silent
    (uploadAudioRequest (env_storage Cases.silent "token")
       (w_state Samples.recorded)) = Hangs /\
  let (outcome, w') := exec Cases.silent stopRecording Samples.recorded in
  outcome = Blocked /\
  w_state w' = set_isRecording false (w_state Samples.recorded) /\
  notifications (new_events Samples.recorded w') = [] /\
  forall env2, exec env2 stopRecording w' = (Returned tt, w').
Proof.
  split; [vm_compute; reflexivity | ].
  split; [vm_compute; reflexivity | ].
  split; [reflexivity | ].
  apply (@stop_hangs_keeps_session Cases.silent Samples.recorded);
    vm_compute; reflexivity.
Defined.

(** ** The keyboard shortcut *)

(** X10.  [toggleRecording] while nothing is recorded and no tab is
    active in the current window starts nothing: it only queries the
    tabs; [recordingState] is unchanged and no request is made. *)
Theorem toggle_without_active_tab (env : Env) (w : World) :
  isRecording (w_state w) = false ->
  env_tabs env = [] ->
  exec env toggleRecording w = (Returned tt, record TabsQuery w).
Proof.
  intros Hrec Htabs; unfold exec, toggleRecording; cbn.
  rewrite Hrec; cbn; rewrite Htabs; reflexivity.
Qed.

Lemma toggle_without_active_tab_witness :
  isRecording (w_state (initialWorld Samples.T0)) = false /\
  env_tabs Cases.noActiveTab = [] /\
  exec Cases.noActiveTab toggleRecording (initialWorld Samples.T0)
  = (Returned tt, record TabsQuery (initialWorld Samples.T0)).
Proof.
  split; [reflexivity | ].
  split; [reflexivity | ].
  apply (@toggle_without_active_tab Cases.noActiveTab (initialWorld Samples.T0));
    reflexivity.
Defined.

(** [toggleRecording] turns a session on and off: while nothing is
    recorded it does what [startRecording] does for the first active
    tab; while [isRecording] is true it does what [stopRecording] does;
    either way it returns at once. *)
Lemma toggle_starts_or_stops (env : Env) (w : World) :
  fst (exec env toggleRecording w) = Returned tt /\
  snd (exec env toggleRecording w) =
    if isRecording (w_state w) then snd (exec env stopRecording w)
    else match env_tabs env with
         | t :: _ => snd (exec env (startRecording (tab_id t)) (record TabsQuery w))
         | [] => record TabsQuery w
         end.
Proof.
  unfold exec, toggleRecording; cbn.
  destruct (isRecording (w_state w)); cbn; [split; reflexivity | ].
  destruct (env_tabs env) as [ | t rest]; cbn; split; reflexivity.
Qed.

(** ** Capturing the tab *)

(** X11.  [startTabAudioCapture] either installs a recorder or changes
    nothing.  When it returns, the capture yielded a stream, a recorder
    for it was created with the type 'audio/webm;codecs=opus' and then
    started with a chunk interval of 5000 ms, in that order, and that
    recorder is stored in [recordingState]; nothing is logged as an
    error.  When it fails, it logs one "Tab audio capture error:",
    leaves [recordingState] as it was and throws the very error that
    made it fail: the rejection of the capture, 'Failed to capture tab
    audio' when the capture yields no stream, or the error of the
    recorder's creation or start; a recorder that could not be created
    is never started.  It always ends. *)
Theorem startTabAudioCapture_outcome (env : Env) (w : World) (tabId : Z) :
  match exec env (startTabAudioCapture tabId) w with
  | (Returned _, w') =>
      exists stream r,
        env_capture env = inr (Some stream) /\
        env_new_recorder env stream "audio/webm;codecs=opus" = inr r /\
        env_recorder_start env r 5000 = inr tt /\
        w_state w' = set_mediaRecorder (Some r) (w_state w) /\
        new_events w w'
          = [Performed TabCaptureCapture;
             Performed (NewMediaRecorder stream "audio/webm;codecs=opus");
             Performed (MediaRecorderStart r 5000);
             Performed (ConsoleLog "Tab audio capture started")]
  | (Threw e, w') =>
      w_state w' = w_state w /\
      console_errors (new_events w w') = ["Tab audio capture error:"%string] /\
      match env_capture env with
      | inl rejection => e = rejection /\ captures (new_events w w') = 1%nat
      | inr None => e = Error "Failed to capture tab audio"
      | inr (Some stream) =>
          match env_new_recorder env stream "audio/webm;codecs=opus" with
          | inl failure =>
              e = failure /\
              new_events w w'
                = [Performed TabCaptureCapture;
                   Performed (NewMediaRecorder stream "audio/webm;codecs=opus");
                   Performed (ConsoleError "Tab audio capture error:")]
          | inr r =>
              env_recorder_start env r 5000 = inl e /\
              new_events w w'
                = [Performed TabCaptureCapture;
                   Performed (NewMediaRecorder stream "audio/webm;codecs=opus");
                   Performed (MediaRecorderStart r 5000);
                   Performed (ConsoleError "Tab audio capture error:")]
          end
      end
  | (Blocked, _) => False
  end.
Proof.
  unfold exec, startTabAudioCapture.
  destruct (env_capture env) as [e | [stream | ]] eqn:Hcap; crank.
  - repeat split; new_events_tac; reflexivity.
  - destruct (env_new_recorder env stream "audio/webm;codecs=opus")
      as [e | r] eqn:Hnew; crank.
    + repeat split; new_events_tac; reflexivity.
    + unfold CHUNK_DURATION.
      destruct (env_recorder_start env r 5000) as [e | []] eqn:Hst; crank.
      * repeat split; new_events_tac; reflexivity.
      * exists stream, r; repeat split; try reflexivity; try assumption;
          new_events_tac; reflexivity.
  - repeat split; try reflexivity; new_events_tac; reflexivity.
Qed.

(** ** Highlights *)

(** X12.  [createHighlight] while [isRecording] is true and a
    [meetingId] is set, when its request settles: it makes exactly one
    request, the highlight request for that meeting at the time of the
    call, whether or not a token is stored (the token is not checked);
    it never changes [recordingState]; the user is notified "Highlight
    Created" exactly when the response is [ok]; a response that is not
    [ok] is dropped without any notification or log, and a rejected
    request is only logged. *)
Theorem createHighlight_accepted (env : Env) (w : World) :
  isRecording (w_state w) = true ->
  truthy (meetingId (w_state w)) = true ->
  hangs (env_net env (createHighlightRequest (env_storage env "token") (w_clock w)
                        (w_state w))) = false ->
  let (outcome, w') := exec env createHighlight w in
  outcome = Returned tt /\
  w_state w' = w_state w /\
  fetches (new_events w w')
    = [createHighlightRequest (env_storage env "token") (w_clock w) (w_state w)] /\
  notifications (new_events w w')
    = match env_net env (createHighlightRequest (env_storage env "token")
                           (w_clock w) (w_state w)) with
      | Responds _ r =>
          if resp_ok r
          then [("Highlight Created", "Your highlight has been saved!")]
          else []
      | _ => []
      end /\
  console_errors (new_events w w')
    = match env_net env (createHighlightRequest (env_storage env "token")
                           (w_clock w) (w_state w)) with
      | Fails _ _ => ["Failed to create highlight:"%string]
      | _ => []
      end.
Proof.
  intros Hrec Hid Hs.
  unfold exec, createHighlight, fetch.
  crank.
  destruct (env_net env (createHighlightRequest (env_storage env "token")
                           (w_clock w) (w_state w)))
    as [t resp | t e | ] eqn:Hnet; [ | | discriminate].
  - destruct (resp_ok resp) eqn:Hok; crank; new_events_tac;
      repeat split; reflexivity.
  - crank; new_events_tac; repeat split; reflexivity.
Qed.

Lemma createHighlight_accepted_witness :
  isRecording (w_state Samples.recorded) = true /\
  truthy (meetingId (w_state Samples.recorded)) = true /\
  hangs (env_net Samples.loggedOut
           (createHighlightRequest (env_storage Samples.loggedOut "token")
              (w_clock Samples.recorded) (w_state Samples.recorded))) = false /\
  let (outcome, w') := exec Samples.loggedOut createHighlight Samples.recorded in
  outcome = Returned tt /\
  w_state w' = w_state Samples.recorded /\
  fetches (new_events Samples.recorded w')
    = [createHighlightRequest (env_storage Samples.loggedOut "token")
         (w_clock Samples.recorded) (w_state Samples.recorded)] /\
  notifications (new_events Samples.recorded w')
    = match env_net Samples.loggedOut
              (createHighlightRequest (env_storage Samples.loggedOut "token")
                 (w_clock Samples.recorded) (w_state Samples.recorded)) with
      | Responds _ r =>
          if resp_ok r
          then [("Highlight Created", "Your highlight has been saved!")]
          else []
      | _ => []
      end /\
  console_errors (new_events Samples.recorded w')
    = match env_net Samples.loggedOut
              (createHighlightRequest (env_storage Samples.loggedOut "token")
                 (w_clock Samples.recorded) (w_state Samples.recorded)) with
      | Fails _ _ => ["Failed to create highlight:"%string]
      | _ => []
      end.
Proof.
  split; [vm_compute; reflexivity | ].
  split; [vm_compute; reflexivity | ].
  split; [reflexivity | ].
  apply (@createHighlight_accepted Samples.loggedOut Samples.recorded);
    vm_compute; reflexivity.
Defined.

(** The request [createHighlight] makes when no token is stored carries
    the header [Authorization: Bearer undefined]. *)
Lemma createHighlightRequest_without_token (now : Z) (rs : RecordingState) :
  req_headers (createHighlightRequest JUndefined now rs)
  = [("Content-Type", "application/json"%string);
     ("Authorization", "Bearer undefined"%string)].
Proof.
  unfold createHighlightRequest; destruct (highlightWindow now rs); reflexivity.
Qed.


(** ** What the worker never does *)

Section AllOps.

Variable ok : forall X : Type, Op X -> bool.

Lemma allOps_bind (A B : Type) (p : Prog Op A) (f : A -> Prog Op B) :
  allOps ok p -> (forall a, allOps ok (f a)) -> allOps ok (bind p f).
Proof. intros Hp Hf; induction Hp; simpl; auto; constructor; auto. Qed.

Lemma allOps_try_catch (A : Type) (p : Prog Op A) (h : JsError -> Prog Op A) :
  allOps ok p -> (forall e, allOps ok (h e)) -> allOps ok (try_catch p h).
Proof. intros Hp Hh; induction Hp; simpl; auto; constructor; auto. Qed.

Lemma allOps_call (X : Type) (o : Op X) : @ok _ o = true -> allOps ok (call o).
Proof. intros H; apply allOps_Vis; auto; intros; constructor. Qed.

Lemma allOps_lift (X : Type) (r : JsError + X) : allOps ok (lift (E := Op) r).
Proof. destruct r; constructor. Qed.

Lemma allOps_detached (p : Prog Op unit) : allOps ok p -> allOps ok (detached p).
Proof. intros; apply allOps_Fork; auto; constructor. Qed.

Lemma allOps_forget (A : Type) (p : Prog Op A) : allOps ok p -> allOps ok (forget p).
Proof. intros; apply allOps_bind; auto; intros; constructor. Qed.

(** One operation adds at most itself to the trace. *)
Lemma perform_passes (env : Env) (X : Type) (o : Op X) (w w' : World) (x : X) :
  @ok _ o = true ->
  Forall (fun ev => eventPasses ok ev = true) (w_trace w) ->
  perform env o w = Some (x, w') ->
  Forall (fun ev => eventPasses ok ev = true) (w_trace w').
Proof.
  intros Hok Hw.
  assert (Hrec : Forall (fun ev => eventPasses ok ev = true)
                   (w_trace (record o w))).
  { simpl; apply Forall_app; split; [exact Hw | ].
    constructor; [exact Hok | constructor]. }
  destruct o; simpl; intros H; try (injection H as <- <-; assumption).
  destruct (settle (req_signal req) (env_net env req)) as [[t r] | ];
    [injection H as <- <-; exact Hrec | discriminate].
Qed.

Lemma allOps_exec (env : Env) (A : Type) (p : Prog Op A) :
  allOps ok p -> forall w,
  Forall (fun ev => eventPasses ok ev = true) (w_trace w) ->
  Forall (fun ev => eventPasses ok ev = true) (w_trace (snd (exec env p w))).
Proof.
  unfold exec; induction 1 as
    [A a | A e | A X o k Ho _ IH | A child k _ IHc _ IHk]; intros w Hw; simpl; auto.
  destruct (perform env o w) as [[x w'] | ] eqn:Hp.
  - apply IH; apply (perform_passes _ _ Ho Hw Hp).
  - simpl; apply Forall_app; split; [exact Hw | ].
    constructor; [exact Ho | constructor].
Qed.

Lemma allOps_advance (env : Env) (A : Type) (p : Prog Op A) :
  allOps ok p -> forall w,
  Forall (fun ev => eventPasses ok ev = true) (w_trace w) ->
  Forall (fun ev => eventPasses ok ev = true) (w_trace (fst (advance env p w))) /\
  Forall (allOps ok (A := unit)) (snd (advance env p w)).
Proof.
  induction 1 as
    [A a | A e | A X o k Ho Hk IH | A child k _ IHc _ IHk]; intros w Hw; simpl; auto.
  - destruct (is_await o) eqn:Haw.
    + split; [exact Hw | ].
      constructor; [ | constructor].
      apply (allOps_forget (@allOps_Vis ok _ _ o k Ho Hk)).
    + destruct (perform env o w) as [[x w'] | ] eqn:Hp.
      * apply IH; apply (perform_passes _ _ Ho Hw Hp).
      * split; [exact Hw | constructor].
  - destruct (IHc w Hw) as [Hw1 Hp1].
    destruct (advance env child w) as [w1 parked1]; simpl in *.
    destruct (IHk w1 Hw1) as [Hw2 Hp2].
    destruct (advance env k w1) as [w2 parked2]; simpl in *.
    split; [exact Hw2 | apply Forall_app; split; assumption].
Qed.

Lemma allOps_resume (env : Env) (A : Type) (t : Prog Op A) (w w' : World)
    (parked : list Task) :
  allOps ok t ->
  Forall (fun ev => eventPasses ok ev = true) (w_trace w) ->
  resume env t w = Some (w', parked) ->
  Forall (fun ev => eventPasses ok ev = true) (w_trace w') /\
  Forall (allOps ok (A := unit)) parked.
Proof.
  intros Ht Hw.
  assert (Hadv : forall (B : Type) (p : Prog Op B) w1,
             allOps ok p ->
             Forall (fun ev => eventPasses ok ev = true) (w_trace w1) ->
             Some (advance env p w1) = Some (w', parked) ->
             Forall (fun ev => eventPasses ok ev = true) (w_trace w') /\
             Forall (allOps ok (A := unit)) parked).
  { intros B p w1 Hp Hw1 Heq.
    injection Heq as Heq.
    pose proof (allOps_advance env Hp w1 Hw1) as Hk.
    rewrite Heq in Hk; exact Hk. }
  destruct Ht as [A' a | A' e | A' X o k Ho Hk | A' child k Hc Hk];
    simpl; intros Hr.
  - apply (Hadv _ (Ret a) w); [constructor | exact Hw | exact Hr].
  - apply (Hadv _ (@Throw Op A' e) w); [constructor | exact Hw | exact Hr].
  - destruct (perform env o w) as [[x w1] | ] eqn:Hp; [ | discriminate].
    apply (Hadv _ (k x) w1); auto.
    apply (perform_passes _ _ Ho Hw Hp).
  - apply (Hadv _ (Fork child k) w); [constructor; auto | exact Hw | exact Hr].
Qed.

End AllOps.

Section AllOpsNew.

Variable ok : forall X : Type, Op X -> bool.

Lemma perform_passes_new (env : Env) (X : Type) (o : Op X) (w w' : World) (x : X) :
  @ok _ o = true ->
  perform env o w = Some (x, w') ->
  exists tr, w_trace w' = w_trace w ++ tr /\
             Forall (fun ev => eventPasses ok ev = true) tr.
Proof.
  intros Hok.
  assert (Hrec : exists tr, w_trace (record o w) = w_trace w ++ tr /\
                            Forall (fun ev => eventPasses ok ev = true) tr).
  { exists [Performed o]; split; [reflexivity | ].
    constructor; [exact Hok | constructor]. }
  assert (Hnil : exists tr, w_trace w = w_trace w ++ tr /\
                            Forall (fun ev => eventPasses ok ev = true) tr).
  { exists []; split; [rewrite app_nil_r; reflexivity | constructor]. }
  destruct o; simpl; intros H; try (injection H as <- <-; assumption).
  destruct (settle (req_signal req) (env_net env req)) as [[t r] | ];
    [injection H as <- <-; exact Hrec | discriminate].
Qed.

(** What a run adds to the trace are operations of the program. *)
Lemma allOps_new_events (env : Env) (A : Type) (p : Prog Op A) :
  allOps ok p -> forall w,
  exists tr, w_trace (snd (exec env p w)) = w_trace w ++ tr /\
             Forall (fun ev => eventPasses ok ev = true) tr.
Proof.
  unfold exec; induction 1 as
    [A a | A e | A X o k Ho _ IH | A child k _ IHc _ IHk]; intros w; simpl.
  - exists []; split; [rewrite app_nil_r; reflexivity | constructor].
  - exists []; split; [rewrite app_nil_r; reflexivity | constructor].
  - destruct (perform env o w) as [[x w'] | ] eqn:Hp.
    + destruct (perform_passes_new _ _ Ho Hp) as (tr1 & H1 & F1).
      destruct (IH x w') as (tr2 & H2 & F2).
      exists (tr1 ++ tr2); split; [rewrite H2, H1, app_assoc; reflexivity | ].
      apply Forall_app; split; assumption.
    + exists [Performed o]; split; [reflexivity | ].
      constructor; [exact Ho | constructor].
  - destruct (IHc w) as (tr1 & H1 & F1).
    destruct (IHk (snd (run (perform env) (fun X o w0 => record o w0) child w)))
      as (tr2 & H2 & F2).
    exists (tr1 ++ tr2); split; [rewrite H2, H1, app_assoc; reflexivity | ].
    apply Forall_app; split; assumption.
Qed.

End AllOpsNew.

Lemma createMeetingRequest_toBackend (token : JsVal) (meeting_url : string) :
  toBackend (createMeetingRequest token meeting_url) = true.
Proof.
  unfold toBackend, createMeetingRequest; simpl.
  destruct (js_to_string token); reflexivity.
Qed.

Lemma uploadAudioRequest_toBackend (token : JsVal) (rs : RecordingState) :
  toBackend (uploadAudioRequest token rs) = true.
Proof.
  unfold toBackend, uploadAudioRequest; simpl.
  destruct (js_to_string token); reflexivity.
Qed.

Lemma createHighlightRequest_toBackend (token : JsVal) (now : Z) (rs : RecordingState) :
  toBackend (createHighlightRequest token now rs) = true.
Proof.
  unfold toBackend, createHighlightRequest; simpl.
  destruct (js_to_string token); reflexivity.
Qed.

Ltac ops_step :=
  match goal with
  | |- forall _, _ => intro
  | |- allOps onlyBackend (call (Fetch _)) =>
      apply allOps_call;
      first [apply createMeetingRequest_toBackend
            | apply uploadAudioRequest_toBackend
            | apply createHighlightRequest_toBackend]
  | |- allOps _ (Ret _) => constructor
  | |- allOps _ (Throw _) => constructor
  | |- allOps _ (bind _ _) => apply allOps_bind
  | |- allOps _ (try_catch _ _) => apply allOps_try_catch
  | |- allOps _ (call _) => apply allOps_call; reflexivity
  | |- allOps _ (assign _) => unfold assign
  | |- allOps _ (lift _) => apply allOps_lift
  | |- allOps _ (detached _) => apply allOps_detached
  | |- allOps _ (forget _) => apply allOps_forget
  | |- allOps _ (fetch _) => unfold fetch
  | |- allOps _ (json _) => unfold json
  | |- allOps _ (get_property _ _) => unfold get_property
  | |- allOps _ (sender_tab_id _) => unfold sender_tab_id
  | |- allOps _ (if ?c then _ else _) => destruct c
  | |- allOps _ (match ?x with _ => _ end) => destruct x
  | |- allOps _ _ => solve [auto with allops]
  end.

Create HintDb allops discriminated.

Lemma startRecording_requests (tabId : Z) : allOps onlyBackend (startRecording tabId).
Proof.
  unfold startRecording, startTabAudioCapture, getCurrentTabUrl; repeat ops_step.
Qed.

Lemma stopRecording_requests : allOps onlyBackend stopRecording.
Proof. unfold stopRecording, uploadAudioToBackend; repeat ops_step. Qed.

Lemma createHighlight_requests : allOps onlyBackend createHighlight.
Proof. unfold createHighlight; repeat ops_step. Qed.

Lemma ondataavailable_requests (data : Blob) : allOps onlyBackend (ondataavailable data).
Proof. unfold ondataavailable, sendAudioChunkToBackend; repeat ops_step. Qed.

#[local] Hint Resolve startRecording_requests stopRecording_requests
  createHighlight_requests ondataavailable_requests : allops.

Lemma listener_requests (i : Incoming) : allOps onlyBackend (listener i).
Proof.
  destruct i; unfold listener, onMessage, onCommand, toggleRecording,
    toggleTranscript, handleCreateHighlight, handleMeetingDetected,
    handleAudioChunk; repeat ops_step.
Qed.

Lemma fetches_pass (tr : list Event) :
  Forall (fun ev => eventPasses onlyBackend ev = true) tr ->
  Forall (fun req => toBackend req = true) (fetches tr).
Proof.
  induction 1 as [ | [X o] tr Ho _ IH]; simpl; [constructor | ].
  destruct o; auto.
Qed.

(** X13.  In every system the event loop can get into, whatever events
    arrived, in whatever order promises settled and whatever the
    platform answered, every request the worker has made is a POST to a
    url under [API_BASE_URL/api/meetings] and carries an
    [Authorization: Bearer ...] header: the worker talks to nothing but
    the backend's meetings API. *)
Theorem worker_requests_go_to_backend (s : System) :
  reachable s ->
  Forall (fun req => toBackend req = true) (fetches (w_trace (sys_world s))).
Proof.
  intros H; apply fetches_pass.
  enough (Hinv : Forall (fun ev => eventPasses onlyBackend ev = true)
                   (w_trace (sys_world s)) /\
                 Forall (allOps onlyBackend (A := unit)) (sys_parked s))
    by apply Hinv.
  induction H as [clock | s env i _ [Hw Hp] | s env i _ [Hw Hp] | s t _ [Hw Hp]].
  - split; constructor.
  - simpl.
    pose proof (allOps_advance env (listener_requests i) (sys_world s) Hw)
      as [Ha Hb].
    destruct (advance env (listener i) (sys_world s)) as [w' parked]; simpl in *.
    split; [exact Ha | apply Forall_app; split; assumption].
  - simpl.
    destruct (nth_error (sys_parked s) i) as [t | ] eqn:Hnth; [ | auto].
    destruct (resume env t (sys_world s)) as [[w' parked] | ] eqn:Hres; [ | auto].
    assert (Ht : allOps onlyBackend t).
    { rewrite Forall_forall in Hp; apply Hp; eapply nth_error_In; eauto. }
    destruct (@allOps_resume onlyBackend env _ t _ _ _ Ht Hw Hres) as [Ha Hb].
    simpl; split; [exact Ha | ].
    apply Forall_app; split; [ | exact Hb].
    clear - Hp; revert i; induction Hp as [ | x l Hx Hl IH]; intros [ | j]; simpl;
      auto.
  - simpl; auto.
Qed.

Lemma worker_requests_go_to_backend_witness :
  reachable Samples.bothStartsSettled /\
  Forall (fun req => toBackend req = true)
    (fetches (w_trace (sys_world Samples.bothStartsSettled))).
Proof.
  assert (H : reachable Samples.bothStartsSettled).
  { unfold Samples.bothStartsSettled, Samples.secondStartInFlight,
      Samples.firstStartInFlight, schedule; cbn [fold_left].
    repeat first [apply reach_settle | apply reach_deliver | apply reach_load]. }
  split; [exact H | ].
  apply (worker_requests_go_to_backend H).
Defined.

(** ** What the listener answers *)









(** ** Only chunks with bytes are kept *)

Ltac chunks_side :=
  unfold chunksNonEmpty in *; simpl;
  first [ assumption
        | solve [constructor]
        | apply Forall_app; split;
          [ assumption
          | constructor; [apply Z.ltb_lt; assumption | constructor] ] ].

Create HintDb chunks discriminated.

Ltac chunks_step :=
  match goal with
  | |- forall _, _ => intro
  | |- chunksNonEmpty _ => solve [chunks_side]
  | |- keeps _ (Ret _) => constructor
  | |- keeps _ (Throw _) => constructor
  | |- keeps _ (bind (call ReadState) _) => apply keeps_bind_read
  | |- keeps _ (bind _ _) => apply keeps_bind
  | |- keeps _ (try_catch _ _) => apply keeps_try_catch
  | |- keeps _ (call ReadState) => apply keeps_read
  | |- keeps _ (call (WriteState _)) => apply keeps_write
  | |- keeps _ (call _) => apply keeps_call; reflexivity
  | |- keeps _ (assign _) => apply keeps_assign
  | |- keeps _ (lift _) => apply keeps_lift
  | |- keeps _ (detached _) => apply keeps_detached
  | |- keeps _ (forget _) => apply keeps_forget
  | |- keeps _ (fetch _) => unfold fetch
  | |- keeps _ (json _) => unfold json
  | |- keeps _ (get_property _ _) => unfold get_property
  | |- keeps _ (sender_tab_id _) => unfold sender_tab_id
  | |- keeps _ (if ?c then _ else _) => destruct c eqn:?
  | |- keeps _ (match ?x with _ => _ end) => destruct x
  | |- keeps _ _ => solve [auto with chunks]
  end.

Lemma chunks_ondataavailable (data : Blob) :
  keeps chunksNonEmpty (ondataavailable data).
Proof.
  unfold ondataavailable, sendAudioChunkToBackend; repeat chunks_step.
Qed.

Lemma chunks_startRecording (tabId : Z) : keeps chunksNonEmpty (startRecording tabId).
Proof.
  unfold startRecording, startTabAudioCapture, getCurrentTabUrl; repeat chunks_step.
Qed.

Lemma chunks_stopRecording : keeps chunksNonEmpty stopRecording.
Proof. unfold stopRecording, uploadAudioToBackend; repeat chunks_step. Qed.

Lemma chunks_createHighlight : keeps chunksNonEmpty createHighlight.
Proof. unfold createHighlight; repeat chunks_step. Qed.

#[local] Hint Resolve chunks_ondataavailable chunks_startRecording
  chunks_stopRecording chunks_createHighlight : chunks.

Lemma chunks_listener (i : Incoming) : keeps chunksNonEmpty (listener i).
Proof.
  destruct i; unfold listener, onMessage, onCommand, toggleRecording,
    toggleTranscript, handleCreateHighlight, handleMeetingDetected,
    handleAudioChunk; repeat chunks_step.
Qed.

(** An invariant of [recordingState] that the initial state has and
    every listener keeps holds in every system the event loop can get
    into. *)
Lemma reachable_invariant (I : RecordingState -> Prop) :
  I initialState ->
  (forall i, keeps I (listener i)) ->
  forall s, reachable s ->
  I (w_state (sys_world s)) /\ Forall (keeps I (A := unit)) (sys_parked s).
Proof.
  intros Hinit Hl s H.
  induction H as [clock | s env i _ [Hw Hp] | s env i _ [Hw Hp] | s t _ [Hw Hp]].
  - split; [exact Hinit | constructor].
  - simpl.
    pose proof (keeps_advance env (Hl i) (sys_world s) Hw) as [Ha Hb].
    destruct (advance env (listener i) (sys_world s)) as [w' parked]; simpl in *.
    split; [exact Ha | apply Forall_app; split; assumption].
  - simpl.
    destruct (nth_error (sys_parked s) i) as [t | ] eqn:Hnth; [ | auto].
    destruct (resume env t (sys_world s)) as [[w' parked] | ] eqn:Hres; [ | auto].
    assert (Ht : keeps I t).
    { rewrite Forall_forall in Hp; apply Hp; eapply nth_error_In; eauto. }
    destruct (@keeps_resume _ env _ t _ _ _ Ht Hw Hres) as [Ha Hb].
    simpl; split; [exact Ha | ].
    apply Forall_app; split; [ | exact Hb].
    clear - Hp; revert i; induction Hp as [ | x l Hx Hl IH]; intros [ | j]; simpl;
      auto.
  - simpl; auto.
Qed.

(** X15.  In every system the event loop can get into, every chunk held
    in [recordingState.audioChunks] has at least one byte: the handler
    of [dataavailable] is the only code that adds a chunk, and it drops
    the empty ones. *)
Theorem kept_chunks_have_bytes (s : System) :
  reachable s -> chunksNonEmpty (w_state (sys_world s)).
Proof.
  intros H.
  apply (reachable_invariant (I := chunksNonEmpty)); auto using chunks_listener.
  constructor.
Qed.

Lemma kept_chunks_have_bytes_witness :
  reachable Cases.chunksArrived /\
  audioChunks (w_state (sys_world Cases.chunksArrived))
    = [Samples.chunk 2; Samples.chunk 3] /\
  chunksNonEmpty (w_state (sys_world Cases.chunksArrived)).
Proof.
  assert (H : reachable Cases.chunksArrived).
  { unfold Cases.chunksArrived, schedule; cbn [fold_left].
    repeat first [apply reach_deliver | apply reach_load]. }
  split; [exact H | split; [vm_compute; reflexivity | ]].
  apply (kept_chunks_have_bytes H).
Defined.

(** ** The popup and the worker *)

Lemma popup_sent_app (tr1 tr2 : list Popup.Event) :
  Popup.sent (tr1 ++ tr2) = Popup.sent tr1 ++ Popup.sent tr2.
Proof.
  induction tr1 as [ | [X o] tr1 IH]; simpl; [reflexivity | ].
  destruct o; simpl; rewrite ?IH; reflexivity.
Qed.

(** X16.  The transcript overlay can be toggled from the keyboard but
    not from the popup.  The command 'toggle-transcript' sends
    TOGGLE_TRANSCRIPT to the first active tab (to nobody when no tab is
    active) and leaves [recordingState] alone.  The popup's button sends
    [{ type: 'TOGGLE_TRANSCRIPT' }] to the worker, whose listener has no
    case for it: whoever the sender is, no tab is sent anything. *)
Theorem transcript_toggle_only_by_command :
  (forall env w,
     let w' := snd (exec env (onCommand "toggle-transcript") w) in
     tabMessages (new_events w w') =
       match env_tabs env with
       | t :: _ => [(JNum (tab_id t), TOGGLE_TRANSCRIPT)]
       | [] => []
       end /\
     w_state w' = w_state w) /\
  (forall net pw,
     Popup.sent (Popup.w_trace (snd (Popup.exec net Popup.toggleTranscript pw)))
     = Popup.sent (Popup.w_trace pw) ++ [mkMessage "TOGGLE_TRANSCRIPT" None]) /\
  (forall env sender w,
     let w' := snd (exec env (onMessage (mkMessage "TOGGLE_TRANSCRIPT" None) sender) w) in
     tabMessages (new_events w w') = [] /\ w_state w' = w_state w).
Proof.
  split; [ | split].
  - intros env w; unfold exec, onCommand, toggleTranscript; simpl.
    destruct (env_tabs env) as [ | t ts]; simpl; new_events_tac; split; reflexivity.
  - intros net pw; unfold Popup.exec, Popup.toggleTranscript; simpl.
    rewrite popup_sent_app; reflexivity.
  - intros env sender w; unfold exec, onMessage; simpl.
    new_events_tac; split; reflexivity.
Qed.

(** X17.  When the popup opens, its flag [isRecording] is false; the
    worker answers the popup's GET_RECORDING_STATE with the state, and
    the popup's callback, given that answer, leaves the popup's flag
    equal to the worker's [isRecording], with the status line to
    match. *)
Theorem popup_syncs_with_worker (env : Env) (w : World)
    (net : Request -> NetBehaviour) (pw : Popup.World) :
  Popup.isRecording pw = false ->
  Popup.innerHTML pw "recordingStatus" = Popup.READY_HTML ->
  exists r,
    replies (new_events w
               (snd (exec env
                       (onMessage (mkMessage "GET_RECORDING_STATE" None) Popup.sender)
                       w))) = [r] /\
    let (outcome, pw') := Popup.exec net (Popup.onRecordingState (Some r)) pw in
    outcome = Returned tt /\
    Popup.isRecording pw' = isRecording (w_state w) /\
    Popup.innerHTML pw' "recordingStatus"
      = (if isRecording (w_state w) then Popup.RECORDING_HTML else Popup.READY_HTML).
Proof.
  intros Hflag Hhtml; exists (ReplyState (w_state w)); split.
  - unfold exec, onMessage; simpl; new_events_tac; reflexivity.
  - unfold Popup.exec, Popup.onRecordingState.
    destruct (isRecording (w_state w)); simpl; auto.
Qed.

Lemma popup_syncs_with_worker_witness :
  Popup.isRecording
    (snd (Popup.exec (fun _ => Hangs) Popup.updateRecordingUI Samples.popupOpened))
    = false /\
  Popup.innerHTML
    (snd (Popup.exec (fun _ => Hangs) Popup.updateRecordingUI Samples.popupOpened))
    "recordingStatus" = Popup.READY_HTML /\
  exists r,
    replies (new_events Samples.started
               (snd (exec (Samples.online 7)
                       (onMessage (mkMessage "GET_RECORDING_STATE" None) Popup.sender)
                       Samples.started))) = [r] /\
    let (outcome, pw') :=
      Popup.exec (fun _ => Hangs) (Popup.onRecordingState (Some r))
        (snd (Popup.exec (fun _ => Hangs) Popup.updateRecordingUI Samples.popupOpened)) in
    outcome = Returned tt /\
    Popup.isRecording pw' = isRecording (w_state Samples.started) /\
    Popup.innerHTML pw' "recordingStatus"
      = (if isRecording (w_state Samples.started)
         then Popup.RECORDING_HTML else Popup.READY_HTML).
Proof.
  split; [reflexivity | ].
  split; [reflexivity | ].
  apply (@popup_syncs_with_worker (Samples.online 7) Samples.started (fun _ => Hangs)
           (snd (Popup.exec (fun _ => Hangs) Popup.updateRecordingUI
                   Samples.popupOpened))); reflexivity.
Defined.

(** X18.  The popup's record button flips the popup's flag and sends
    the message that goes with the old flag (STOP_RECORDING when it was
    set, START_RECORDING otherwise), without [data] and without waiting
    for an answer; the status line and the highlight button follow the
    new flag.  Pressed twice, it sends the two messages in turn and the
    flag and the status line are back where they were. *)
Theorem popup_toggle_flips (net : Request -> NetBehaviour) (pw : Popup.World) :
  let message (recording : bool) :=
    mkMessage (if recording then "STOP_RECORDING" else "START_RECORDING") None in
  let status (recording : bool) :=
    if recording then Popup.RECORDING_HTML else Popup.READY_HTML in
  let pw1 := snd (Popup.exec net Popup.toggleRecording pw) in
  let pw2 := snd (Popup.exec net Popup.toggleRecording pw1) in
  fst (Popup.exec net Popup.toggleRecording pw) = Returned tt /\
  Popup.isRecording pw1 = negb (Popup.isRecording pw) /\
  Popup.sent (Popup.w_trace pw1)
    = Popup.sent (Popup.w_trace pw) ++ [message (Popup.isRecording pw)] /\
  Popup.innerHTML pw1 "recordingStatus" = status (negb (Popup.isRecording pw)) /\
  Popup.isRecording pw2 = Popup.isRecording pw /\
  Popup.sent (Popup.w_trace pw2)
    = Popup.sent (Popup.w_trace pw)
      ++ [message (Popup.isRecording pw); message (negb (Popup.isRecording pw))] /\
  Popup.innerHTML pw2 "recordingStatus" = status (Popup.isRecording pw).
Proof.
  destruct pw as [recording html clock tr].
  unfold Popup.exec, Popup.toggleRecording, Popup.updateRecordingUI,
    Popup.readIsRecording.
  destruct recording; simpl; rewrite !popup_sent_app; simpl;
    rewrite <- ?app_assoc; repeat split; reflexivity.
Qed.

(** ** The popup's account forms *)

Lemma account_new_events (w w' : Account.World) (tr : list Account.Event) :
  Account.w_trace w' = Account.w_trace w ++ tr -> Account.new_events w w' = tr.
Proof.
  intros H; unfold Account.new_events.
  rewrite H, skipn_app, skipn_all, Nat.sub_diag; reflexivity.
Qed.

Ltac account_events :=
  erewrite account_new_events by (simpl; rewrite <- ?app_assoc; reflexivity).

(** Run the program of the goal. *)
Ltac account_run :=
  cbv -[app Z.add Z.leb Account.upd lookup_field Account.stored Account.requests
        Account.alerts Account.sent Account.new_events Account.loginRequest
        Account.registerRequest String.eqb].

(** X19.  [login] with the email or the password field empty only
    alerts 'Please enter email and password': no request is made, the
    button is not touched, and the token, the storage and the views are
    as they were. *)
Theorem login_requires_both_fields (env : Account.Env) (w : Account.World) :
  Account.env_value env "login-email" = ""%string \/
  Account.env_value env "login-password" = ""%string ->
  Account.exec env Account.login w
  = (Returned tt, Account.record (Account.Alert "Please enter email and password") w).
Proof.
  intros H; unfold Account.exec, Account.login; simpl.
  destruct H as [-> | ->]; simpl; [reflexivity | ].
  rewrite orb_true_r; reflexivity.
Qed.

Lemma login_requires_both_fields_witness :
  (Account.env_value Account.noPassword "login-email" = ""%string \/
   Account.env_value Account.noPassword "login-password" = ""%string) /\
  Account.exec Account.noPassword Account.login Account.opened
  = (Returned tt,
     Account.record (Account.Alert "Please enter email and password") Account.opened).
Proof.
  split; [right; reflexivity | ].
  apply (@login_requires_both_fields Account.noPassword Account.opened).
  right; reflexivity.
Defined.

(** X20.  [login] with both fields filled, when its request settles:
    it returns normally whatever the backend did, having made exactly
    one request, the login request for the typed email and password,
    and the button is enabled again and says 'Login'.  When the response
    is [ok] and its body parses to an object, the variable [token] is
    that object's [access_token] (also when it is missing), it is
    stored under 'token' (nothing is stored when it is missing), and the
    authenticated view is shown, without an alert.  In every other case (a response
    that is not [ok], a rejected request, a body that does not parse or
    is [null]) the user is alerted 'Login failed. Please check your
    credentials.' and the token, the storage and the views are as they
    were. *)
Theorem login_outcome (env : Account.Env) (w : Account.World) :
  let email := Account.env_value env "login-email" in
  let password := Account.env_value env "login-password" in
  (email =? "")%string = false ->
  (password =? "")%string = false ->
  hangs (Account.env_net env (Account.loginRequest email password)) = false ->
  let (outcome, w') := Account.exec env Account.login w in
  outcome = Returned tt /\
  Account.requests (Account.new_events w w') = [Account.loginRequest email password] /\
  Account.disabled w' "loginBtn" = false /\
  Account.textContent w' "loginBtn" = "Login"%string /\
  match Account.granted (Account.env_net env (Account.loginRequest email password)) with
  | Some tok =>
      Account.alerts (Account.new_events w w') = [] /\
      Account.token w' = tok /\
      Account.storage w' "token" = Account.stored (Account.storage w "token") tok /\
      Account.display w' "authenticatedView" = "block"%string /\
      Account.display w' "unauthenticatedView" = "none"%string
  | None =>
      Account.alerts (Account.new_events w w')
        = ["Login failed. Please check your credentials."%string] /\
      Account.token w' = Account.token w /\
      Account.storage w' = Account.storage w /\
      Account.display w' = Account.display w
  end.
Proof.
  intros email password He Hp Hnet.
  unfold Account.exec, Account.login; simpl.
  fold email password; rewrite He, Hp; simpl.
  destruct w as [tok sto dis dsb txt cls tmr clk tr]; simpl.
  unfold Account.granted.
  destruct (Account.env_net env (Account.loginRequest email password))
    as [t r | t e | ]; [ | | discriminate]; simpl.
  - destruct r as [[ | ] [e | [ | fields]]]; account_run;
      repeat split; try (account_events; reflexivity).
    destruct (lookup_field "access_token" fields); reflexivity.
  - account_run; repeat split; try (account_events; reflexivity).
Qed.

Lemma login_outcome_witness :
  (Account.env_value Account.ada "login-email" =? "")%string = false /\
  (Account.env_value Account.ada "login-password" =? "")%string = false /\
  hangs (Account.env_net Account.ada
           (Account.loginRequest (Account.env_value Account.ada "login-email")
              (Account.env_value Account.ada "login-password"))) = false /\
  let (outcome, w') := Account.exec Account.ada Account.login Account.opened in
  outcome = Returned tt /\
  Account.requests (Account.new_events Account.opened w')
    = [Account.loginRequest (Account.env_value Account.ada "login-email")
         (Account.env_value Account.ada "login-password")] /\
  Account.disabled w' "loginBtn" = false /\
  Account.textContent w' "loginBtn" = "Login"%string /\
  match Account.granted
          (Account.env_net Account.ada
             (Account.loginRequest (Account.env_value Account.ada "login-email")
                (Account.env_value Account.ada "login-password"))) with
  | Some tok =>
      Account.alerts (Account.new_events Account.opened w') = [] /\
      Account.token w' = tok /\
      Account.storage w' "token"
        = Account.stored (Account.storage Account.opened "token") tok /\
      Account.display w' "authenticatedView" = "block"%string /\
      Account.display w' "unauthenticatedView" = "none"%string
  | None =>
      Account.alerts (Account.new_events Account.opened w')
        = ["Login failed. Please check your credentials."%string] /\
      Account.token w' = Account.token Account.opened /\
      Account.storage w' = Account.storage Account.opened /\
      Account.display w' = Account.display Account.opened
  end.
Proof.
  split; [reflexivity | ].
  split; [reflexivity | ].
  split; [reflexivity | ].
  apply (@login_outcome Account.ada Account.opened); reflexivity.
Defined.

(** X21.  [login] has no timeout on its request: while the backend does
    not answer, [login] does not end, and the button stays disabled,
    saying 'Logging in...'; nothing is alerted and the token, the
    storage and the views are as they were. *)
Theorem login_waits_for_backend (env : Account.Env) (w : Account.World) :
  let email := Account.env_value env "login-email" in
  let password := Account.env_value env "login-password" in
  (email =? "")%string = false ->
  (password =? "")%string = false ->
  Account.env_net env (Account.loginRequest email password) = Hangs ->
  let (outcome, w') := Account.exec env Account.login w in
  outcome = Blocked /\
  Account.disabled w' "loginBtn" = true /\
  Account.textContent w' "loginBtn" = "Logging in..."%string /\
  Account.alerts (Account.new_events w w') = [] /\
  Account.token w' = Account.token w /\
  Account.storage w' = Account.storage w /\
  Account.display w' = Account.display w.
Proof.
  intros email password He Hp Hnet.
  unfold Account.exec, Account.login; simpl.
  fold email password; rewrite He, Hp; simpl.
  rewrite Hnet; simpl.
  repeat split; account_events; reflexivity.
Qed.

Lemma login_waits_for_backend_witness :
  (Account.env_value Account.unanswered "login-email" =? "")%string = false /\
  (Account.env_value Account.unanswered "login-password" =? "")%string = false /\
  Account.env_net Account.unanswered
    (Account.loginRequest (Account.env_value Account.unanswered "login-email")
       (Account.env_value Account.unanswered "login-password")) = Hangs /\
  let (outcome, w') := Account.exec Account.unanswered Account.login Account.opened in
  outcome = Blocked /\
  Account.disabled w' "loginBtn" = true /\
  Account.textContent w' "loginBtn" = "Logging in..."%string /\
  Account.alerts (Account.new_events Account.opened w') = [] /\
  Account.token w' = Account.token Account.opened /\
  Account.storage w' = Account.storage Account.opened /\
  Account.display w' = Account.display Account.opened.
Proof.
  split; [reflexivity | ].
  split; [reflexivity | ].
  split; [reflexivity | ].
  apply (@login_waits_for_backend Account.unanswered Account.opened); reflexivity.
Defined.

(** X22.  [register], when its request (if any) settles, returns
    normally.  With one of the three fields empty it only alerts 'Please
    fill in all fields'.  Otherwise it makes exactly one request, the
    register request for what was typed, and the button is enabled
    again and says 'Create Account'; the token of an [ok] response with
    an object body is kept and stored and the authenticated view shown;
    in every other case the user is alerted 'Registration failed. Email
    may already be in use.' and the token, the storage and the views
    are as they were. *)
Theorem register_outcome (env : Account.Env) (w : Account.World) :
  let name := Account.env_value env "register-name" in
  let email := Account.env_value env "register-email" in
  let password := Account.env_value env "register-password" in
  hangs (Account.env_net env (Account.registerRequest name email password)) = false ->
  let (outcome, w') := Account.exec env Account.register w in
  outcome = Returned tt /\
  if (name =? "")%string || (email =? "")%string || (password =? "")%string then
    w' = Account.record (Account.Alert "Please fill in all fields") w
  else
    Account.requests (Account.new_events w w')
      = [Account.registerRequest name email password] /\
    Account.disabled w' "registerBtn" = false /\
    Account.textContent w' "registerBtn" = "Create Account"%string /\
    match Account.granted
            (Account.env_net env (Account.registerRequest name email password)) with
    | Some tok =>
        Account.alerts (Account.new_events w w') = [] /\
        Account.token w' = tok /\
        Account.storage w' "token" = Account.stored (Account.storage w "token") tok /\
        Account.display w' "authenticatedView" = "block"%string /\
        Account.display w' "unauthenticatedView" = "none"%string
    | None =>
        Account.alerts (Account.new_events w w')
          = ["Registration failed. Email may already be in use."%string] /\
        Account.token w' = Account.token w /\
        Account.storage w' = Account.storage w /\
        Account.display w' = Account.display w
    end.
Proof.
  intros name email password Hnet.
  unfold Account.exec, Account.register; simpl.
  fold name email password.
  destruct ((name =? "")%string || (email =? "")%string || (password =? "")%string);
    simpl; [split; reflexivity | ].
  destruct w as [tok sto dis dsb txt cls tmr clk tr]; simpl.
  unfold Account.granted.
  destruct (Account.env_net env (Account.registerRequest name email password))
    as [t r | t e | ]; [ | | discriminate]; simpl.
  - destruct r as [[ | ] [e | [ | fields]]]; account_run;
      repeat split; try (account_events; reflexivity).
    destruct (lookup_field "access_token" fields); reflexivity.
  - account_run; repeat split; try (account_events; reflexivity).
Qed.

Lemma register_outcome_witness :
  hangs (Account.env_net Account.ada
           (Account.registerRequest
              (Account.env_value Account.ada "register-name")
              (Account.env_value Account.ada "register-email")
              (Account.env_value Account.ada "register-password"))) = false /\
  let (outcome, w') := Account.exec Account.ada Account.register Account.opened in
  outcome = Returned tt /\
  Account.requests (Account.new_events Account.opened w')
    = [Account.registerRequest "Ada" "ada@example.org" "secret"] /\
  Account.disabled w' "registerBtn" = false /\
  Account.textContent w' "registerBtn" = "Create Account"%string /\
  Account.alerts (Account.new_events Account.opened w') = [] /\
  Account.token w' = JStr "tok" /\
  Account.storage w' "token"
    = Account.stored (Account.storage Account.opened "token") (JStr "tok") /\
  Account.display w' "authenticatedView" = "block"%string /\
  Account.display w' "unauthenticatedView" = "none"%string.
Proof.
  split; [reflexivity | ].
  apply (@register_outcome Account.ada Account.opened); reflexivity.
Defined.

(** ** The token, from the popup to the worker *)

Lemma login_stores_token (env : Account.Env) (w : Account.World) (tok : JsVal) :
  let email := Account.env_value env "login-email" in
  let password := Account.env_value env "login-password" in
  (email =? "")%string = false ->
  (password =? "")%string = false ->
  Account.granted (Account.env_net env (Account.loginRequest email password))
    = Some tok ->
  truthy tok = true ->
  Account.storage (snd (Account.exec env Account.login w)) "token" = tok.
Proof.
  intros email password He Hp Hg Htok.
  unfold Account.exec, Account.login; simpl.
  fold email password; rewrite He, Hp; simpl.
  unfold Account.granted in Hg.
  destruct (Account.env_net env (Account.loginRequest email password))
    as [t r | t e | ]; try discriminate.
  destruct r as [[ | ] [e | [ | fields]]]; try discriminate.
  simpl in Hg; injection Hg as Hg.
  account_run; rewrite Hg.
  destruct tok; try discriminate; reflexivity.
Qed.

Lemma logout_clears_token (env : Account.Env) (w : Account.World) :
  Account.storage (snd (Account.exec env Account.logout w)) "token" = JUndefined.
Proof. reflexivity. Qed.

(** X23.  The token makes the round trip from the popup to the worker.
    After a [login] that the backend grants a (truthy) token, a worker
    that reads the same [chrome.storage.local] starts a recording with a
    create-meeting request that carries that token as [Authorization:
    Bearer <token>].  After [logout], the same start makes no request
    and notifies 'Recording Failed: Not authenticated'. *)
Theorem login_token_reaches_worker (aenv : Account.Env) (aw : Account.World)
    (tok : JsVal) (wenv : Env) (w : World) (tabId : Z) :
  let email := Account.env_value aenv "login-email" in
  let password := Account.env_value aenv "login-password" in
  (email =? "")%string = false ->
  (password =? "")%string = false ->
  Account.granted (Account.env_net aenv (Account.loginRequest email password))
    = Some tok ->
  truthy tok = true ->
  let loggedIn := snd (Account.exec aenv Account.login aw) in
  let loggedOut := snd (Account.exec aenv Account.logout loggedIn) in
  (exists rest,
     fetches (new_events w
                (snd (exec (Account.worker_env loggedIn wenv)
                        (startRecording tabId) w)))
     = createMeetingRequest tok (currentTabUrl wenv) :: rest) /\
  In ("Authorization"%string, ("Bearer " ++ js_to_string tok)%string)
    (req_headers (createMeetingRequest tok (currentTabUrl wenv))) /\
  fetches (new_events w
             (snd (exec (Account.worker_env loggedOut wenv)
                     (startRecording tabId) w))) = [] /\
  notifications (new_events w
                   (snd (exec (Account.worker_env loggedOut wenv)
                           (startRecording tabId) w)))
    = [("Recording Failed"%string, "Not authenticated"%string)].
Proof.
  intros email password He Hp Hg Htok loggedIn loggedOut.
  assert (Hin : env_storage (Account.worker_env loggedIn wenv) "token" = tok)
    by (apply (login_stores_token aenv aw He Hp Hg Htok)).
  assert (Hout : truthy (env_storage (Account.worker_env loggedOut wenv) "token")
                 = false) by reflexivity.
  split; [ | split; [right; left; reflexivity | ]].
  - destruct (@startRecording_unguarded (Account.worker_env loggedIn wenv) w tabId)
      as [tr Htr]; [rewrite Hin; exact Htok | ].
    rewrite Hin in Htr.
    exists (fetches tr).
    erewrite new_events_of_trace by exact Htr.
    rewrite fetches_app; reflexivity.
  - rewrite (start_no_token _ w tabId Hout); cbn [snd].
    rewrite new_events_app; split; reflexivity.
Qed.

Lemma login_token_reaches_worker_witness :
  (Account.env_value Account.ada "login-email" =? "")%string = false /\
  (Account.env_value Account.ada "login-password" =? "")%string = false /\
  Account.granted
    (Account.env_net Account.ada
       (Account.loginRequest (Account.env_value Account.ada "login-email")
          (Account.env_value Account.ada "login-password"))) = Some (JStr "tok") /\
  truthy (JStr "tok") = true /\
  (exists rest,
     fetches (new_events (initialWorld Samples.T0)
                (snd (exec (Account.worker_env
                              (snd (Account.exec Account.ada Account.login
                                      Account.opened))
                              Samples.loggedOut)
                        (startRecording 5) (initialWorld Samples.T0))))
     = createMeetingRequest (JStr "tok") (currentTabUrl Samples.loggedOut) :: rest) /\
  In ("Authorization"%string, ("Bearer " ++ js_to_string (JStr "tok"))%string)
    (req_headers (createMeetingRequest (JStr "tok")
                    (currentTabUrl Samples.loggedOut))) /\
  fetches (new_events (initialWorld Samples.T0)
             (snd (exec (Account.worker_env
                           (snd (Account.exec Account.ada Account.logout
                                   (snd (Account.exec Account.ada Account.login
                                           Account.opened))))
                           Samples.loggedOut)
                     (startRecording 5) (initialWorld Samples.T0)))) = [] /\
  notifications
    (new_events (initialWorld Samples.T0)
       (snd (exec (Account.worker_env
                     (snd (Account.exec Account.ada Account.logout
                             (snd (Account.exec Account.ada Account.login
                                     Account.opened))))
                     Samples.loggedOut)
               (startRecording 5) (initialWorld Samples.T0))))
    = [("Recording Failed"%string, "Not authenticated"%string)].
Proof.
  split; [reflexivity | ].
  split; [reflexivity | ].
  split; [reflexivity | ].
  split; [reflexivity | ].
  apply (@login_token_reaches_worker Account.ada Account.opened (JStr "tok")
           Samples.loggedOut (initialWorld Samples.T0) 5); reflexivity.
Defined.

(** ** The two forms *)

Lemma existsb_removed (class : string) (l : list string) :
  existsb (String.eqb class) (filter (fun c => negb (c =? class)%string) l) = false.
Proof.
  induction l as [ | c l IH]; simpl; [reflexivity | ].
  destruct (String.eqb_spec c class) as [-> | Hne]; simpl; [exact IH | ].
  rewrite IH, orb_false_r.
  apply String.eqb_neq; congruence.
Qed.

Lemma existsb_added (class : string) (l : list string) :
  existsb (String.eqb class)
    (if existsb (String.eqb class) l then l else l ++ [class]) = true.
Proof.
  destruct (existsb (String.eqb class) l) eqn:H; [exact H | ].
  rewrite existsb_app; simpl.
  rewrite String.eqb_refl, orb_true_r; reflexivity.
Qed.

Lemma upd_same (V : Type) (m : string -> V) (key : string) (v : V) :
  Account.upd m key v key = v.
Proof. unfold Account.upd; rewrite String.eqb_refl; reflexivity. Qed.

Lemma upd_other (V : Type) (m : string -> V) (key k : string) (v : V) :
  (k =? key)%string = false -> Account.upd m key v k = m k.
Proof. unfold Account.upd; intros ->; reflexivity. Qed.

(** X24.  After [showRegister], whatever classes the two sections had,
    the register section has the class 'active' and the login section
    does not; after [showLogin] it is the other way round. *)
Theorem one_form_is_active (env : Account.Env) (w : Account.World) :
  let afterRegister := snd (Account.exec env Account.showRegister w) in
  let afterLogin := snd (Account.exec env Account.showLogin w) in
  Account.has_class afterRegister "registerSection" "active" = true /\
  Account.has_class afterRegister "loginSection" "active" = false /\
  Account.has_class afterLogin "loginSection" "active" = true /\
  Account.has_class afterLogin "registerSection" "active" = false.
Proof.
  destruct w as [tok sto dis dsb txt cls tmr clk tr].
  cbv -[existsb filter String.eqb negb app Account.upd].
  rewrite !upd_same.
  rewrite !(@upd_other _ _ "registerSection" "loginSection") by reflexivity.
  rewrite !(@upd_other _ _ "loginSection" "registerSection") by reflexivity.
  rewrite !upd_same.
  repeat split; first [apply existsb_added | apply existsb_removed].
Qed.

(** ** The highlight button *)

(** X25.  The popup's [createHighlight] sends CREATE_HIGHLIGHT to the
    worker and, without waiting for an answer, makes the button say
    '✓ Highlight Created!'.  With no other timer pending, the button
    says so for the next 2000 ms, and from then on it has the text it
    had before the click, and no timer is left. *)
Theorem highlight_label_is_restored (env : Account.Env) (w : Account.World) (t : Z) :
  Account.timers w = [] ->
  0 <= t ->
  let clicked := snd (Account.exec env Account.createHighlight w) in
  Account.sent (Account.new_events w clicked)
    = [mkMessage "CREATE_HIGHLIGHT" None] /\
  Account.textContent clicked "highlightBtn" = Account.HIGHLIGHT_CREATED /\
  Account.textContent (Account.elapse env t clicked) "highlightBtn"
    = (if t <? 2000 then Account.HIGHLIGHT_CREATED
       else Account.textContent w "highlightBtn") /\
  Account.timers (Account.elapse env t clicked)
    = (if t <? 2000
       then [(Account.w_clock w + 2000,
              ("highlightBtn"%string, Account.textContent w "highlightBtn"))]
       else []).
Proof.
  destruct w as [tok sto dis dsb txt cls tmr clk tr]; simpl.
  intros -> Ht.
  split; [account_events; reflexivity | ].
  split; [reflexivity | ].
  unfold Account.elapse, Account.exec, Account.createHighlight, Account.due; simpl.
  destruct (Z.ltb_spec t 2000) as [Hlt | Hge].
  - replace (clk + 2000 <=? clk + t) with false
      by (symmetry; apply Z.leb_gt; lia).
    split; reflexivity.
  - replace (clk + 2000 <=? clk + t) with true
      by (symmetry; apply Z.leb_le; lia).
    split; reflexivity.
Qed.

Lemma highlight_label_is_restored_witness :
  Account.timers Account.opened = [] /\
  0 <= 2500 /\
  Account.sent
    (Account.new_events Account.opened
       (snd (Account.exec Account.ada Account.createHighlight Account.opened)))
    = [mkMessage "CREATE_HIGHLIGHT" None] /\
  Account.textContent
    (snd (Account.exec Account.ada Account.createHighlight Account.opened))
    "highlightBtn" = Account.HIGHLIGHT_CREATED /\
  Account.textContent
    (Account.elapse Account.ada 2500
       (snd (Account.exec Account.ada Account.createHighlight Account.opened)))
    "highlightBtn"
    = (if 2500 <? 2000 then Account.HIGHLIGHT_CREATED
       else Account.textContent Account.opened "highlightBtn") /\
  Account.timers
    (Account.elapse Account.ada 2500
       (snd (Account.exec Account.ada Account.createHighlight Account.opened)))
    = (if 2500 <? 2000
       then [(Account.w_clock Account.opened + 2000,
              ("highlightBtn"%string,
               Account.textContent Account.opened "highlightBtn"))]
       else []).
Proof.
  split; [reflexivity | ].
  split; [lia | ].
  apply (@highlight_label_is_restored Account.ada Account.opened 2500);
    [reflexivity | lia].
Defined.

(** X26.  A second click on the highlight button less than 2000 ms
    after the first takes '✓ Highlight Created!' for the button's
    original text: once both timers have fired the button still says
    '✓ Highlight Created!', whatever it said before the first click,
    and no timer is left to change it. *)
Theorem highlight_second_click_keeps_label (env : Account.Env) (w : Account.World)
    (t1 t2 : Z) :
  Account.timers w = [] ->
  0 <= t1 < 2000 ->
  2000 <= t2 ->
  let first := snd (Account.exec env Account.createHighlight w) in
  let second :=
    snd (Account.exec env Account.createHighlight (Account.elapse env t1 first)) in
  let later := Account.elapse env t2 second in
  Account.sent (Account.new_events w later)
    = [mkMessage "CREATE_HIGHLIGHT" None; mkMessage "CREATE_HIGHLIGHT" None] /\
  Account.textContent later "highlightBtn" = Account.HIGHLIGHT_CREATED /\
  Account.timers later = [].
Proof.
  destruct w as [tok sto dis dsb txt cls tmr clk tr]; simpl.
  intros -> Ht1 Ht2.
  unfold Account.elapse, Account.exec, Account.createHighlight, Account.due; simpl.
  replace (clk + 2000 <=? clk + t1) with false
    by (symmetry; apply Z.leb_gt; lia).
  simpl.
  replace (clk + 2000 <=? clk + t1 + t2) with true
    by (symmetry; apply Z.leb_le; lia).
  replace (clk + t1 + 2000 <=? clk + t1 + t2) with true
    by (symmetry; apply Z.leb_le; lia).
  simpl.
  split; [account_events; reflexivity | split; reflexivity].
Qed.

Lemma highlight_second_click_keeps_label_witness :
  Account.timers Account.opened = [] /\
  0 <= 700 < 2000 /\
  2000 <= 2000 /\
  Account.sent
    (Account.new_events Account.opened
       (Account.elapse Account.ada 2000
          (snd (Account.exec Account.ada Account.createHighlight
                  (Account.elapse Account.ada 700
                     (snd (Account.exec Account.ada Account.createHighlight
                             Account.opened)))))))
    = [mkMessage "CREATE_HIGHLIGHT" None; mkMessage "CREATE_HIGHLIGHT" None] /\
  Account.textContent
    (Account.elapse Account.ada 2000
       (snd (Account.exec Account.ada Account.createHighlight
               (Account.elapse Account.ada 700
                  (snd (Account.exec Account.ada Account.createHighlight
                          Account.opened))))))
    "highlightBtn" = Account.HIGHLIGHT_CREATED /\
  Account.timers
    (Account.elapse Account.ada 2000
       (snd (Account.exec Account.ada Account.createHighlight
               (Account.elapse Account.ada 700
                  (snd (Account.exec Account.ada Account.createHighlight
                          Account.opened))))))
    = [].
Proof.
  split; [reflexivity | ].
  split; [lia | ].
  split; [lia | ].
  apply (@highlight_second_click_keeps_label Account.ada Account.opened 700 2000);
    [reflexivity | lia | lia].
Defined.
